(** * AskDB: the metadata extractor (metadata_extractor.py)

    A shallow embedding of [DatabaseMetadataExtractor]: the Python values
    it handles, the exceptions it raises and catches, the database
    cursor, the cache file and the clock it reads, and each of its
    methods as a state-passing function that returns a value or raises.

    Conventions.
    - A Python [dict] is an association list in insertion order; its keys
      are [str] (the keys of the extractor's dictionaries are string
      literals or names read from the catalog).  Using another value as a
      key is outside the model and reported as [TypeError].
    - A [str] is the string of its UTF-8 bytes.
    - [print] is not modelled: standard output is never read back.
    - Library functions whose result is not decided by this repository
      (psycopg2, pickle, json.dumps, float arithmetic, str.upper, ...)
      are the fields of the classes [Database], [Pickle] and [PyLib]. *)

From Stdlib Require Import ZArith String List Ascii Bool Lia PrimFloat Uint63 DecimalString.
From Stdlib Require SpecFloat FloatOps.
Import ListNotations.
Local Open Scope string_scope.
Local Open Scope list_scope.
Local Open Scope Z_scope.
Set Warnings "-register-all".

(** ** Python values and exceptions *)

Module Py.

Inductive exn : Type :=
| AttributeError
| KeyError (k : string)
| TypeError
| ValueError
| ZeroDivisionError
| InterfaceError            (* psycopg2: the cursor is already closed *)
| DatabaseError (msg : string)   (* psycopg2: the statement failed *)
| OperationalError          (* psycopg2.connect failed *)
| OSError
| UnpicklingError
| OverflowError.

Inductive result (A : Type) : Type :=
| Ok (a : A)
| Raise (e : exn).
Arguments Ok {A} a.
Arguments Raise {A} e.

Inductive pyval : Type :=
| VNone
| VBool (b : bool)
| VInt (z : Z)
| VFloat (f : float)
| VStr (s : string)
| VDatetime (us : Z)                 (* microseconds on the local time line *)
| VList (l : list pyval)
| VDict (d : list (string * pyval)).

Definition dict := list (string * pyval).

(** *** dict *)

Fixpoint dict_get (k : string) (d : dict) : option pyval :=
  match d with
  | [] => None
  | (k', v) :: r => if String.eqb k k' then Some v else dict_get k r
  end.

(** [d[k] = v]: an existing key keeps its position, a new one goes last. *)
Fixpoint dict_set (k : string) (v : pyval) (d : dict) : dict :=
  match d with
  | [] => [(k, v)]
  | (k', v') :: r =>
      if String.eqb k k' then (k, v) :: r else (k', v') :: dict_set k v r
  end.

Definition dict_has (k : string) (d : dict) : bool :=
  match dict_get k d with Some _ => true | None => false end.

Definition dict_values (d : dict) : list pyval := map snd d.

(** *** the result monad of pure Python expressions *)

Definition rbind {A B} (r : result A) (k : A -> result B) : result B :=
  match r with
  | Ok a => k a
  | Raise e => Raise e
  end.

Fixpoint rmap {A B} (f : A -> result B) (l : list A) : result (list B) :=
  match l with
  | [] => Ok []
  | x :: r =>
      rbind (f x) (fun y => rbind (rmap f r) (fun ys => Ok (y :: ys)))
  end.

(** *** built-ins *)

(** [bool(v)], as [if v:] and [not v] apply it. *)
Definition truthy (v : pyval) : bool :=
  match v with
  | VNone => false
  | VBool b => b
  | VInt z => negb (z =? 0)
  | VFloat f => negb (PrimFloat.eqb f PrimFloat.zero)
  | VStr s => negb (String.eqb s "")
  | VDatetime _ => true
  | VList l => match l with [] => false | _ => true end
  | VDict d => match d with [] => false | _ => true end
  end.

(** [o['k']] with a string literal [k]. *)
Definition subscript (o : pyval) (k : string) : result pyval :=
  match o with
  | VDict d => match dict_get k d with Some v => Ok v | None => Raise (KeyError k) end
  | _ => Raise TypeError
  end.

(** The value used as a dictionary key. *)
Definition as_key (v : pyval) : result string :=
  match v with
  | VStr s => Ok s
  | _ => Raise TypeError
  end.

(** [o.get(k, default)]. *)
Definition dict_get_method (o : pyval) (k : pyval) (default : pyval) : result pyval :=
  match o with
  | VDict d =>
      match k with
      | VStr s => Ok (match dict_get s d with Some v => v | None => default end)
      | VList _ | VDict _ => Raise TypeError
      | _ => Ok default
      end
  | _ => Raise AttributeError
  end.

(** [o.items()]. *)
Definition items (o : pyval) : result (list (string * pyval)) :=
  match o with
  | VDict d => Ok d
  | _ => Raise AttributeError
  end.

Definition chars (s : string) : list pyval :=
  map (fun c => VStr (String c EmptyString)) (list_ascii_of_string s).

(** [for x in o]. *)
Definition py_iter (o : pyval) : result (list pyval) :=
  match o with
  | VList l => Ok l
  | VDict d => Ok (map (fun kv => VStr (fst kv)) d)
  | VStr s => Ok (chars s)
  | _ => Raise TypeError
  end.

(** [len(o)]. *)
Definition py_len (o : pyval) : result Z :=
  match o with
  | VList l => Ok (Z.of_nat (List.length l))
  | VDict d => Ok (Z.of_nat (List.length d))
  | VStr s => Ok (Z.of_nat (String.length s))
  | _ => Raise TypeError
  end.

(** ['k' in o]. *)
Definition contains (k : string) (o : pyval) : result bool :=
  match o with
  | VDict d => Ok (dict_has k d)
  | VList l =>
      Ok (existsb (fun x => match x with VStr s => String.eqb s k | _ => false end) l)
  | VStr s => Ok (match String.index 0 k s with Some _ => true | None => false end)
  | _ => Raise TypeError
  end.

(** [sep.join(o)]. *)
Definition str_join (sep : string) (o : pyval) : result string :=
  rbind (py_iter o) (fun xs =>
  rbind (rmap (fun x => match x with VStr s => Ok s | _ => Raise TypeError end) xs)
        (fun ss => Ok (String.concat sep ss))).

(** [o == 'lit']. *)
Definition eq_str (o : pyval) (lit : string) : bool :=
  match o with
  | VStr s => String.eqb s lit
  | _ => false
  end.

(** [s * n] for a one-character string. *)
Fixpoint repeat_char (c : ascii) (n : nat) : string :=
  match n with
  | O => EmptyString
  | S m => String c (repeat_char c m)
  end.

(** An f-string is the concatenation of its pieces. *)
Definition fstr (pieces : list string) : string := String.concat "" pieces.

(** [str(z)] of an int. *)
Definition str_of_int (z : Z) : string := NilZero.string_of_int (Z.to_int z).

(** [format(z, ',')] of an int: groups of three digits from the right. *)
Fixpoint commas (rev_digits : list ascii) (k : nat) : list ascii :=
  match rev_digits with
  | [] => []
  | d :: r =>
      if Nat.eqb k 3 then ","%char :: d :: commas r 1
      else d :: commas r (S k)
  end.

Definition grouped_of_int (z : Z) : string :=
  let digits := list_ascii_of_string (str_of_int (Z.abs z)) in
  let body := string_of_list_ascii (rev (commas (rev digits) 0)) in
  if z <? 0 then String "-" body else body.

End Py.
Import Py.

Notation "'let?' x ':=' e 'in' k" := (rbind e (fun x => k))
  (at level 10, x name, e at level 100, k at level 200).

(** ** Statements: state passing with exceptions

    A statement takes the state and returns a value or raises, together
    with the state it leaves; the state it leaves after raising is the
    state at the raise, as in Python. *)

Definition M (St A : Type) : Type := St -> result A * St.

Definition ret {St A} (a : A) : M St A := fun s => (Ok a, s).

Definition raise {St A} (e : exn) : M St A := fun s => (Raise e, s).

Definition lift {St A} (r : result A) : M St A := fun s => (r, s).

Definition bind {St A B} (m : M St A) (k : A -> M St B) : M St B :=
  fun s =>
    match m s with
    | (Ok a, s1) => k a s1
    | (Raise e, s1) => (Raise e, s1)
    end.

(** [try: m / except: h e] (every exception of the model is an [Exception]). *)
Definition try_except {St A} (m : M St A) (h : exn -> M St A) : M St A :=
  fun s =>
    match m s with
    | (Ok a, s1) => (Ok a, s1)
    | (Raise e, s1) => h e s1
    end.

(** [try: m / finally: f]. *)
Definition try_finally {St A} (m : M St A) (f : M St unit) : M St A :=
  fun s =>
    let (r, s1) := m s in
    match f s1 with
    | (Ok _, s2) => (r, s2)
    | (Raise e, s2) => (Raise e, s2)
    end.

Declare Scope py_scope.
Delimit Scope py_scope with py.
Notation "x <- m ;; k" := (bind m (fun x => k))
  (at level 100, m at next level, right associativity) : py_scope.
Notation "m ;; k" := (bind m (fun _ => k))
  (at level 100, right associativity) : py_scope.
Local Open Scope py_scope.

(** [for x in xs: acc = body acc x], the loop's variables being [acc]. *)
Fixpoint for_each {St A B} (xs : list A) (acc : B) (body : B -> A -> M St B) : M St B :=
  match xs with
  | [] => ret acc
  | x :: r => acc1 <- body acc x ;; for_each r acc1 body
  end.

(** The same loop for a body that touches no state. *)
Fixpoint rfold {A B} (xs : list A) (acc : B) (body : B -> A -> result B) : result B :=
  match xs with
  | [] => Ok acc
  | x :: r => let? acc1 := body acc x in rfold r acc1 body
  end.

(** ** The collaborators *)

(** The statements the extractor sends, with the values it substitutes
    (as parameters or, for the two f-string queries, in the text). *)
Inductive query : Type :=
| Q_tables_info
| Q_views_info
| Q_columns_info (table_name : pyval)
| Q_primary_keys (table_name : pyval)
| Q_foreign_keys (table_name : pyval)
| Q_indexes (table_name : pyval)
| Q_sample_data (table_name : string) (limit : Z)
| Q_row_count (table_name : pyval)
| Q_table_size (table_name : pyval)
| Q_column_statistics (col_name table_name : string)
| Q_table_relationships.

(** psycopg2 and the server behind it.  [pg_execute] is [cursor.execute]
    followed by the fetch: the rows of a [RealDictCursor] are dicts. *)
Class Database : Type := {
  DB : Type;
  pg_connect : dict -> DB -> result unit * DB;
  pg_execute : DB -> query -> result (list dict) * DB
}.

(** pickle, and the bytes of the cache file. *)
Class Pickle : Type := {
  blob : Type;
  pickle_dump : pyval -> blob;
  pickle_load : blob -> result pyval
}.

(** The remaining library functions. *)
Class PyLib : Type := {
  str_other : pyval -> string;        (* str(v) of a float, datetime, list or dict *)
  str_of_exn : exn -> string;         (* str(e) *)
  grouped_of_float : float -> string; (* format(f, ',') *)
  json_dumps : pyval -> string;       (* json.dumps(v, default=str) *)
  isoformat : Z -> string;            (* datetime.isoformat() *)
  str_upper : string -> string;       (* str.upper() *)
  int_of_other : pyval -> result Z;   (* int(v) of a float or str *)
  float_of_int : Z -> float;          (* the float an int converts to *)
  int_truediv : Z -> Z -> float;      (* a / b of two ints, b <> 0 *)
  float_round : float -> Z -> float   (* round(f, ndigits) *)
}.

Inductive cursor_state : Type :=
| NoCursor          (* the attributes conn and cursor do not exist yet *)
| CursorOpen
| CursorClosed.

Inductive event : Type :=
| Connect
| Execute (q : query)
| Close.

(** The extractor object and the world around it. *)
Record State `{Database} `{Pickle} : Type := mkState {
  connection_params : dict;      (* self.connection_params *)
  metadata : pyval;              (* self.metadata *)
  cursor : cursor_state;         (* self.conn and self.cursor *)
  db : DB;                       (* the server *)
  cache_file : option blob;      (* the file at self.cache_file, if it exists *)
  cache_writable : bool;         (* whether it can be opened for writing *)
  clock : nat -> Z;              (* the successive readings of datetime.now() *)
  ticks : nat;                   (* how many readings were taken *)
  trace : list event             (* what was asked of psycopg2, oldest first *)
}.
Arguments mkState {_ _} _ _ _ _ _ _ _ _ _.

(** self.cache_ttl = timedelta(hours=1), in microseconds. *)
Definition cache_ttl : Z := 3600 * 1000000.

Section Extractor.
Context `{Database} `{Pickle} `{PyLib}.

Definition set_metadata (m : pyval) (s : State) : State :=
  mkState (connection_params s) m (cursor s) (db s) (cache_file s)
          (cache_writable s) (clock s) (ticks s) (trace s).

Definition set_cache_file (f : option blob) (s : State) : State :=
  mkState (connection_params s) (metadata s) (cursor s) (db s) f
          (cache_writable s) (clock s) (ticks s) (trace s).

Definition set_ticks (n : nat) (s : State) : State :=
  mkState (connection_params s) (metadata s) (cursor s) (db s) (cache_file s)
          (cache_writable s) (clock s) n (trace s).

(** One call of psycopg2: the cursor, the server and the trace change. *)
Definition db_step (c : cursor_state) (d : DB) (e : event) (s : State) : State :=
  mkState (connection_params s) (metadata s) c d (cache_file s)
          (cache_writable s) (clock s) (ticks s) (trace s ++ [e]).

Definition Stmt (A : Type) : Type := M State A.

(** [datetime.now()]. *)
Definition now : Stmt Z :=
  fun s => (Ok (clock s (ticks s)), set_ticks (S (ticks s)) s).

(** [self.cursor.execute(q)] and the rows it makes available. *)
Definition execute (q : query) : Stmt (list dict) :=
  fun s =>
    match cursor s with
    | NoCursor => (Raise AttributeError, s)
    | CursorClosed => (Raise InterfaceError, s)
    | CursorOpen =>
        let (r, d) := pg_execute (db s) q in
        (r, db_step CursorOpen d (Execute q) s)
    end.

Definition fetchall (rows : list dict) : list pyval := map VDict rows.

Definition fetchone (rows : list dict) : pyval :=
  match rows with
  | [] => VNone
  | r :: _ => VDict r
  end.

Definition connect : Stmt bool :=
  fun s =>
    let (r, d) := pg_connect (connection_params s) (db s) in
    match r with
    | Ok _ => (Ok true, db_step CursorOpen d Connect s)
    | Raise _ => (Ok false, db_step (cursor s) d Connect s)
    end.

Definition close : Stmt unit :=
  fun s =>
    match cursor s with
    | NoCursor => (Ok tt, s)
    | _ => (Ok tt, db_step CursorClosed (db s) Close s)
    end.

(** *** str, int and arithmetic *)

(** [str(v)], as an f-string applies it. *)
Definition py_str (v : pyval) : string :=
  match v with
  | VStr s => s
  | VNone => "None"
  | VBool true => "True"
  | VBool false => "False"
  | VInt z => str_of_int z
  | _ => str_other v
  end.

(** [format(v, ',')]. *)
Definition format_grouped (v : pyval) : result string :=
  match v with
  | VInt z => Ok (grouped_of_int z)
  | VBool b => Ok (grouped_of_int (Z.b2z b))
  | VFloat f => Ok (grouped_of_float f)
  | VStr _ => Raise ValueError
  | _ => Raise TypeError
  end.

(** [int(v)]. *)
Definition py_int (v : pyval) : result Z :=
  match v with
  | VInt z => Ok z
  | VBool b => Ok (Z.b2z b)
  | VFloat _ | VStr _ => int_of_other v
  | _ => Raise TypeError
  end.

Inductive num : Type :=
| NInt (z : Z)
| NFloat (f : float).

Definition as_num (v : pyval) : result num :=
  match v with
  | VInt z => Ok (NInt z)
  | VBool b => Ok (NInt (Z.b2z b))
  | VFloat f => Ok (NFloat f)
  | _ => Raise TypeError
  end.

Definition to_float (n : num) : float :=
  match n with
  | NInt z => float_of_int z
  | NFloat f => f
  end.

(** [a - b]. *)
Definition py_sub (a b : pyval) : result pyval :=
  let? x := as_num a in
  let? y := as_num b in
  match x, y with
  | NInt p, NInt q => Ok (VInt (p - q))
  | _, _ => Ok (VFloat (PrimFloat.sub (to_float x) (to_float y)))
  end.

(** [a > 0]. *)
Definition py_gt0 (a : pyval) : result bool :=
  let? x := as_num a in
  match x with
  | NInt p => Ok (0 <? p)
  | NFloat f => Ok (PrimFloat.ltb PrimFloat.zero f)
  end.

(** [a / b]: true division raises on a zero divisor. *)
Definition py_truediv (a b : pyval) : result pyval :=
  let? x := as_num a in
  let? y := as_num b in
  match x, y with
  | NInt p, NInt q =>
      if q =? 0 then Raise ZeroDivisionError else Ok (VFloat (int_truediv p q))
  | _, _ =>
      if PrimFloat.eqb (to_float y) PrimFloat.zero then Raise ZeroDivisionError
      else Ok (VFloat (PrimFloat.div (to_float x) (to_float y)))
  end.

(** [a * 100]. *)
Definition py_mul100 (a : pyval) : result pyval :=
  let? x := as_num a in
  match x with
  | NInt p => Ok (VInt (p * 100))
  | NFloat f => Ok (VFloat (PrimFloat.mul f (float_of_int 100)))
  end.

(** [round(a, 2)]: an int stays an int. *)
Definition py_round2 (a : pyval) : result pyval :=
  let? x := as_num a in
  match x with
  | NInt p => Ok (VInt p)
  | NFloat f => Ok (VFloat (float_round f 2))
  end.

(** *** Schema Prober *)

Definition get_tables_info : Stmt (list dict) := execute Q_tables_info.

Definition get_views_info : Stmt (list dict) := execute Q_views_info.

Definition get_columns_info (table_name : pyval) : Stmt (list dict) :=
  execute (Q_columns_info table_name).

Definition get_primary_keys (table_name : pyval) : Stmt (list pyval) :=
  try_except
    (rows <- execute (Q_primary_keys table_name) ;;
     lift (rmap (fun row => subscript row "column_name") (fetchall rows)))
    (fun _ => ret []).

Definition get_foreign_keys (table_name : pyval) : Stmt (list dict) :=
  execute (Q_foreign_keys table_name).

(** One row of the index listing: the loop body of [get_indexes]. *)
Definition index_row (indexes : dict) (row : pyval) : result dict :=
  let? idx_name := subscript row "index_name" in
  let? k := as_key idx_name in
  let? indexes1 :=
    (if dict_has k indexes then Ok indexes
     else
       let? is_unique := subscript row "is_unique" in
       let? is_primary := subscript row "is_primary" in
       let? index_type := subscript row "index_type" in
       Ok (dict_set k (VDict [("index_name", idx_name);
                              ("columns", VList []);
                              ("is_unique", is_unique);
                              ("is_primary", is_primary);
                              ("index_type", index_type)]) indexes)) in
  let? entry := subscript (VDict indexes1) k in
  let? columns := subscript entry "columns" in
  let? column_name := subscript row "column_name" in
  match entry, columns with
  | VDict e, VList c =>
      Ok (dict_set k (VDict (dict_set "columns" (VList (c ++ [column_name])) e)) indexes1)
  | _, _ => Raise AttributeError
  end.

Definition get_indexes (table_name : pyval) : Stmt (list pyval) :=
  try_except
    (rows <- execute (Q_indexes table_name) ;;
     indexes <- lift (rfold (fetchall rows) [] index_row) ;;
     ret (dict_values indexes))
    (fun _ => ret []).

Definition get_sample_data (table_name : pyval) (limit : Z) : Stmt (list dict) :=
  try_except
    (execute (Q_sample_data (py_str table_name) limit))
    (fun _ => ret []).

Definition get_row_count (table_name : pyval) : Stmt Z :=
  try_except
    (rows <- execute (Q_row_count table_name) ;;
     let res := fetchone rows in
     if truthy res
     then lift (let? estimate := subscript res "estimate" in py_int estimate)
     else ret 0)
    (fun _ => ret 0).

Definition get_table_size (table_name : pyval) : Stmt pyval :=
  try_except
    (rows <- execute (Q_table_size table_name) ;;
     let res := fetchone rows in
     if truthy res
     then lift (subscript res "size")
     else ret (VStr "Unknown"))
    (fun _ => ret (VStr "Unknown")).

(** The dictionary stored for one column, from the row of its three counts. *)
Definition column_stats_entry (res : pyval) : result pyval :=
  let? total := subscript res "total_rows" in
  let? non_null := subscript res "non_null_count" in
  let? null_count := py_sub total non_null in
  let? null_guard := py_gt0 total in
  let? null_ratio :=
    (if null_guard
     then let? q := py_truediv null_count total in py_mul100 q
     else Ok (VInt 0)) in
  let? null_percentage := py_round2 null_ratio in
  let? distinct_count := subscript res "distinct_count" in
  let? distinct_guard := py_gt0 total in
  let? distinct_ratio :=
    (if distinct_guard
     then let? d := subscript res "distinct_count" in
          let? q := py_truediv d total in py_mul100 q
     else Ok (VInt 0)) in
  let? distinct_percentage := py_round2 distinct_ratio in
  Ok (VDict [("null_count", null_count);
             ("null_percentage", null_percentage);
             ("distinct_count", distinct_count);
             ("distinct_percentage", distinct_percentage)]).

(** The loop body of [get_column_statistics]. *)
Definition column_statistics_step (table_name : pyval) (stats : dict) (col : dict)
  : Stmt dict :=
  col_name <- lift (subscript (VDict col) "column_name") ;;
  try_except
    (rows <- execute (Q_column_statistics (py_str col_name) (py_str table_name)) ;;
     entry <- lift (column_stats_entry (fetchone rows)) ;;
     k <- lift (as_key col_name) ;;
     ret (dict_set k entry stats))
    (fun e =>
       k <- lift (as_key col_name) ;;
       ret (dict_set k (VDict [("error", VStr (str_of_exn e))]) stats)).

Definition get_column_statistics (table_name : pyval) : Stmt dict :=
  columns <- get_columns_info table_name ;;
  for_each columns [] (column_statistics_step table_name).

(** *** Relationship Grapher *)

(** The loop body of [get_table_relationships]: [relationships] is a
    [defaultdict(list)], so reading a missing key creates it with []. *)
Definition relationship_row (relationships : dict) (row : pyval) : result dict :=
  let? from_table := subscript row "from_table" in
  let? k := as_key from_table in
  let relationships1 :=
    if dict_has k relationships then relationships
    else dict_set k (VList []) relationships in
  let? from_column := subscript row "from_column" in
  let? to_table := subscript row "to_table" in
  let? to_column := subscript row "to_column" in
  match dict_get k relationships1 with
  | Some (VList rels) =>
      Ok (dict_set k (VList (rels ++ [VDict [("from_column", from_column);
                                             ("to_table", to_table);
                                             ("to_column", to_column)]]))
                   relationships1)
  | _ => Raise AttributeError
  end.

Definition get_table_relationships : Stmt dict :=
  rows <- execute Q_table_relationships ;;
  lift (rfold (fetchall rows) [] relationship_row).

(** *** Cache Manager *)

(** [save_to_cache]: the entry is the snapshot and the time of the write;
    a file that cannot be written leaves the old one in place. *)
Definition save_to_cache : Stmt unit :=
  cached_at <- now ;;
  fun s =>
    let cache_data := VDict [("metadata", metadata s); ("cached_at", VDatetime cached_at)] in
    try_except
      (fun s1 =>
         if cache_writable s1
         then (Ok tt, set_cache_file (Some (pickle_dump cache_data)) s1)
         else (Raise OSError, s1))
      (fun _ => ret tt)
      s.

(** [datetime.now() - cached_at > self.cache_ttl]. *)
Definition expired (t : Z) (cached_at : pyval) : result bool :=
  match cached_at with
  | VDatetime c => Ok (cache_ttl <? t - c)
  | _ => Raise TypeError
  end.

Definition load_from_cache : Stmt bool :=
  fun s =>
    match cache_file s with
    | None => (Ok false, s)
    | Some f =>
        try_except
          (cache_data <- lift (pickle_load f) ;;
           cached_at <- lift (subscript cache_data "cached_at") ;;
           t <- now ;;
           old <- lift (expired t cached_at) ;;
           if (old : bool) then ret false
           else
             m <- lift (subscript cache_data "metadata") ;;
             (fun s1 => (Ok true, set_metadata m s1)))
          (fun _ => ret false)
          s
    end.

Definition clear_cache : Stmt unit :=
  fun s =>
    match cache_file s with
    | None => (Ok tt, s)
    | Some _ => (Ok tt, set_cache_file None s)
    end.

(** *** Metadata Aggregator *)

(** The loop body over the tables; [tables] is [metadata['tables']]. *)
Definition process_table (include_samples : bool) (sample_rows : Z)
    (include_statistics : bool) (tables : dict) (table_info : dict) : Stmt dict :=
  table_name <- lift (subscript (VDict table_info) "table_name") ;;
  columns <- get_columns_info table_name ;;
  primary_keys <- get_primary_keys table_name ;;
  foreign_keys <- get_foreign_keys table_name ;;
  indexes <- get_indexes table_name ;;
  row_count <- get_row_count table_name ;;
  table_size <- get_table_size table_name ;;
  table_type <- lift (subscript (VDict table_info) "table_type") ;;
  comment <- lift (subscript (VDict table_info) "table_comment") ;;
  let table_metadata : dict :=
    [("table_type", table_type);
     ("comment", comment);
     ("row_count", VInt row_count);
     ("table_size", table_size);
     ("columns", VList (fetchall columns));
     ("primary_keys", VList primary_keys);
     ("foreign_keys", VList (fetchall foreign_keys));
     ("indexes", VList indexes)] in
  table_metadata1 <-
    (if include_statistics && (0 <? row_count)
     then stats <- get_column_statistics table_name ;;
          ret (dict_set "column_statistics" (VDict stats) table_metadata)
     else ret table_metadata) ;;
  table_metadata2 <-
    (if include_samples && (0 <? row_count)
     then sample <- get_sample_data table_name sample_rows ;;
          ret (dict_set "sample_data" (VList (fetchall sample)) table_metadata1)
     else ret table_metadata1) ;;
  k <- lift (as_key table_name) ;;
  ret (dict_set k (VDict table_metadata2) tables).

(** The loop body over the views; [views] is [metadata['views']]. *)
Definition process_view (include_samples : bool) (sample_rows : Z)
    (views : dict) (view_info : dict) : Stmt dict :=
  view_name <- lift (subscript (VDict view_info) "view_name") ;;
  columns <- get_columns_info view_name ;;
  view_type <- lift (subscript (VDict view_info) "table_type") ;;
  comment <- lift (subscript (VDict view_info) "view_comment") ;;
  definition <- lift (subscript (VDict view_info) "view_definition") ;;
  let view_metadata : dict :=
    [("view_type", view_type);
     ("comment", comment);
     ("definition", definition);
     ("columns", VList (fetchall columns))] in
  view_metadata1 <-
    (if include_samples
     then sample <- get_sample_data view_name sample_rows ;;
          ret (dict_set "sample_data" (VList (fetchall sample)) view_metadata)
     else ret view_metadata) ;;
  k <- lift (as_key view_name) ;;
  ret (dict_set k (VDict view_metadata1) views).

(** The [try] block of [extract_all_metadata]. *)
Definition extract_body (include_samples : bool) (sample_rows : Z)
    (include_statistics use_cache : bool) : Stmt pyval :=
  tables <- get_tables_info ;;
  views <- get_views_info ;;
  relationships <- get_table_relationships ;;
  params <- (fun s => (Ok (connection_params s), s)) ;;
  database_name <- lift (dict_get_method (VDict params) (VStr "database") VNone) ;;
  extracted_at <- now ;;
  let metadata0 : dict :=
    [("database_name", database_name);
     ("extracted_at", VStr (isoformat extracted_at));
     ("total_tables", VInt (Z.of_nat (List.length tables)));
     ("total_views", VInt (Z.of_nat (List.length views)));
     ("tables", VDict []);
     ("views", VDict []);
     ("relationships", VDict relationships)] in
  tables_meta <- for_each tables [] (process_table include_samples sample_rows include_statistics) ;;
  views_meta <- for_each views [] (process_view include_samples sample_rows) ;;
  let metadata1 :=
    VDict (dict_set "views" (VDict views_meta)
             (dict_set "tables" (VDict tables_meta) metadata0)) in
  (fun s => (Ok tt, set_metadata metadata1 s)) ;;
  (if use_cache then save_to_cache else ret tt) ;;
  ret metadata1.

Definition extract_all_metadata (include_samples : bool) (sample_rows : Z)
    (include_statistics use_cache : bool) : Stmt pyval :=
  hit <- (if use_cache then load_from_cache else ret false) ;;
  if (hit : bool) then (fun s => (Ok (metadata s), s))
  else
    connected <- connect ;;
    if negb connected then ret (VDict [])
    else
      try_finally
        (extract_body include_samples sample_rows include_statistics use_cache)
        close.

(** *** AI Text Formatter *)

Definition nl : string := String (ascii_of_nat 10) EmptyString.

Definition rule : string := repeat_char "="%char 80.

Definition thin_rule : string := repeat_char "-"%char 80.

Fixpoint enumerate {A} (start : Z) (l : list A) : list (Z * A) :=
  match l with
  | [] => []
  | x :: r => (start, x) :: enumerate (start + 1) r
  end.

Definition generate_relationship_diagram : Stmt string :=
  relationships <- get_table_relationships ;;
  let diagram := [fstr [nl; rule]; "DATABASE RELATIONSHIP DIAGRAM"; fstr [rule; nl]] in
  if negb (truthy (VDict relationships))
  then ret (String.concat nl
              (diagram ++ [fstr ["No foreign key relationships found in the database."; nl]]))
  else
    body <- lift (rmap (fun entry : string * pyval =>
                          let (from_table, rels) := entry in
                          let? rels_list := py_iter rels in
                          let? edges :=
                            rmap (fun rel =>
                                    let? from_column := subscript rel "from_column" in
                                    let? to_table := subscript rel "to_table" in
                                    let? to_column := subscript rel "to_column" in
                                    Ok (fstr ["   └─→ "; py_str from_column;
                                              " references "; py_str to_table;
                                              "."; py_str to_column]))
                                 rels_list in
                          Ok (fstr [nl; "📊 "; str_upper from_table] :: edges))
                       relationships) ;;
    ret (String.concat nl (diagram ++ concat body ++ [fstr [nl; rule; nl]])).

(** The line of one column of a table. *)
Definition format_column (table_data col : pyval) : result string :=
  let? column_name := subscript col "column_name" in
  let? data_type := subscript col "data_type" in
  let col_desc := fstr ["  • "; py_str column_name; ": "; py_str data_type] in
  let? max_length := subscript col "character_maximum_length" in
  let? col_desc1 :=
    (if truthy max_length
     then Ok (fstr [col_desc; "("; py_str max_length; ")"])
     else
       let? precision := subscript col "numeric_precision" in
       if truthy precision
       then
         let? scale := subscript col "numeric_scale" in
         Ok (fstr [col_desc; "("; py_str precision;
                   (if truthy scale then fstr [","; py_str scale] else "");
                   ")"])
       else Ok col_desc) in
  let? is_nullable := subscript col "is_nullable" in
  let nullable := if eq_str is_nullable "YES" then "NULL" else "NOT NULL" in
  let col_desc2 := fstr [col_desc1; " "; nullable] in
  let? column_default := subscript col "column_default" in
  let col_desc3 :=
    if truthy column_default
    then fstr [col_desc2; " DEFAULT "; py_str column_default]
    else col_desc2 in
  let? has_statistics := contains "column_statistics" table_data in
  let? col_desc4 :=
    (if (has_statistics : bool)
     then
       let? column_statistics := subscript table_data "column_statistics" in
       let? name := subscript col "column_name" in
       let? stats := dict_get_method column_statistics name (VDict []) in
       let? has_nulls := contains "null_percentage" stats in
       if (has_nulls : bool)
       then
         let? null_percentage := subscript stats "null_percentage" in
         let? distinct_count := subscript stats "distinct_count" in
         Ok (fstr [col_desc3; " [Nulls: "; py_str null_percentage;
                   "%, Distinct: "; py_str distinct_count; "]"])
       else Ok col_desc3
     else Ok col_desc3) in
  let? column_comment := dict_get_method col (VStr "column_comment") VNone in
  Ok (if truthy column_comment
      then fstr [col_desc4; nl; "    Comment: "; py_str column_comment]
      else col_desc4).

Definition format_foreign_key (fk : pyval) : result string :=
  let? column_name := subscript fk "column_name" in
  let? foreign_table_name := subscript fk "foreign_table_name" in
  let? foreign_column_name := subscript fk "foreign_column_name" in
  let? update_rule := subscript fk "update_rule" in
  let? delete_rule := subscript fk "delete_rule" in
  Ok (fstr ["  • "; py_str column_name; " → "; py_str foreign_table_name; ".";
            py_str foreign_column_name;
            nl; "    ON UPDATE: "; py_str update_rule;
            ", ON DELETE: "; py_str delete_rule]).

Definition format_index (idx : pyval) : result string :=
  let? is_unique := subscript idx "is_unique" in
  let? is_primary := subscript idx "is_primary" in
  let idx_type :=
    if truthy is_primary then "PRIMARY KEY"
    else if truthy is_unique then "UNIQUE" else "INDEX" in
  let? index_name := subscript idx "index_name" in
  let? index_type := dict_get_method idx (VStr "index_type") (VStr "btree") in
  let? columns := subscript idx "columns" in
  let? joined := str_join ", " columns in
  Ok (fstr ["  • "; py_str index_name; " ("; idx_type; ", "; py_str index_type;
            ") on ["; joined; "]"]).

Definition format_sample_row (numbered : Z * pyval) : string :=
  fstr ["  Row "; str_of_int (fst numbered); ": "; json_dumps (snd numbered)].

(** The lines of one table section. *)
Definition format_table (entry : string * pyval) : result (list string) :=
  let (table_name, table_data) := entry in
  let? table_type := subscript table_data "table_type" in
  let? row_count := subscript table_data "row_count" in
  let? row_count_text := format_grouped row_count in
  let? table_size := subscript table_data "table_size" in
  let head :=
    [fstr [nl; rule];
     fstr ["TABLE: "; table_name];
     rule;
     fstr ["Type: "; py_str table_type];
     fstr ["Row Count: ~"; row_count_text];
     fstr ["Size: "; py_str table_size]] in
  let? comment := dict_get_method table_data (VStr "comment") VNone in
  let description :=
    if truthy comment then [fstr ["Description: "; py_str comment]] else [] in
  let? primary_keys := subscript table_data "primary_keys" in
  let? keys :=
    (if truthy primary_keys
     then let? joined := str_join ", " primary_keys in
          Ok [fstr [nl; "Primary Key(s): "; joined]]
     else Ok []) in
  let? columns := subscript table_data "columns" in
  let? column_count := py_len columns in
  let? column_list := py_iter columns in
  let? column_lines := rmap (format_column table_data) column_list in
  let? foreign_keys := subscript table_data "foreign_keys" in
  let? fk_lines :=
    (if truthy foreign_keys
     then let? fks := py_iter foreign_keys in
          let? lines := rmap format_foreign_key fks in
          Ok (fstr [nl; "FOREIGN KEYS:"] :: lines)
     else Ok []) in
  let? indexes := subscript table_data "indexes" in
  let? index_lines :=
    (if truthy indexes
     then let? idxs := py_iter indexes in
          let? lines := rmap format_index idxs in
          Ok (fstr [nl; "INDEXES:"] :: lines)
     else Ok []) in
  let? sample_data := dict_get_method table_data (VStr "sample_data") VNone in
  let? sample_lines :=
    (if truthy sample_data
     then
       let? n := py_len sample_data in
       if 0 <? n
       then let? rows := py_iter sample_data in
            Ok (fstr [nl; "SAMPLE DATA (first "; str_of_int n; " rows):"]
                  :: map format_sample_row (enumerate 1 rows))
       else Ok []
     else Ok []) in
  Ok (head ++ description ++ keys
        ++ [fstr [nl; "COLUMNS ("; str_of_int column_count; "):"]] ++ column_lines
        ++ fk_lines ++ index_lines ++ sample_lines).

(** The lines of one view section. *)
Definition format_view (entry : string * pyval) : result (list string) :=
  let (view_name, view_data) := entry in
  let? view_type := subscript view_data "view_type" in
  let head :=
    [fstr [nl; thin_rule];
     fstr ["VIEW: "; view_name];
     thin_rule;
     fstr ["Type: "; py_str view_type]] in
  let? comment := dict_get_method view_data (VStr "comment") VNone in
  let description :=
    if truthy comment then [fstr ["Description: "; py_str comment]] else [] in
  let? definition := subscript view_data "definition" in
  let? columns := subscript view_data "columns" in
  let? column_count := py_len columns in
  let? column_list := py_iter columns in
  let? column_lines :=
    rmap (fun col =>
            let? column_name := subscript col "column_name" in
            let? data_type := subscript col "data_type" in
            Ok (fstr ["  • "; py_str column_name; ": "; py_str data_type]))
         column_list in
  let? sample_data := dict_get_method view_data (VStr "sample_data") VNone in
  let? sample_lines :=
    (if truthy sample_data
     then let? rows := py_iter sample_data in
          Ok (fstr [nl; "SAMPLE DATA:"] :: map format_sample_row (enumerate 1 rows))
     else Ok []) in
  Ok (head ++ description
        ++ [fstr [nl; "Definition:"; nl; py_str definition]]
        ++ [fstr [nl; "COLUMNS ("; str_of_int column_count; "):"]] ++ column_lines
        ++ sample_lines).

(** [format_for_ai]: the text of [self.metadata]; the relationship diagram
    is produced by [generate_relationship_diagram], which asks the cursor. *)
Definition format_for_ai : Stmt string :=
  m <- (fun s => (Ok (metadata s), s)) ;;
  if negb (truthy m)
  then ret "No metadata available. Run extract_all_metadata() first."
  else
    database_name <- lift (subscript m "database_name") ;;
    extracted_at <- lift (subscript m "extracted_at") ;;
    total_tables <- lift (subscript m "total_tables") ;;
    total_views <- lift (subscript m "total_views") ;;
    let header :=
      [fstr ["DATABASE: "; py_str database_name];
       fstr ["Extracted: "; py_str extracted_at];
       fstr ["Total Tables: "; py_str total_tables];
       fstr ["Total Views: "; py_str total_views; nl]] in
    diagram <- generate_relationship_diagram ;;
    tables <- lift (let? t := subscript m "tables" in items t) ;;
    table_lines <- lift (rmap format_table tables) ;;
    views <- lift (subscript m "views") ;;
    view_lines <-
      (if truthy views
       then
         entries <- lift (items views) ;;
         sections <- lift (rmap format_view entries) ;;
         ret ([fstr [nl; nl; rule]; "VIEWS AND MATERIALIZED VIEWS"; rule] ++ concat sections)
       else ret []) ;;
    ret (String.concat nl
           (header ++ [diagram]
              ++ [rule; "DETAILED SCHEMA INFORMATION"; rule]
              ++ concat table_lines ++ view_lines)).

End Extractor.

(** ** A concrete setting for running the extractor

    A server that answers every statement from a fixed catalog, over a
    connection that behaves as one of psycopg2 does: the statements run
    in one transaction, which [connect()] opens and nothing commits or
    rolls back, so that once a statement has failed every later one on
    that connection fails too.  A pickle whose blobs are the pickled
    value itself or garbage, and the formatting functions of the
    library on the values the runs meet. *)

Module Demo.

Record server : Type := mkSession {
  reachable : bool;
  answer : query -> result (list dict);
  aborted : bool      (* a statement has failed in the transaction *)
}.

(** A server on which no connection is open. *)
Definition mkServer (reachable : bool) (answer : query -> result (list dict)) : server :=
  mkSession reachable answer false.

Definition in_failed_transaction : exn :=
  DatabaseError "current transaction is aborted, commands ignored until end of transaction block".

#[export] Instance session_database : Database := {|
  DB := server;
  pg_connect := fun _ d =>
    (if reachable d then Ok tt else Raise OperationalError,
     mkSession (reachable d) (answer d) false);
  pg_execute := fun d q =>
    if aborted d then (Raise in_failed_transaction, d)
    else
      match answer d q with
      | Ok rows => (Ok rows, d)
      | Raise e => (Raise e, mkSession (reachable d) (answer d) true)
      end
|}.

#[export] Instance option_pickle : Pickle := {|
  blob := option pyval;
  pickle_dump := fun v => Some v;
  pickle_load := fun b =>
    match b with
    | Some v => Ok v
    | None => Raise UnpicklingError
    end
|}.

(** *** Dates and times

    A [datetime] is the number of microseconds since 1970-01-01 00:00:00
    on the local time line (the proleptic Gregorian calendar, years 1 to
    9999). *)

Fixpoint zeros (n : nat) : string :=
  match n with
  | O => ""
  | S k => String "0" (zeros k)
  end.

(** [z] in decimal, padded with zeros to [width] digits ([0 <= z]). *)
Definition padded (width : nat) (z : Z) : string :=
  let digits := str_of_int z in
  (zeros (width - String.length digits) ++ digits)%string.

(** The year, month and day of day [days] after 1970-01-01. *)
Definition civil_of_days (days : Z) : Z * Z * Z :=
  let z := days + 719468 in
  let era := z / 146097 in
  let doe := z - era * 146097 in
  let yoe := (doe - doe / 1460 + doe / 36524 - doe / 146096) / 365 in
  let doy := doe - (365 * yoe + yoe / 4 - yoe / 100) in
  let mp := (5 * doy + 2) / 153 in
  let d := doy - (153 * mp + 2) / 5 + 1 in
  let m := if mp <? 10 then mp + 3 else mp - 9 in
  let y := yoe + era * 400 + (if m <=? 2 then 1 else 0) in
  (y, m, d).

Definition microseconds_per_day : Z := 86400 * 1000000.

(** [datetime.isoformat(sep)]; [str(datetime)] is [isoformat(' ')]. *)
Definition clock_text (separator : string) (us : Z) : string :=
  let '(y, m, d) := civil_of_days (us / microseconds_per_day) in
  let rest := us mod microseconds_per_day in
  let seconds := rest / 1000000 in
  let micro := rest mod 1000000 in
  fstr [padded 4 y; "-"; padded 2 m; "-"; padded 2 d; separator;
        padded 2 (seconds / 3600); ":"; padded 2 (seconds / 60 mod 60); ":";
        padded 2 (seconds mod 60);
        if micro =? 0 then "" else String "." (padded 6 micro)].

(** [datetime.strftime('%Y%m%d_%H%M%S')]. *)
Definition stamp_text (us : Z) : string :=
  let '(y, m, d) := civil_of_days (us / microseconds_per_day) in
  let seconds := us mod microseconds_per_day / 1000000 in
  fstr [str_of_int y; padded 2 m; padded 2 d; "_";
        padded 2 (seconds / 3600); padded 2 (seconds / 60 mod 60);
        padded 2 (seconds mod 60)].

(** [repr(datetime)]. *)
Definition datetime_repr (us : Z) : string :=
  let '(y, m, d) := civil_of_days (us / microseconds_per_day) in
  let rest := us mod microseconds_per_day in
  let seconds := rest / 1000000 in
  let micro := rest mod 1000000 in
  fstr ["datetime.datetime("; str_of_int y; ", "; str_of_int m; ", "; str_of_int d; ", ";
        str_of_int (seconds / 3600); ", "; str_of_int (seconds / 60 mod 60);
        if (seconds mod 60 =? 0) && (micro =? 0) then ""
        else fstr [", "; str_of_int (seconds mod 60)];
        if micro =? 0 then "" else fstr [", "; str_of_int micro];
        ")"].

(** *** Floats *)

(** The float nearest to [p / q], ties to even: what CPython's int to
    float conversion, its true division of ints and its [strtod] give. *)
Definition float_of_ratio (p : Z) (q : positive) : float :=
  let quotient (negative : bool) (m : positive) :=
    FloatOps.SF2Prim
      (SpecFloat.SFdiv FloatOps.prec FloatOps.emax
         (SpecFloat.S754_finite negative m 0) (SpecFloat.S754_finite false q 0)) in
  match p with
  | Z0 => PrimFloat.zero
  | Zpos m => quotient false m
  | Zneg m => quotient true m
  end.

(** [float(z)] (an int beyond the range of floats, where Python raises
    OverflowError, gives an infinity here). *)
Definition exact_float (z : Z) : float := float_of_ratio z 1.

(** [a / b] of two ints, correctly rounded; [0 / b] is -0.0 when [b < 0]. *)
Definition exact_truediv (a b : Z) : float :=
  match b with
  | Zpos q => float_of_ratio a q
  | Zneg q =>
      match a with
      | Z0 => PrimFloat.opp PrimFloat.zero
      | _ => float_of_ratio (- a) q
      end
  | Z0 => PrimFloat.nan
  end.

(** The integer nearest to [num / den], ties to even ([0 <= num], [0 < den]). *)
Definition round_half_even (num den : Z) : Z :=
  let q := num / den in
  match 2 * (num mod den) ?= den with
  | Lt => q
  | Gt => q + 1
  | Eq => if Z.even q then q else q + 1
  end.

(** [round(f, ndigits)] of a float, as CPython computes it: the exact
    binary value of [f] is rounded to [ndigits] decimal places, ties to
    even, and the decimal is converted back to the nearest float. *)
Definition exact_round (f : float) (ndigits : Z) : float :=
  match FloatOps.Prim2SF f with
  | SpecFloat.S754_finite negative m e =>
      let num := Zpos m * 2 ^ Z.max e 0 * 10 ^ Z.max ndigits 0 in
      let den := 2 ^ Z.max (- e) 0 * 10 ^ Z.max (- ndigits) 0 in
      let k := round_half_even num den in
      let r := float_of_ratio (k * 10 ^ Z.max (- ndigits) 0)
                 (Z.to_pos (10 ^ Z.max ndigits 0)) in
      if negative then PrimFloat.opp r else r
  | _ => f
  end.

(** [int(f)]: the float truncated towards zero. *)
Definition int_of_float (f : float) : result Z :=
  match FloatOps.Prim2SF f with
  | SpecFloat.S754_zero _ => Ok 0
  | SpecFloat.S754_nan => Raise ValueError
  | SpecFloat.S754_infinity _ => Raise OverflowError
  | SpecFloat.S754_finite negative m e =>
      let magnitude := if 0 <=? e then Zpos m * 2 ^ e else Zpos m / 2 ^ (- e) in
      Ok (if negative then - magnitude else magnitude)
  end.

Fixpoint strip_zeros (rev_digits : list ascii) : list ascii :=
  match rev_digits with
  | "0"%char :: r => strip_zeros r
  | _ => rev_digits
  end.

(** The shortest decimal that reads back as the float [m * 2^e], the
    nearest to it among the shortest: its digits, and the position of
    the decimal point after the first [decpt] of them. *)
Fixpoint shortest_from (fuel : nat) (p : Z) (x : float) (num den decpt : Z)
  : string * Z :=
  let s := p - decpt in
  let a := num * 10 ^ Z.max s 0 in
  let b := den * 10 ^ Z.max (- s) 0 in
  let lo := a / b in
  let reads_back (digits : Z) :=
    PrimFloat.eqb
      (float_of_ratio (digits * 10 ^ Z.max (- s) 0) (Z.to_pos (10 ^ Z.max s 0))) x in
  let found (digits : Z) :=
    let text := str_of_int digits in
    (string_of_list_ascii (rev (strip_zeros (rev (list_ascii_of_string text)))),
     decpt + (Z.of_nat (String.length text) - p)) in
  match fuel with
  | O => found (round_half_even a b)
  | S fuel1 =>
      match reads_back lo, reads_back (lo + 1) with
      | true, true => found (round_half_even a b)
      | true, false => found lo
      | false, true => found (lo + 1)
      | false, false => shortest_from fuel1 (p + 1) x num den decpt
      end
  end.

Definition shortest_digits (m : positive) (e : Z) : string * Z :=
  let num := Zpos m * 2 ^ Z.max e 0 in
  let den := 2 ^ Z.max (- e) 0 in
  let scaled := num * 10 ^ 340 / den in
  let decpt := Z.of_nat (String.length (str_of_int scaled)) - 340 in
  shortest_from 16 1 (FloatOps.SF2Prim (SpecFloat.S754_finite false m e)) num den decpt.

(** The text of a float from its shortest digits, as [repr] lays it out:
    the integer part (to be grouped or not) and what follows it. *)
Definition float_parts (f : float) : string * string * string :=
  match FloatOps.Prim2SF f with
  | SpecFloat.S754_nan => ("", "nan", "")
  | SpecFloat.S754_infinity negative => (if negative then "-" else "", "inf", "")
  | SpecFloat.S754_zero negative => (if negative then "-" else "", "0", ".0")
  | SpecFloat.S754_finite negative m e =>
      let '(digits, decpt) := shortest_digits m e in
      let n := Z.of_nat (String.length digits) in
      let sign := if negative then "-" else "" in
      if (decpt <=? -4) || (16 <? decpt)
      then
        let exponent := decpt - 1 in
        (sign, substring 0 1 digits,
         fstr [if n =? 1 then "" else String "." (substring 1 (String.length digits) digits);
               "e"; if exponent <? 0 then "-" else "+"; padded 2 (Z.abs exponent)])
      else if decpt <=? 0
      then (sign, "0", fstr ["."; zeros (Z.to_nat (- decpt)); digits])
      else if n <=? decpt
      then (sign, (digits ++ zeros (Z.to_nat (decpt - n)))%string, ".0")
      else (sign, substring 0 (Z.to_nat decpt) digits,
            String "." (substring (Z.to_nat decpt) (String.length digits) digits))
  end.

(** [repr(f)], which is also [str(f)]. *)
Definition float_repr (f : float) : string :=
  let '(sign, whole, rest) := float_parts f in fstr [sign; whole; rest].

(** [format(f, ',')]: the same text with the integer part in groups of three. *)
Definition float_grouped (f : float) : string :=
  let '(sign, whole, rest) := float_parts f in
  fstr [sign;
        string_of_list_ascii (rev (commas (rev (list_ascii_of_string whole)) 0));
        rest].

(** *** Text *)

(** [str.upper()] on ASCII text: the letters a to z become A to Z, every
    other byte stays. *)
Definition upper_ascii (c : ascii) : ascii :=
  let n := nat_of_ascii c in
  if (Nat.leb 97 n && Nat.leb n 122)%bool then ascii_of_nat (n - 32) else c.

Fixpoint upper (s : string) : string :=
  match s with
  | EmptyString => EmptyString
  | String c rest => String (upper_ascii c) (upper rest)
  end.

Definition hex_digit (n : Z) : ascii :=
  ascii_of_nat (Z.to_nat (if n <? 10 then 48 + n else 87 + n)).

(** [n] in [width] lower-case hexadecimal digits. *)
Fixpoint hex (width : nat) (n : Z) : string :=
  match width with
  | O => ""
  | S k => (hex k (n / 16) ++ String (hex_digit (n mod 16)) "")%string
  end.

Definition occurs_char (c : ascii) (s : string) : bool :=
  existsb (Ascii.eqb c) (list_ascii_of_string s).

(** [repr(s)] of a str: single quotes unless the text has one and no
    double quote; the bytes of characters beyond ASCII stay (those
    characters are taken to be printable). *)
Definition str_repr (s : string) : string :=
  let quote : ascii :=
    if occurs_char "'" s && negb (occurs_char (ascii_of_nat 34) s)
    then ascii_of_nat 34 else "'"%char in
  let escaped (c : ascii) : string :=
    let n := Z.of_nat (nat_of_ascii c) in
    if Ascii.eqb c quote || Ascii.eqb c "\"%char then String "\" (String c "")
    else if n =? 9 then "\t"
    else if n =? 10 then "\n"
    else if n =? 13 then "\r"
    else if (n <? 32) || (n =? 127) then ("\x" ++ hex 2 n)%string
    else String c "" in
  fstr [String quote ""; fstr (map escaped (list_ascii_of_string s)); String quote ""].

(** One character in a JSON string written with ensure_ascii. *)
Definition json_char (code : Z) : string :=
  if code =? 34 then String "\" (String (ascii_of_nat 34) "")
  else if code =? 92 then "\\"
  else if code =? 10 then "\n"
  else if code =? 13 then "\r"
  else if code =? 9 then "\t"
  else if code =? 8 then "\b"
  else if code =? 12 then "\f"
  else if (32 <=? code) && (code <=? 126) then String (ascii_of_nat (Z.to_nat code)) ""
  else if code <? 65536 then ("\u" ++ hex 4 code)%string
  else
    let v := code - 65536 in
    ("\u" ++ hex 4 (55296 + v / 1024) ++ "\u" ++ hex 4 (56320 + v mod 1024))%string.

(** The characters of a text from its UTF-8 bytes. *)
Fixpoint code_points (bytes : list Z) : list Z :=
  match bytes with
  | [] => []
  | b :: r =>
      if b <? 192 then b :: code_points r
      else if b <? 224 then
        match r with
        | c1 :: r1 => ((b - 192) * 64 + (c1 - 128)) :: code_points r1
        | [] => [b]
        end
      else if b <? 240 then
        match r with
        | c1 :: c2 :: r2 =>
            ((b - 224) * 4096 + (c1 - 128) * 64 + (c2 - 128)) :: code_points r2
        | _ => [b]
        end
      else
        match r with
        | c1 :: c2 :: c3 :: r3 =>
            ((b - 240) * 262144 + (c1 - 128) * 4096 + (c2 - 128) * 64 + (c3 - 128))
              :: code_points r3
        | _ => [b]
        end
  end.

Definition json_string (s : string) : string :=
  fstr [String (ascii_of_nat 34) "";
        fstr (map json_char
                (code_points (map (fun c => Z.of_nat (nat_of_ascii c))
                                (list_ascii_of_string s))));
        String (ascii_of_nat 34) ""].

Definition int_space (c : ascii) : bool :=
  let n := nat_of_ascii c in
  ((Nat.leb 9 n && Nat.leb n 13) || Nat.eqb n 32)%bool.

Fixpoint drop_space (s : string) : string :=
  match s with
  | EmptyString => EmptyString
  | String c r => if int_space c then drop_space r else s
  end.

Fixpoint drop_space_right (s : string) : string :=
  match s with
  | EmptyString => EmptyString
  | String c r =>
      match drop_space_right r with
      | EmptyString => if int_space c then EmptyString else String c EmptyString
      | kept => String c kept
      end
  end.

Definition digit_of (c : ascii) : option Z :=
  let n := nat_of_ascii c in
  if (Nat.leb 48 n && Nat.leb n 57)%bool then Some (Z.of_nat (n - 48)) else None.

(** The digits of an int literal; single underscores may stand between
    two digits. *)
Fixpoint digits_value (s : string) (acc : Z) (after_digit : bool) : option Z :=
  match s with
  | EmptyString => if after_digit then Some acc else None
  | String c r =>
      match digit_of c with
      | Some d => digits_value r (10 * acc + d) true
      | None =>
          if (Ascii.eqb c "_" && after_digit)%bool
          then match r with
               | EmptyString => None
               | String c1 _ =>
                   match digit_of c1 with
                   | Some _ => digits_value r acc false
                   | None => None
                   end
               end
          else None
      end
  end.

(** [int(s)] of ASCII text: white space around, a sign, decimal digits. *)
Definition int_of_text (s : string) : result Z :=
  let body := drop_space (drop_space_right s) in
  let '(negative, digits) :=
    match body with
    | String "-" r => (true, r)
    | String "+" r => (false, r)
    | _ => (false, body)
    end in
  match digits_value digits 0 false with
  | Some z => Ok (if negative then - z else z)
  | None => Raise ValueError
  end.

(** *** Values *)

Definition comma_separated (items : list string) : string := String.concat ", " items.

(** [repr(v)]. *)
Fixpoint py_repr (v : pyval) : string :=
  match v with
  | VNone => "None"
  | VBool true => "True"
  | VBool false => "False"
  | VInt z => str_of_int z
  | VFloat f => float_repr f
  | VStr s => str_repr s
  | VDatetime us => datetime_repr us
  | VList l => fstr ["["; comma_separated (map py_repr l); "]"]
  | VDict d =>
      fstr ["{";
            comma_separated
              (map (fun kv => let '(k, x) := kv in fstr [str_repr k; ": "; py_repr x]) d);
            "}"]
  end.

(** [json.dumps(v, default=str)]: a datetime goes through [str]. *)
Fixpoint dumps (v : pyval) : string :=
  match v with
  | VNone => "null"
  | VBool true => "true"
  | VBool false => "false"
  | VInt z => str_of_int z
  | VFloat f =>
      match FloatOps.Prim2SF f with
      | SpecFloat.S754_nan => "NaN"
      | SpecFloat.S754_infinity negative => if negative then "-Infinity" else "Infinity"
      | _ => float_repr f
      end
  | VStr s => json_string s
  | VDatetime us => json_string (clock_text " " us)
  | VList l => fstr ["["; comma_separated (map dumps l); "]"]
  | VDict d =>
      fstr ["{";
            comma_separated
              (map (fun kv => let '(k, x) := kv in fstr [json_string k; ": "; dumps x]) d);
            "}"]
  end.

(** The library on ASCII text (a character beyond ASCII is kept as its
    bytes by [upper] and [repr], and is no digit or white space for
    [int]). *)
#[export] Instance plain_lib : PyLib := {|
  str_other := fun v =>
    match v with
    | VDatetime us => clock_text " " us
    | _ => py_repr v
    end;
  str_of_exn := fun e =>
    match e with
    | DatabaseError msg => msg
    | KeyError k => str_repr k
    | _ => "error"   (* the messages of the built-in exceptions are not modelled *)
    end;
  grouped_of_float := float_grouped;
  json_dumps := dumps;
  isoformat := clock_text "T";
  str_upper := upper;
  int_of_other := fun v =>
    match v with
    | VFloat f => int_of_float f
    | VStr s => int_of_text s
    | _ => Raise TypeError
    end;
  float_of_int := exact_float;
  int_truediv := exact_truediv;
  float_round := exact_round
|}.

(** The catalog of the two-table schema: users(id pk, name) and
    orders(id pk, user_id fk -> users.id), and the view recent_orders. *)

Definition column (name type : string) (position : Z) : dict :=
  [("column_name", VStr name); ("data_type", VStr type);
   ("character_maximum_length", VNone); ("numeric_precision", VInt 32);
   ("numeric_scale", VInt 0); ("is_nullable", VStr "NO");
   ("column_default", VNone); ("column_comment", VNone);
   ("ordinal_position", VInt position)].

Definition columns_of (table_name : pyval) : list dict :=
  if eq_str table_name "users" then [column "id" "integer" 1; column "name" "text" 2]
  else if eq_str table_name "orders" then [column "id" "integer" 1; column "user_id" "integer" 2]
  else if eq_str table_name "recent_orders" then [column "id" "integer" 1]
  else [].

Definition orders_fk : dict :=
  [("column_name", VStr "user_id"); ("foreign_table_name", VStr "users");
   ("foreign_column_name", VStr "id"); ("constraint_name", VStr "orders_user_id_fkey");
   ("update_rule", VStr "NO ACTION"); ("delete_rule", VStr "CASCADE")].

Definition orders_edge : dict :=
  [("from_table", VStr "orders"); ("from_column", VStr "user_id");
   ("to_table", VStr "users"); ("to_column", VStr "id")].

Definition pkey_row (table : string) : dict :=
  [("index_name", VStr (table ++ "_pkey")); ("column_name", VStr "id");
   ("is_unique", VBool true); ("is_primary", VBool true); ("index_type", VStr "btree")].

Definition catalog (q : query) : result (list dict) :=
  match q with
  | Q_tables_info =>
      Ok [[("table_name", VStr "orders"); ("table_type", VStr "BASE TABLE");
           ("table_comment", VNone); ("column_count", VInt 2)];
          [("table_name", VStr "users"); ("table_type", VStr "BASE TABLE");
           ("table_comment", VStr "registered users"); ("column_count", VInt 2)]]
  | Q_views_info =>
      Ok [[("view_name", VStr "recent_orders"); ("table_type", VStr "VIEW");
           ("view_comment", VNone); ("view_definition", VStr "SELECT id FROM orders")]]
  | Q_columns_info t => Ok (columns_of t)
  | Q_primary_keys t => Ok [[("column_name", VStr "id")]]
  | Q_foreign_keys t => Ok (if eq_str t "orders" then [orders_fk] else [])
  | Q_indexes t => Ok [pkey_row (match t with VStr s => s | _ => "" end)]
  | Q_sample_data t limit =>
      Ok (if String.eqb t "users"
          then [[("id", VInt 1); ("name", VStr "ada")]; [("id", VInt 2); ("name", VStr "bob")]]
          else [])
  | Q_row_count t => Ok [[("estimate", VInt (if eq_str t "users" then 2 else 0))]]
  | Q_table_size t => Ok [[("size", VStr "16 kB")]]
  | Q_column_statistics c t =>
      Ok [[("total_rows", VInt 2); ("non_null_count", VInt 2); ("distinct_count", VInt 2)]]
  | Q_table_relationships => Ok [orders_edge]
  end.

(** The same catalog with the statements selected by [broken] failing. *)
Definition failing (broken : query -> bool) (q : query) : result (list dict) :=
  if broken q then Raise (DatabaseError "statement failed") else catalog q.

Definition is_foreign_keys (q : query) : bool :=
  match q with Q_foreign_keys _ => true | _ => false end.

Definition is_primary_keys (q : query) : bool :=
  match q with Q_primary_keys _ => true | _ => false end.


Definition is_table_relationships (q : query) : bool :=
  match q with Q_table_relationships => true | _ => false end.

Definition is_column_statistics (q : query) : bool :=
  match q with Q_column_statistics _ _ => true | _ => false end.

(** The same catalog with the statements selected by [chosen] answered by [rows]. *)
Definition answering (chosen : query -> bool) (rows : list dict) (q : query)
  : result (list dict) :=
  if chosen q then Ok rows else catalog q.

Definition edge (from_table from_column to_table to_column : string) : dict :=
  [("from_table", VStr from_table); ("from_column", VStr from_column);
   ("to_table", VStr to_table); ("to_column", VStr to_column)].

(** Three constraints of [orders], one of them listed twice, around one of [items]. *)
Definition listing : list dict :=
  [edge "orders" "user_id" "users" "id";
   edge "items" "order_id" "orders" "id";
   edge "orders" "user_id" "users" "id";
   edge "orders" "coupon" "coupons" "code"].

(** A new extractor: no connection yet, [self.metadata = {}]. *)
Definition fresh (d : server) (file : option (option pyval)) (writable : bool)
    (time : nat -> Z) : State :=
  mkState [("database", VStr "shop")] (VDict []) NoCursor d file writable time 0 [].

Definition healthy : server := mkServer true catalog.

Definition unreachable : server := mkServer false catalog.

(** The extractor after [connect()] on a reachable server. *)
Definition connected (answers : query -> result (list dict)) : State :=
  mkState [("database", VStr "shop")] (VDict []) CursorOpen (mkServer true answers)
          None true (fun n => Z.of_nat n * 1000000) 0 [Connect].

(** A clock that advances one second per reading. *)
Definition seconds (n : nat) : Z := Z.of_nat n * 1000000.

(** The extractor right after [extract_all_metadata(use_cache=False)]
    on the healthy server, as /schema and the module's own example leave
    it before they call [format_for_ai]. *)
Definition extracted : State :=
  snd (extract_all_metadata false 3 false false (fresh healthy None true seconds)).

(** The same extractor object, its cursor open again on server [d]. *)
Definition reopened (d : server) : State := db_step CursorOpen d Connect extracted.

(** A snapshot of an empty schema and the cache entry that stores [m]. *)
Definition empty_snapshot : pyval :=
  VDict [("database_name", VStr "shop"); ("extracted_at", VStr "1970-01-01T00:00:00");
         ("total_tables", VInt 0); ("total_views", VInt 0);
         ("tables", VDict []); ("views", VDict []); ("relationships", VDict [])].

Definition entry (m : pyval) (cached_at : Z) : option pyval :=
  Some (VDict [("metadata", m); ("cached_at", VDatetime cached_at)]).

(** The healthy server with the constraints of [listing]. *)
Definition relinked : server := mkServer true (answering is_table_relationships listing).

(** An extractor that holds snapshot [m] and has no cache file yet. *)
Definition holding (m : pyval) : State :=
  mkState [("database", VStr "shop")] m NoCursor healthy None true seconds 0 [].

(** The same with a cache file that cannot be opened for writing. *)
Definition holding_read_only (m : pyval) : State :=
  mkState [("database", VStr "shop")] m NoCursor healthy None false seconds 0 [].

(** A clock that stands two hours after the epoch. *)
Definition two_hours_later (n : nat) : Z := 2 * cache_ttl.

(** The row of counts of a column of an empty table. *)
Definition zero_counts : dict :=
  [("total_rows", VInt 0); ("non_null_count", VInt 0); ("distinct_count", VInt 0)].

(** The row of counts of a column with three rows, one NULL, two values. *)
Definition third_counts : dict :=
  [("total_rows", VInt 3); ("non_null_count", VInt 2); ("distinct_count", VInt 2)].


(** The statistics statement of column [c]. *)
Definition is_statistics_of (c : string) (q : query) : bool :=
  match q with
  | Q_column_statistics c1 _ => String.eqb c1 c
  | _ => false
  end.

End Demo.

(** ** What the claims are stated with *)

Definition field (k : string) (row : dict) : pyval :=
  match dict_get k row with
  | Some v => v
  | None => VNone
  end.

(** A row of the foreign-key listing: a source table name and the three
    other columns of the SELECT list. *)
Definition edge_row (row : dict) : bool :=
  match dict_get "from_table" row with
  | Some (VStr _) =>
      dict_has "from_column" row && dict_has "to_table" row && dict_has "to_column" row
  | _ => false
  end.

Definition from_table_is (t : string) (row : dict) : bool :=
  eq_str (field "from_table" row) t.

Definition edge_of (row : dict) : pyval :=
  VDict [("from_column", field "from_column" row);
         ("to_table", field "to_table" row);
         ("to_column", field "to_column" row)].

(** The edges leaving table [t], in the order of the listing. *)
Definition edges_from (t : string) (rows : list dict) : list pyval :=
  map edge_of (filter (from_table_is t) rows).

(** Every value of the mapping under construction is a list. *)
Definition lists_only (d : dict) : Prop :=
  forall t v, dict_get t d = Some v -> exists l, v = VList l.

(** What the mapping holds for [t] once [rows] are added to [acc]. *)
Definition extended (acc : dict) (rows : list dict) (t : string) : option pyval :=
  match dict_get t acc with
  | Some (VList l) => Some (VList (l ++ edges_from t rows))
  | Some v => Some v
  | None =>
      match edges_from t rows with
      | [] => None
      | es => Some (VList es)
      end
  end.

Section Statements.
Context `{Database} `{Pickle} `{PyLib}.

(** The entry a cache file holds: the snapshot and the time it was
    written, when the file unpickles to a dictionary with both. *)
Definition cache_entry (f : blob) : option (pyval * Z) :=
  match pickle_load f with
  | Ok cache_data =>
      match subscript cache_data "cached_at", subscript cache_data "metadata" with
      | Ok (VDatetime c), Ok m => Some (m, c)
      | _, _ => None
      end
  | Raise _ => None
  end.

(** The reading the next [datetime.now()] returns. *)
Definition time_now (s : State) : Z := clock s (ticks s).

(** The call does not take the cache-hit exit. *)
Definition cache_bypassed (use_cache : bool) (s : State) : Prop :=
  use_cache = false \/ fst (load_from_cache s) = Ok false.

(** A table entry with [row_count] 0 has neither optional field. *)
Definition short_circuited (table_meta : pyval) : Prop :=
  subscript table_meta "row_count" = Ok (VInt 0) ->
  contains "column_statistics" table_meta = Ok false /\
  contains "sample_data" table_meta = Ok false.

Definition tables_short_circuited (tables : dict) : Prop :=
  forall name table_meta, dict_get name tables = Some table_meta -> short_circuited table_meta.

(** The statistics stored for a column whose three counts are
    [0], [non_null] and [distinct]. *)
Definition zero_total_stats (non_null : Z) (distinct : pyval) : pyval :=
  VDict [("null_count", VInt (0 - non_null));
         ("null_percentage", VInt 0);
         ("distinct_count", distinct);
         ("distinct_percentage", VInt 0)].

End Statements.

(** ** Writing the schema description to a file *)

Section TextFiles.
Context `{Database} `{Pickle} `{PyLib}.

(** The text files of the working directory: the content of each file
    that exists, and whether a name can be opened for writing. *)
Record Files : Type := mkFiles {
  file_text : string -> option string;
  file_openable : string -> bool
}.

Definition with_text (name text : string) (fs : Files) : Files :=
  mkFiles (fun n => if String.eqb n name then Some text else file_text fs n)
          (file_openable fs).

(** [save_to_text]: [open(filename, 'w')] creates or empties the file,
    then [format_for_ai()] is evaluated and its text written; when the
    formatting raises, the [with] block closes the file as it is. *)
Definition save_to_text (filename : string) : M (State * Files) unit :=
  fun w =>
    let (s, fs) := w in
    if file_openable fs filename
    then
      let opened := with_text filename "" fs in
      match format_for_ai s with
      | (Ok text, s1) => (Ok tt, (s1, with_text filename text opened))
      | (Raise e, s1) => (Raise e, (s1, opened))
      end
    else (Raise OSError, w).

End TextFiles.

(** ** The connection manager (connection_manager.py)

    [ConnectionManager] after its constructor: the mapping
    [self.connections], the encrypted storage file and the clock.  What
    the libraries do to the mapping on its way to the file and back is
    the class [Vault]; a Fernet token depends on the moment and on
    random bytes, which the state supplies as [nonce]. *)

Class Vault : Type := {
  token : Type;
  (* self.cipher.encrypt(json.dumps(v, indent=2).encode('utf-8')) *)
  seal : pyval -> nat -> result token;
  (* json.loads(self.cipher.decrypt(data).decode('utf-8')) *)
  unseal : token -> result pyval;
  (* now.strftime('%Y%m%d_%H%M%S') *)
  strftime_stamp : Z -> string
}.

Module ConnectionManager.

Record Manager `{Vault} : Type := mkManager {
  connections : pyval;          (* self.connections *)
  storage : option token;       (* the file at self.storage_file, if it exists *)
  storage_writable : bool;      (* whether it can be opened for writing *)
  clock : nat -> Z;             (* the successive readings of datetime.now() *)
  ticks : nat;
  nonce : nat                   (* how many tokens were made *)
}.
Arguments mkManager {_} _ _ _ _ _ _.

(** [d.pop(k, None)] and [del d[k]]: the item with key [k] goes (the
    keys of a dict are unique). *)
Definition dict_remove (k : string) (d : dict) : dict :=
  filter (fun item => negb (String.eqb k (fst item))) d.

(** [o[k] = v]. *)
Definition setitem (o : pyval) (k : string) (v : pyval) : result pyval :=
  match o with
  | VDict d => Ok (VDict (dict_set k v d))
  | _ => Raise TypeError
  end.

(** [del o[k]]. *)
Definition delitem (o : pyval) (k : string) : result pyval :=
  match o with
  | VDict d => if dict_has k d then Ok (VDict (dict_remove k d)) else Raise (KeyError k)
  | _ => Raise TypeError
  end.

(** [o.copy()]: the copy of a dict or list has the same items. *)
Definition copy (o : pyval) : result pyval :=
  match o with
  | VDict _ | VList _ => Ok o
  | _ => Raise AttributeError
  end.

(** [o.pop(k, None)] with a string [k], for its effect on [o]. *)
Definition pop_default (o : pyval) (k : string) : result pyval :=
  match o with
  | VDict d => Ok (VDict (dict_remove k d))
  | VList _ => Raise TypeError
  | _ => Raise AttributeError
  end.

Section Methods.
Context `{Vault} `{PyLib}.

Definition Act (A : Type) : Type := M Manager A.

Definition set_connections (c : pyval) (g : Manager) : Manager :=
  mkManager c (storage g) (storage_writable g) (clock g) (ticks g) (nonce g).

Definition now : Act Z :=
  fun g =>
    (Ok (clock g (ticks g)),
     mkManager (connections g) (storage g) (storage_writable g) (clock g)
               (S (ticks g)) (nonce g)).

Definition get_connections : Act pyval := fun g => (Ok (connections g), g).

Definition put_connections (c : pyval) : Act unit := fun g => (Ok tt, set_connections c g).

(** [_load_connections]: what the constructor stores in [self.connections]. *)
Definition _load_connections (g : Manager) : pyval :=
  match storage g with
  | None => VDict []
  | Some data =>
      match unseal data with
      | Ok v => v
      | Raise _ => VDict []
      end
  end.

(** [_save_connections]: the handler prints and raises again. *)
Definition _save_connections : Act unit :=
  fun g =>
    match seal (connections g) (nonce g) with
    | Raise e => (Raise e, g)
    | Ok data =>
        if storage_writable g
        then (Ok tt, mkManager (connections g) (Some data) (storage_writable g) (clock g)
                               (ticks g) (S (nonce g)))
        else (Raise OSError,
              mkManager (connections g) (storage g) (storage_writable g) (clock g)
                        (ticks g) (S (nonce g)))
    end.

Definition _safe_connection_info (name : string) (connection : pyval) : result pyval :=
  let? safe_conn := copy connection in
  let? safe_conn1 := pop_default safe_conn "password" in
  setitem safe_conn1 "name" (VStr name).

Definition add_connection (name : string)
    (host database user password port description : pyval) : Act pyval :=
  created_at <- now ;;
  let connection : dict :=
    [("host", host); ("database", database); ("user", user); ("password", password);
     ("port", port); ("description", description);
     ("created_at", VStr (isoformat created_at)); ("last_used", VNone)] in
  conns <- get_connections ;;
  known <- lift (contains name conns) ;;
  connection1 <-
    (if (known : bool)
     then lift (let? old := subscript conns name in
                let? created := subscript old "created_at" in
                Ok (dict_set "created_at" created connection))
     else ret connection) ;;
  conns1 <- lift (setitem conns name (VDict connection1)) ;;
  put_connections conns1 ;;
  _save_connections ;;
  lift (_safe_connection_info name (VDict connection1)).

Definition get_connection (name : string) : Act pyval :=
  conns <- get_connections ;;
  known <- lift (contains name conns) ;;
  if negb known then ret VNone
  else
    last_used <- now ;;
    entry <- lift (subscript conns name) ;;
    entry1 <- lift (setitem entry "last_used" (VStr (isoformat last_used))) ;;
    conns1 <- lift (setitem conns name entry1) ;;
    put_connections conns1 ;;
    _save_connections ;;
    lift (let? stored := subscript conns1 name in copy stored).

Definition list_connections : Act (list pyval) :=
  conns <- get_connections ;;
  lift (let? entries := items conns in
        rmap (fun entry : string * pyval => _safe_connection_info (fst entry) (snd entry))
             entries).

Definition delete_connection (name : string) : Act bool :=
  conns <- get_connections ;;
  known <- lift (contains name conns) ;;
  if (known : bool)
  then
    conns1 <- lift (delitem conns name) ;;
    put_connections conns1 ;;
    _save_connections ;;
    ret true
  else ret false.

Definition get_connection_config (name : string) : Act pyval :=
  conn <- get_connection name ;;
  if negb (truthy conn) then ret VNone
  else
    lift (let? host := subscript conn "host" in
          let? database := subscript conn "database" in
          let? user := subscript conn "user" in
          let? password := subscript conn "password" in
          let? port := subscript conn "port" in
          Ok (VDict [("host", host); ("database", database); ("user", user);
                     ("password", password); ("port", port)])).

Definition export_connection (name : string) (include_password : bool) : Act pyval :=
  conn <- get_connection name ;;
  if negb (truthy conn) then ret VNone
  else
    lift (let? host := subscript conn "host" in
          let? database := subscript conn "database" in
          let? user := subscript conn "user" in
          let? port := subscript conn "port" in
          let? description := subscript conn "description" in
          let export : dict :=
            [("name", VStr name); ("host", host); ("database", database);
             ("user", user); ("port", port); ("description", description)] in
          if include_password
          then let? password := subscript conn "password" in
               Ok (VDict (dict_set "password" password export))
          else Ok (VDict export)).

(** [import_connection].  The default name is an argument of [get]: the
    clock is read whether or not a name is given.  The name becomes a
    key of [self.connections], which holds strings here; any other name
    is refused with a TypeError. *)
Definition import_connection (connection_data : pyval) : Act string :=
  lift (match connection_data with
        | VDict _ => Ok tt
        | _ => Raise AttributeError
        end) ;;
  stamp <- now ;;
  chosen <- lift (dict_get_method connection_data (VStr "name")
                    (VStr (fstr ["imported_"; strftime_stamp stamp]))) ;;
  host <- lift (subscript connection_data "host") ;;
  database <- lift (subscript connection_data "database") ;;
  user <- lift (subscript connection_data "user") ;;
  password <- lift (dict_get_method connection_data (VStr "password") (VStr "")) ;;
  port <- lift (dict_get_method connection_data (VStr "port") (VInt 5432)) ;;
  description <- lift (dict_get_method connection_data (VStr "description")
                         (VStr "Imported connection")) ;;
  name <- lift (as_key chosen) ;;
  add_connection name host database user password port description ;;
  ret name.

End Methods.

Section Stated.
Context `{Vault} `{PyLib}.

(** Every stored connection is a dictionary. *)
Definition well_stored (d : dict) : Prop :=
  forall name v, In (name, v) d -> exists e, v = VDict e.

(** What a listing shows of entry [e] stored under [name]. *)
Definition shown (name : string) (e : dict) : pyval :=
  VDict (dict_set "name" (VStr name) (dict_remove "password" e)).

(** The values [json.dumps] takes: every value but a datetime, inside
    lists and dictionaries too. *)
Fixpoint json_value (v : pyval) : bool :=
  match v with
  | VDatetime _ => false
  | VList l => forallb json_value l
  | VDict d => forallb (fun item => json_value (snd item)) d
  | _ => true
  end.

(** The file can be written, and the libraries serialise and encrypt
    every JSON value. *)
Definition can_save (g : Manager) : Prop :=
  storage_writable g = true /\
  forall v n, json_value v = true -> exists data, seal v n = Ok data.

(** What was sealed is what unsealing gives back. *)
Definition vault_round_trip : Prop :=
  forall v n data, seal v n = Ok data -> unseal data = Ok v.

(** The dictionary [get_connection_config] builds for psycopg2. *)
Definition config_of (host database user password port : pyval) : pyval :=
  VDict [("host", host); ("database", database); ("user", user);
         ("password", password); ("port", port)].

(** The entry [add_connection] stores. *)
Definition stored_entry (host database user password port description created_at : pyval)
  : pyval :=
  VDict [("host", host); ("database", database); ("user", user); ("password", password);
         ("port", port); ("description", description);
         ("created_at", created_at); ("last_used", VNone)].

(** The [created_at] that [add_connection] stores under [name]: the one
    of the connection it replaces, else the reading of the clock. *)
Definition created_of (d : dict) (name : string) (g : Manager) : result pyval :=
  match dict_get name d with
  | Some old => subscript old "created_at"
  | None => Ok (VStr (isoformat (clock g (ticks g))))
  end.

(** From [g] to [g1] the manager stays able to save, its mapping stays
    one of JSON values, and no name is lost. *)
Definition grows (g g1 : Manager) : Prop :=
  forall d,
    connections g = VDict d -> json_value (VDict d) = true -> can_save g ->
    can_save g1 /\
    exists d1,
      connections g1 = VDict d1 /\ json_value (VDict d1) = true /\
      forall n, dict_has n d = true -> dict_has n d1 = true.

End Stated.

End ConnectionManager.

(** ** What the further properties are stated with *)

Section Behaviour.
Context `{Database} `{Pickle} `{PyLib}.

(** [m] relates the state it starts in to the state it leaves, whether
    it returns or raises. *)
Definition keeps {A} (R : State -> State -> Prop) (m : Stmt A) : Prop :=
  forall s, R s (snd (m s)).

(** The server [d1] is [d] after some statements were run on it. *)
Inductive served : DB -> DB -> Prop :=
| served_here (d : DB) : served d d
| served_next (d d1 : DB) (q : query) : served (snd (pg_execute d q)) d1 -> served d d1.

(** A step that only asks the cursor: the extractor object, the cache
    file and the clock are as before, the trace got longer. *)
Definition probe_step (s s1 : State) : Prop :=
  connection_params s1 = connection_params s /\
  metadata s1 = metadata s /\
  cursor s1 = cursor s /\
  cache_file s1 = cache_file s /\
  cache_writable s1 = cache_writable s /\
  clock s1 = clock s /\
  ticks s1 = ticks s /\
  served (db s) (db s1) /\
  exists events, trace s1 = trace s ++ events.

(** A step that leaves the held snapshot and the cache file alone. *)
Definition quiet_step (s s1 : State) : Prop :=
  metadata s1 = metadata s /\ cache_file s1 = cache_file s.

Definition named (k : string) (row : dict) : bool :=
  match dict_get k row with
  | Some (VStr _) => true
  | _ => false
  end.

(** The transaction of a connection that [connect] opens: psycopg2
    starts one with the first statement, and the extractor neither sets
    autocommit nor rolls back.  A statement that fails leaves the server
    in a state [Failed], in which every statement raises. *)
Definition aborts_transaction (Failed : DB -> Prop) : Prop :=
  (forall d q e, fst (pg_execute d q) = Raise e -> Failed (snd (pg_execute d q))) /\
  (forall d q, Failed d -> exists e, fst (pg_execute d q) = Raise e).

(** The rows of the index listing. *)
Definition index_row_ok (row : dict) : bool :=
  named "index_name" row && dict_has "column_name" row && dict_has "is_unique" row
  && dict_has "is_primary" row && dict_has "index_type" row.

Definition index_name_is (n : string) (row : dict) : bool :=
  eq_str (field "index_name" row) n.

(** The entry of index [n]: its columns in the order of the listing, its
    flags and type from the first row that names it. *)
Definition index_entry (n : string) (columns : list pyval) (first : dict) : pyval :=
  VDict [("index_name", VStr n);
         ("columns", VList columns);
         ("is_unique", field "is_unique" first);
         ("is_primary", field "is_primary" first);
         ("index_type", field "index_type" first)].

Definition index_group (n : string) (rows : list dict) : option pyval :=
  match filter (index_name_is n) rows with
  | [] => None
  | first :: others =>
      Some (index_entry n (map (field "column_name") (first :: others)) first)
  end.

(** The two shapes of a column's statistics. *)
Definition stats_shape (v : pyval) : Prop :=
  (exists message, v = VDict [("error", VStr message)]) \/
  (exists null_count null_percentage distinct_count distinct_percentage,
     v = VDict [("null_count", null_count);
                ("null_percentage", null_percentage);
                ("distinct_count", distinct_count);
                ("distinct_percentage", distinct_percentage)]).

Definition column_name_is (c : string) (col : dict) : bool :=
  eq_str (field "column_name" col) c.

(** The text [format_for_ai] returns when there is no snapshot. *)
Definition no_metadata_notice : string :=
  "No metadata available. Run extract_all_metadata() first.".

(** [m] raises only from a state that still has the snapshot and the
    cache file it started with. *)
Definition raises_quietly {A} (m : Stmt A) : Prop :=
  forall s e s1, m s = (Raise e, s1) -> quiet_step s s1.

(** The entry that the loop of [get_column_statistics] stores for column
    [c] of [t] when it sends the column's statement to server [d]: the
    statistics computed from the first row, or the text of what the
    statement or the computation raised. *)
Definition column_entry_of (d : DB) (c t : string) (v : pyval) : Prop :=
  match fst (pg_execute d (Q_column_statistics c t)) with
  | Ok rows =>
      match column_stats_entry (fetchone rows) with
      | Ok entry => v = entry
      | Raise e => v = VDict [("error", VStr (str_of_exn e))]
      end
  | Raise e => v = VDict [("error", VStr (str_of_exn e))]
  end.

(** A step of the extractor: its parameters, the clock and the
    permissions of the cache file are as before, the trace got longer. *)
Definition later_step (s s1 : State) : Prop :=
  connection_params s1 = connection_params s /\
  cache_writable s1 = cache_writable s /\
  clock s1 = clock s /\
  exists events, trace s1 = trace s ++ events.

(** The state is the same. *)
Definition unchanged (s s1 : State) : Prop := s1 = s.

(** [DatabaseMetadataExtractor(connection_params)], as
    [get_metadata_extractor] builds one for every request: a new object
    with no snapshot and no connection, in the same world; its cache
    file is the default path, the one every extractor uses. *)
Definition new_extractor (params : dict) (s : State) : State :=
  mkState params (VDict []) NoCursor (db s) (cache_file s) (cache_writable s)
          (clock s) (ticks s) (trace s).

(** The cache file is the same. *)
Definition same_cache_file (s s1 : State) : Prop := cache_file s1 = cache_file s.

End Behaviour.

(** ** What the samples of the views are stated with *)

Section ViewSamples.
Context `{Database} `{Pickle} `{PyLib}.



(** A step on the open connection: the cursor is as before, the server
    has run some statements, the trace got longer. *)
Definition forward_step (s s1 : State) : Prop :=
  cursor s1 = cursor s /\
  served (db s) (db s1) /\
  exists events, trace s1 = trace s ++ events.

End ViewSamples.

(** ** The web application (main.py) *)

(** What main.py asks of its libraries. *)
Class WebLib : Type := {
  (* str(e) of HTTPException(status_code, detail) *)
  str_of_http : Z -> string -> string;
  (* s.strip() *)
  str_strip : string -> string
}.

Section World.
Context `{Database} `{Pickle}.

(** The server after a call of psycopg2 made by main.py. *)
Definition set_db (d : DB) (s : State) : State :=
  mkState (connection_params s) (metadata s) (cursor s) d (cache_file s)
          (cache_writable s) (clock s) (ticks s) (trace s).

End World.

(** The statements main.py runs itself: [cursor.execute(sql)] followed
    by [fetchall()], on a [RealDictCursor]. *)
Class SqlRunner `{Database} : Type := {
  pg_run : DB -> string -> result (list dict) * DB
}.

Module Main.
Import ConnectionManager.

(** What a handler raises: an exception of Python or of a library, or
    FastAPI's [HTTPException], which is an [Exception] too. *)
Inductive raised : Type :=
| PyError (e : exn)
| HTTPException (status_code : Z) (detail : string).

Inductive outcome (A : Type) : Type :=
| Returns (a : A)
| Fails (r : raised).
Arguments Returns {A} a.
Arguments Fails {A} r.

(** *** str

    The strings are UTF-8; the prefixes and the suffix that
    [convert_nl_to_sql] looks for and cuts are ASCII, so that a character
    cut is a byte cut. *)

(** [s.startswith(p)]. *)
Definition startswith (p s : string) : bool := String.prefix p s.

(** [s[n:]]. *)
Fixpoint drop (n : nat) (s : string) : string :=
  match n, s with
  | O, _ => s
  | S m, String _ r => drop m r
  | S _, EmptyString => EmptyString
  end.

(** [s.endswith(p)]. *)
Definition endswith (p s : string) : bool :=
  (String.length p <=? String.length s)%nat &&
  String.eqb (drop (String.length s - String.length p) s) p.

(** [s[:-n]] for a positive [n]. *)
Definition drop_last (n : nat) (s : string) : string :=
  String.substring 0 (String.length s - n) s.

(** [word in s]. *)
Definition occurs (word s : string) : bool :=
  match String.index 0 word s with Some _ => true | None => false end.

Definition forbidden : list string :=
  ["DROP"; "DELETE"; "UPDATE"; "INSERT"; "ALTER"; "CREATE"; "TRUNCATE"].

Definition prompt_of (question schema : string) : string :=
  String.concat nl
    ["You are a SQL expert. Convert the following natural language question into a PostgreSQL query.";
     "";
     schema;
     "";
     fstr ["User Question: "; question];
     "";
     "Requirements:";
     "1. Generate ONLY the SQL query, no explanations";
     "2. Use proper PostgreSQL syntax";
     "3. Make the query safe (SELECT only, no modifications)";
     "4. Use appropriate JOINs if multiple tables are needed";
     "5. Add LIMIT clauses where appropriate to prevent overwhelming results";
     "6. Return only valid, executable SQL";
     "";
     "SQL Query:"].

Section Endpoints.
Context `{Database} `{Pickle} `{PyLib} `{Vault} `{WebLib} `{!SqlRunner}.

(** The globals of the module that change.  [metadata_extractor] is only
    ever assigned, never read: [extractor] holds the fields of the last
    extractor made, together with the world it runs in (the server, the
    cache file, the clock); its [trace] stays the record of what the
    extractor asked, the connections that main.py opens itself are not
    entered. *)
Record App : Type := mkApp {
  connection_manager : Manager;
  active_connection : option string;
  extractor : State
}.

Definition Web (A : Type) : Type := App -> outcome A * App.

Definition answer {A} (a : A) : Web A := fun app => (Returns a, app).

Definition fail {A} (r : raised) : Web A := fun app => (Fails r, app).

Definition and_then {A B} (m : Web A) (k : A -> Web B) : Web B :=
  fun app =>
    match m app with
    | (Returns a, app1) => k a app1
    | (Fails r, app1) => (Fails r, app1)
    end.

(** [try: body / except Exception as e: handler e]. *)
Definition try_except_Exception {A} (body : Web A) (handler : raised -> Web A) : Web A :=
  fun app =>
    match body app with
    | (Returns a, app1) => (Returns a, app1)
    | (Fails r, app1) => handler r app1
    end.

(** A call of a method of [connection_manager]. *)
Definition on_manager {A} (m : Act A) : Web A :=
  fun app =>
    match m (connection_manager app) with
    | (Ok a, g) => (Returns a, mkApp g (active_connection app) (extractor app))
    | (Raise e, g) => (Fails (PyError e), mkApp g (active_connection app) (extractor app))
    end.

(** A call of a method of the extractor. *)
Definition on_extractor {A} (m : Stmt A) : Web A :=
  fun app =>
    match m (extractor app) with
    | (Ok a, s) => (Returns a, mkApp (connection_manager app) (active_connection app) s)
    | (Raise e, s) =>
        (Fails (PyError e), mkApp (connection_manager app) (active_connection app) s)
    end.

(** [str(e)]. *)
Definition str_of_raised (r : raised) : string :=
  match r with
  | PyError e => str_of_exn e
  | HTTPException status_code detail => str_of_http status_code detail
  end.

(** The reply of the model, with its Markdown fence removed. *)
Definition clean_markdown (text : string) : string :=
  let sql := str_strip text in
  let sql := if startswith "```sql" sql then drop 6 sql else sql in
  let sql := if startswith "```" sql then drop 3 sql else sql in
  let sql := if endswith "```" sql then drop_last 3 sql else sql in
  str_strip sql.

(** [convert_nl_to_sql].  [api_key] is the global [ANTHROPIC_API_KEY];
    [create prompt] stands for
    [client.messages.create(...).content[0].text] with that prompt as
    the one message, and for whatever raises on the way there; making
    the client itself is taken not to raise. *)
Definition convert_nl_to_sql (api_key : option string) (create : string -> result string)
    (question schema : string) : outcome string :=
  if negb (match api_key with Some key => negb (String.eqb key "") | None => false end)
  then Fails (HTTPException 500 "Anthropic API key not configured")
  else
    let prompt := prompt_of question schema in
    let body :=
      match create prompt with
      | Raise e => Fails (PyError e)
      | Ok text =>
          let sql := clean_markdown text in
          let sql_upper := str_upper sql in
          if existsb (fun word => occurs word sql_upper) forbidden
          then Fails (HTTPException 400 "Query contains forbidden operations")
          else Returns sql
      end in
    match body with
    | Returns sql => Returns sql
    | Fails e =>
        Fails (HTTPException 500 (fstr ["Failed to generate SQL: "; str_of_raised e]))
    end.

(** [psycopg2.connect] with the keywords of [conn_config]. *)
Definition psycopg2_connect (conn_config : pyval) : Web unit :=
  fun app =>
    match conn_config with
    | VDict params =>
        let s := extractor app in
        let (r, d) := pg_connect params (db s) in
        (match r with Ok _ => Returns tt | Raise e => Fails (PyError e) end,
         mkApp (connection_manager app) (active_connection app) (set_db d s))
    | _ => (Fails (PyError TypeError), app)
    end.

(** [get_db_connection]. *)
Definition get_db_connection : Web unit :=
  fun app =>
    match active_connection app with
    | None => (Fails (HTTPException 400 "No active database connection"), app)
    | Some name =>
        if String.eqb name ""
        then (Fails (HTTPException 400 "No active database connection"), app)
        else
          and_then (on_manager (get_connection_config name))
            (fun conn_config =>
               if negb (truthy conn_config)
               then fail (HTTPException 404 "Active connection not found")
               else
                 try_except_Exception (psycopg2_connect conn_config)
                   (fun e =>
                      fail (HTTPException 500
                              (fstr ["Database connection failed: "; str_of_raised e]))))
            app
    end.

(** [execute_query]; the [finally] block closes the cursor and the
    connection that the function opened. *)
Definition execute_query (sql : string) : Web (list pyval) :=
  and_then get_db_connection (fun _ app =>
    let s := extractor app in
    let (r, d) := pg_run (db s) sql in
    (match r with
     | Ok results => Returns (map VDict results)
     | Raise e =>
         Fails (HTTPException 400 (fstr ["Query execution failed: "; str_of_exn e]))
     end,
     mkApp (connection_manager app) (active_connection app) (set_db d s))).

(** [get_metadata_extractor]; [get_connection_config] returns None or a
    dictionary, which becomes the [connection_params] of a new extractor. *)
Definition get_metadata_extractor : Web unit :=
  fun app =>
    match active_connection app with
    | None => (Fails (HTTPException 400 "No active database connection"), app)
    | Some name =>
        if String.eqb name ""
        then (Fails (HTTPException 400 "No active database connection"), app)
        else
          and_then (on_manager (get_connection_config name))
            (fun conn_config =>
               if negb (truthy conn_config)
               then fail (HTTPException 404 "Connection configuration not found")
               else
                 match conn_config with
                 | VDict params =>
                     fun app1 =>
                       (Returns tt,
                        mkApp (connection_manager app1) (active_connection app1)
                              (new_extractor params (extractor app1)))
                 | _ => fail (PyError TypeError)
                 end)
            app
    end.

(** GET /schema. *)
Definition get_schema : Web pyval :=
  try_except_Exception
    (and_then get_metadata_extractor (fun _ =>
     and_then (on_extractor (extract_all_metadata false 3 false true)) (fun _ =>
     and_then (on_extractor format_for_ai) (fun text =>
     answer (VDict [("schema", VStr text)])))))
    (fun e => fail (HTTPException 500 (str_of_raised e))).

(** GET /metadata. *)
Definition get_full_metadata : Web pyval :=
  try_except_Exception
    (and_then get_metadata_extractor (fun _ =>
     and_then (on_extractor (extract_all_metadata true 3 true true)) (fun metadata =>
     answer metadata)))
    (fun e => fail (HTTPException 500 (str_of_raised e))).

(** POST /metadata/refresh. *)
Definition refresh_metadata : Web pyval :=
  try_except_Exception
    (and_then get_metadata_extractor (fun _ =>
     and_then (on_extractor clear_cache) (fun _ =>
     and_then (on_extractor (extract_all_metadata true 3 true false)) (fun _ =>
     answer (VDict [("status", VStr "success"); ("message", VStr "Metadata refreshed")])))))
    (fun e => fail (HTTPException 500 (str_of_raised e))).

(** POST /query.  [api_key] and [create] are those of
    [convert_nl_to_sql]; the answer is the [QueryResponse]. *)
Definition natural_language_query (api_key : option string)
    (create : string -> result string) (question : string) : Web pyval :=
  try_except_Exception
    (and_then get_metadata_extractor (fun _ =>
     and_then (on_extractor (extract_all_metadata false 3 false true)) (fun _ =>
     and_then (on_extractor format_for_ai) (fun schema =>
     and_then (fun app => (convert_nl_to_sql api_key create question schema, app))
       (fun sql =>
     and_then (execute_query sql) (fun results =>
     answer (VDict [("sql", VStr sql); ("results", VList results);
                    ("row_count", VInt (Z.of_nat (List.length results)))])))))))
    (fun e =>
       match e with
       | HTTPException status_code detail => fail (HTTPException status_code detail)
       | PyError _ =>
           fail (HTTPException 500 (fstr ["Unexpected error: "; str_of_raised e]))
       end).

(** *** Connection management endpoints

    The path parameter [name] and the fields of [ConnectionCreate] are
    validated by FastAPI: strings, and an int for the port. *)

Definition of_result {A} (r : result A) : Web A :=
  fun app =>
    match r with
    | Ok a => (Returns a, app)
    | Raise e => (Fails (PyError e), app)
    end.

Definition set_active (active : option string) : Web unit :=
  fun app => (Returns tt, mkApp (connection_manager app) active (extractor app)).

(** GET /connections. *)
Definition list_connections : Web pyval :=
  and_then (on_manager ConnectionManager.list_connections) (fun infos =>
  answer (VList infos)).

(** GET /connections/{name}. *)
Definition get_connection (name : string) : Web pyval :=
  and_then (on_manager (ConnectionManager.get_connection name)) (fun conn =>
  if negb (truthy conn)
  then fail (HTTPException 404 "Connection not found")
  else
    of_result (let? safe_conn := copy conn in
               let? safe_conn1 := pop_default safe_conn "password" in
               setitem safe_conn1 "name" (VStr name))).

(** POST /connections. *)
Definition create_connection (name host database user password : string) (port : Z)
    (description : string) : Web pyval :=
  try_except_Exception
    (on_manager (add_connection name (VStr host) (VStr database) (VStr user)
                   (VStr password) (VInt port) (VStr description)))
    (fun e => fail (HTTPException 500 (str_of_raised e))).

(** DELETE /connections/{name}. *)
Definition delete_connection (name : string) : Web pyval :=
  and_then (on_manager (ConnectionManager.delete_connection name)) (fun deleted =>
  if (deleted : bool)
  then
    and_then
      (fun app =>
         match active_connection app with
         | Some active =>
             if String.eqb active name then set_active None app else (Returns tt, app)
         | None => (Returns tt, app)
         end)
      (fun _ =>
         answer (VDict [("status", VStr "success");
                        ("message", VStr (fstr ["Connection '"; name; "' deleted"]))]))
  else fail (HTTPException 404 "Connection not found")).

(** [psycopg2.connect] with the keywords of [conn_config] and
    [connect_timeout=5], followed by [test_conn.close()]. *)
Definition test_connect (conn_config : pyval) : Web unit :=
  fun app =>
    match conn_config with
    | VDict params =>
        let s := extractor app in
        let (r, d) := pg_connect (params ++ [("connect_timeout", VInt 5)]) (db s) in
        match r with
        | Ok _ =>
            (Returns tt,
             mkApp (connection_manager app) (active_connection app) (set_db d s))
        | Raise e =>
            (Fails (PyError e),
             mkApp (connection_manager app) (active_connection app) (set_db d s))
        end
    | _ => (Fails (PyError TypeError), app)
    end.

(** POST /connections/{name}/activate. *)
Definition activate_connection (name : string) : Web pyval :=
  and_then (on_manager (ConnectionManager.get_connection name)) (fun conn =>
  if negb (truthy conn)
  then fail (HTTPException 404 "Connection not found")
  else
    try_except_Exception
      (and_then (on_manager (get_connection_config name)) (fun conn_config =>
       and_then (test_connect conn_config) (fun _ =>
       and_then (set_active (Some name)) (fun _ =>
       answer (VDict [("status", VStr "success");
                      ("message", VStr (fstr ["Connection '"; name; "' activated"]));
                      ("active_connection", VStr name)])))))
      (fun e =>
         fail (HTTPException 500 (fstr ["Connection test failed: "; str_of_raised e])))).

(** *** Requests *)

Inductive request : Type :=
| ListConnections
| GetConnection (name : string)
| CreateConnection (name host database user password : string) (port : Z)
                   (description : string)
| DeleteConnection (name : string)
| ActivateConnection (name : string)
| GetSchema
| GetFullMetadata
| RefreshMetadata
| NaturalLanguageQuery (question : string).

(** The route of a request. *)
Definition route (api_key : option string) (create : string -> result string)
    (r : request) : Web pyval :=
  match r with
  | ListConnections => list_connections
  | GetConnection name => get_connection name
  | CreateConnection name host database user password port description =>
      create_connection name host database user password port description
  | DeleteConnection name => delete_connection name
  | ActivateConnection name => activate_connection name
  | GetSchema => get_schema
  | GetFullMetadata => get_full_metadata
  | RefreshMetadata => refresh_metadata
  | NaturalLanguageQuery question => natural_language_query api_key create question
  end.

(** The globals after a sequence of requests served one after the
    other, whatever each answered. *)
Fixpoint serve (api_key : option string) (create : string -> result string)
    (requests : list request) (app : App) : App :=
  match requests with
  | [] => app
  | r :: rest => serve api_key create rest (snd (route api_key create r app))
  end.

(** The active connection, if any, is a stored one. *)
Definition active_is_stored (app : App) : Prop :=
  match active_connection app with
  | None => True
  | Some name => contains name (connections (connection_manager app)) = Ok true
  end.

(** The manager holds a mapping of JSON values and can save it. *)
Definition saving (app : App) : Prop :=
  can_save (connection_manager app) /\
  exists d, connections (connection_manager app) = VDict d /\ json_value (VDict d) = true.

(** The globals agree: the manager can save, and the active connection
    is one it holds. *)
Definition consistent (app : App) : Prop := saving app /\ active_is_stored app.

(** From [app] to [app1] the active connection is the same and the
    manager [grows]. *)
Definition steady (app app1 : App) : Prop :=
  active_connection app1 = active_connection app /\
  grows (connection_manager app) (connection_manager app1).

(** [m] leaves the globals related by [R] to what they were, whatever it
    answers. *)
Definition always {A} (R : App -> App -> Prop) (m : Web A) : Prop :=
  forall app, R app (snd (m app)).

End Endpoints.

End Main.

(** ** More of the concrete setting *)

Module DemoMore.
Import Demo.

Definition is_indexes (q : query) : bool :=
  match q with Q_indexes _ => true | _ => false end.


Definition index_line (name column : string) (primary : bool) : dict :=
  [("index_name", VStr name); ("column_name", VStr column);
   ("is_unique", VBool true); ("is_primary", VBool primary);
   ("index_type", VStr "btree")].

(** The primary key of [orders] and a two-column unique index. *)
Definition index_listing : list dict :=
  [index_line "orders_pkey" "id" true;
   index_line "orders_user_day" "user_id" false;
   index_line "orders_user_day" "day" false].

(** An extractor that holds snapshot [m], on server [d]. *)
Definition holding_on (d : server) (m : pyval) : State :=
  mkState [("database", VStr "shop")] m NoCursor d None true seconds 0 [].

(** The files of the working directory of the module's example: an
    earlier description is on disk. *)
Definition on_disk : Files :=
  mkFiles (fun n => if String.eqb n "database_schema.txt" then Some "DATABASE: shop" else None)
          (fun _ => true).

(** A vault that keeps the mapping beside the number of the token, and
    refuses what [json.dumps] refuses. *)
#[export] Instance plain_vault : Vault := {|
  token := pyval * nat;
  seal := fun v n =>
    if ConnectionManager.json_value v then Ok (v, n) else Raise TypeError;
  unseal := fun data => Ok (fst data);
  strftime_stamp := stamp_text
|}.

Definition saved_connection (host database password : string) : pyval :=
  VDict [("host", VStr host); ("database", VStr database); ("user", VStr "app");
         ("password", VStr password); ("port", VInt 5432);
         ("description", VStr "nightly copy"); ("created_at", VStr "2024-01-01T00:00:00");
         ("last_used", VNone)].

Definition saved : dict :=
  [("shop", saved_connection "db.local" "shop" "s3cret");
   ("warehouse", saved_connection "wh.local" "warehouse" "t0psecret")].

(** A manager that holds [saved], with or without a writable storage file. *)
Definition office (writable : bool) : ConnectionManager.Manager :=
  ConnectionManager.mkManager (VDict saved) None writable seconds 0 0.

(** [str(e)] of an [HTTPException] as Starlette prints it. *)
Definition isspace (c : ascii) : bool :=
  let n := nat_of_ascii c in
  ((9 <=? n) && (n <=? 13) || (28 <=? n) && (n <=? 32))%nat.

Fixpoint lstrip (s : string) : string :=
  match s with
  | EmptyString => EmptyString
  | String c r => if isspace c then lstrip r else s
  end.

Fixpoint rstrip (s : string) : string :=
  match s with
  | EmptyString => EmptyString
  | String c r =>
      match rstrip r with
      | EmptyString => if isspace c then EmptyString else String c EmptyString
      | kept => String c kept
      end
  end.

(** [str(e)] of an [HTTPException] as Starlette prints it, and [strip]
    on ASCII text. *)
#[export] Instance plain_web : WebLib := {|
  str_of_http := fun status_code detail => fstr [str_of_int status_code; ": "; detail];
  str_strip := fun s => lstrip (rstrip s)
|}.

(** A server that answers every statement of main.py with one row. *)
#[export] Instance one_row_runner : SqlRunner := {|
  pg_run := fun d sql =>
    (if reachable d then Ok [[("count", VInt 2)]] else Raise OperationalError, d)
|}.

(** The application with the connections of [office], the cache file
    [file] and server [d]. *)
Definition desk (active : option string) (d : server) (file : option (option pyval))
  : Main.App :=
  Main.mkApp (office true) active (fresh d file true seconds).

(** The same application when the storage file cannot be written, with
    connection [shop] active. *)
Definition stuck_desk : Main.App :=
  Main.mkApp (office false) (Some "shop") (fresh healthy None true seconds).

End DemoMore.

(** ** Dictionaries *)

Lemma dict_get_set (n k : string) (v : pyval) (d : dict) :
  dict_get n (dict_set k v d) = if String.eqb n k then Some v else dict_get n d.
Proof.
  induction d as [|[k' v'] r IH]; simpl.
  - destruct (String.eqb n k); reflexivity.
  - destruct (String.eqb k k') eqn:Ekk'; simpl.
    + apply String.eqb_eq in Ekk'. subst k'.
      destruct (String.eqb n k); reflexivity.
    + rewrite IH. destruct (String.eqb n k') eqn:Enk'; [|reflexivity].
      apply String.eqb_eq in Enk'. subst k'.
      destruct (String.eqb n k) eqn:Enk; [|reflexivity].
      apply String.eqb_eq in Enk. subst n.
      rewrite String.eqb_refl in Ekk'. discriminate.
Qed.

Lemma dict_has_set (n k : string) (v : pyval) (d : dict) :
  dict_has n (dict_set k v d) = String.eqb n k || dict_has n d.
Proof.
  unfold dict_has. rewrite dict_get_set.
  destruct (String.eqb n k); reflexivity.
Qed.

(** ** Relationship Grapher *)

Section Grapher.
Context `{Database} `{Pickle} `{PyLib}.

Lemma relationship_row_step (acc : dict) (row : dict) :
  edge_row row = true -> lists_only acc ->
  exists acc1,
    relationship_row acc (VDict row) = Ok acc1 /\ lists_only acc1 /\
    forall t, dict_get t acc1 = extended acc [row] t.
Proof.
  intros Hrow Hacc. unfold edge_row in Hrow.
  destruct (dict_get "from_table" row) as [[| | | |ft| | |]|] eqn:Eft; try discriminate.
  apply andb_prop in Hrow as [Hrow Htc]. apply andb_prop in Hrow as [Hfc Htt].
  unfold dict_has in Hfc, Htt, Htc.
  destruct (dict_get "from_column" row) as [fc|] eqn:Efc; [|discriminate].
  destruct (dict_get "to_table" row) as [tt'|] eqn:Ett; [|discriminate].
  destruct (dict_get "to_column" row) as [tc|] eqn:Etc; [|discriminate].
  assert (Hedge : edge_of row = VDict [("from_column", fc); ("to_table", tt'); ("to_column", tc)]).
  { unfold edge_of, field. rewrite Efc, Ett, Etc. reflexivity. }
  assert (Hsel : forall t, from_table_is t row = String.eqb ft t).
  { intro t. unfold from_table_is, field. rewrite Eft. reflexivity. }
  unfold relationship_row, subscript. rewrite Eft, Efc, Ett, Etc. simpl.
  unfold dict_has. destruct (dict_get ft acc) as [old|] eqn:Eold.
  - destruct (Hacc _ _ Eold) as [l ->]. rewrite Eold.
    eexists. split; [reflexivity|]. split.
    + intros t v. rewrite dict_get_set.
      destruct (String.eqb t ft); [intros [= <-]; eauto | apply Hacc].
    + intro t. rewrite dict_get_set. unfold extended, edges_from. simpl.
      rewrite Hsel, (String.eqb_sym ft t).
      destruct (String.eqb t ft) eqn:Et.
      * apply String.eqb_eq in Et. subst t. rewrite Eold. simpl. rewrite Hedge. reflexivity.
      * simpl. destruct (dict_get t acc) as [[| | | | | |l'|]|]; try reflexivity.
        rewrite app_nil_r. reflexivity.
  - rewrite dict_get_set, String.eqb_refl.
    eexists. split; [reflexivity|]. split.
    + intros t v. rewrite !dict_get_set.
      destruct (String.eqb t ft); [intros [= <-]; eauto | apply Hacc].
    + intro t. rewrite !dict_get_set. unfold extended, edges_from. simpl.
      rewrite Hsel, (String.eqb_sym ft t).
      destruct (String.eqb t ft) eqn:Et.
      * apply String.eqb_eq in Et. subst t. rewrite Eold. simpl. rewrite Hedge. reflexivity.
      * simpl. destruct (dict_get t acc) as [[| | | | | |l'|]|]; try reflexivity.
        rewrite app_nil_r. reflexivity.
Qed.

Lemma extended_cons (acc acc1 : dict) (row : dict) (rows : list dict) (t : string) :
  lists_only acc ->
  (forall u, dict_get u acc1 = extended acc [row] u) ->
  extended acc1 rows t = extended acc (row :: rows) t.
Proof.
  intros Hacc Hstep. unfold extended at 1. rewrite Hstep.
  unfold extended, edges_from. simpl.
  destruct (dict_get t acc) as [v|] eqn:Ev.
  - destruct (Hacc _ _ Ev) as [l ->].
    destruct (from_table_is t row); simpl.
    + rewrite <- app_assoc. reflexivity.
    + rewrite app_nil_r. reflexivity.
  - destruct (from_table_is t row); simpl; reflexivity.
Qed.

Lemma relationship_rows (rows : list dict) :
  forall acc,
    forallb edge_row rows = true -> lists_only acc ->
    exists m,
      rfold (fetchall rows) acc relationship_row = Ok m /\
      forall t, dict_get t m = extended acc rows t.
Proof.
  induction rows as [|row rows IH]; intros acc Hrows Hacc.
  - exists acc. split; [reflexivity|]. intro t. unfold extended, edges_from. simpl.
    destruct (dict_get t acc) as [v|] eqn:Ev; [|reflexivity].
    destruct (Hacc _ _ Ev) as [l ->]. rewrite app_nil_r. reflexivity.
  - simpl in Hrows. apply andb_prop in Hrows as [Hrow Hrows].
    destruct (relationship_row_step acc row Hrow Hacc) as (acc1 & Hstep & Hl1 & Hget).
    destruct (IH acc1 Hrows Hl1) as (m & Hm & Hmget).
    exists m. split.
    + simpl. rewrite Hstep. simpl. exact Hm.
    + intro t. rewrite Hmget. apply extended_cons; assumption.
Qed.

End Grapher.

(** ** Statements *)

Lemma bind_ok {St A B} (m : M St A) (k : A -> M St B) (s s2 : St) (b : B) :
  bind m k s = (Ok b, s2) ->
  exists a s1, m s = (Ok a, s1) /\ k a s1 = (Ok b, s2).
Proof.
  unfold bind. destruct (m s) as [[a|e] s1]; intro E.
  - exists a, s1. split; [reflexivity | exact E].
  - discriminate.
Qed.

Lemma ret_ok {St A} (x a : A) (s s1 : St) :
  ret x s = (Ok a, s1) -> a = x /\ s1 = s.
Proof. unfold ret. intros [= -> ->]. split; reflexivity. Qed.

Lemma lift_state {St A} (r : result A) (s s1 : St) (a : A) :
  lift r s = (Ok a, s1) -> s1 = s.
Proof. unfold lift. intros [= _ ->]. reflexivity. Qed.

(** A loop keeps what each round keeps. *)
Lemma for_each_invariant {St A B} (P : B -> Prop) (body : B -> A -> M St B) :
  (forall acc x s acc1 s1, P acc -> body acc x s = (Ok acc1, s1) -> P acc1) ->
  forall xs acc s acc1 s1,
    P acc -> for_each xs acc body s = (Ok acc1, s1) -> P acc1.
Proof.
  intros Hbody xs. induction xs as [|x xs IH]; intros acc s acc1 s1 Hacc Hrun.
  - apply ret_ok in Hrun as [-> _]. exact Hacc.
  - simpl in Hrun. apply bind_ok in Hrun as (acc2 & s2 & Hx & Hrest).
    eapply IH; [|exact Hrest]. eapply Hbody; eassumption.
Qed.

(** A handler that returns a default makes the statement total. *)
Lemma try_except_default {St A} (m : M St A) (default : A) (s : St) :
  exists a s1, try_except m (fun _ => ret default) s = (Ok a, s1).
Proof.
  unfold try_except. destruct (m s) as [[a|e] s1]; eauto.
  unfold ret. eauto.
Qed.

Ltac bind_inv H :=
  let a := fresh "v" in
  let s := fresh "s" in
  let Hm := fresh "Hm" in
  cbv zeta in H; apply bind_ok in H; destruct H as (a & s & Hm & H).

Section Properties.
Context `{Database} `{Pickle} `{PyLib}.

(** *** Relationship Grapher *)

(** C8.  For every listing of foreign-key constraints the catalog
    returns, the mapping built by [get_table_relationships] has, for each
    table [t], exactly the edges leaving [t], in the order of the listing
    and with repetitions kept, and has no entry at all for a table
    without an edge. *)
Theorem relationships_mapping (s : State) (rows : list dict) (d : DB) :
  cursor s = CursorOpen ->
  pg_execute (db s) Q_table_relationships = (Ok rows, d) ->
  forallb edge_row rows = true ->
  exists m,
    fst (get_table_relationships s) = Ok m /\
    forall t,
      dict_get t m =
      match edges_from t rows with
      | [] => None
      | es => Some (VList es)
      end.
Proof.
  intros Hopen Hrows Hwf.
  destruct (relationship_rows rows [] Hwf) as (m & Hm & Hget).
  { intros t v. discriminate. }
  exists m. split.
  - unfold get_table_relationships, bind, execute. rewrite Hopen, Hrows. simpl.
    unfold lift. simpl. exact Hm.
  - intro t. rewrite Hget. reflexivity.
Qed.

(** *** Schema Prober: column statistics *)

(** True division is what the guard protects: it raises on a zero total. *)
Lemma truediv_by_zero (a : Z) : py_truediv (VInt a) (VInt 0) = Raise ZeroDivisionError.
Proof. reflexivity. Qed.

Lemma column_stats_entry_zero_total (row : dict) (non_null : Z) (distinct : pyval) :
  dict_get "total_rows" row = Some (VInt 0) ->
  dict_get "non_null_count" row = Some (VInt non_null) ->
  dict_get "distinct_count" row = Some distinct ->
  column_stats_entry (VDict row) = Ok (zero_total_stats non_null distinct).
Proof.
  intros Ht Hn Hd. unfold column_stats_entry, subscript.
  rewrite Ht, Hn, Hd. reflexivity.
Qed.

(** C9.  When the row of counts of a column has [total_rows] 0, the
    statistics stored for the column are the regular four fields, with
    both percentages the integer 0: the divisions are not evaluated and
    the column does not get the [error] entry of a failed computation. *)
Theorem zero_total_percentages (s : State) (table_name : pyval) (stats col row : dict)
    (rest : list dict) (d : DB) (c : string) (non_null : Z) (distinct : pyval) :
  dict_get "column_name" col = Some (VStr c) ->
  cursor s = CursorOpen ->
  pg_execute (db s) (Q_column_statistics c (py_str table_name)) = (Ok (row :: rest), d) ->
  dict_get "total_rows" row = Some (VInt 0) ->
  dict_get "non_null_count" row = Some (VInt non_null) ->
  dict_get "distinct_count" row = Some distinct ->
  fst (column_statistics_step table_name stats col s)
  = Ok (dict_set c (zero_total_stats non_null distinct) stats).
Proof.
  intros Hc Hopen Hq Ht Hn Hd.
  unfold column_statistics_step, bind, lift, try_except, subscript, execute.
  rewrite Hc. simpl. rewrite Hopen, Hq. simpl.
  rewrite (column_stats_entry_zero_total row non_null distinct Ht Hn Hd).
  reflexivity.
Qed.

(** A column whose statement fails gets the [error] entry and the loop goes on. *)
Lemma column_statistics_failure_recorded (s : State) (table_name : pyval)
    (stats col : dict) (d : DB) (c : string) (e : exn) :
  dict_get "column_name" col = Some (VStr c) ->
  cursor s = CursorOpen ->
  pg_execute (db s) (Q_column_statistics c (py_str table_name)) = (Raise e, d) ->
  fst (column_statistics_step table_name stats col s)
  = Ok (dict_set c (VDict [("error", VStr (str_of_exn e))]) stats).
Proof.
  intros Hc Hopen Hq.
  unfold column_statistics_step, bind, lift, try_except, subscript, execute.
  rewrite Hc. simpl. rewrite Hopen, Hq. reflexivity.
Qed.

(** *** Cache Manager *)

(** [load_from_cache] neither raises nor touches anything but the clock
    and, on a hit, [self.metadata]. *)
Lemma load_from_cache_cases (s : State) :
  load_from_cache s = (Ok false, s) \/
  load_from_cache s = (Ok false, set_ticks (S (ticks s)) s) \/
  exists f m c,
    cache_file s = Some f /\ cache_entry f = Some (m, c) /\
    (cache_ttl <? time_now s - c) = false /\
    load_from_cache s = (Ok true, set_metadata m (set_ticks (S (ticks s)) s)).
Proof.
  unfold load_from_cache, cache_entry, time_now.
  destruct (cache_file s) as [f|] eqn:Ef; [|left; reflexivity].
  unfold try_except, bind, lift, now, ret.
  destruct (pickle_load f) as [cache_data|e] eqn:El; [|left; reflexivity].
  destruct (subscript cache_data "cached_at") as [cached_at|e] eqn:Ec; [|left; reflexivity].
  destruct cached_at as [| | | | |c| |]; simpl; try (right; left; reflexivity).
  destruct (cache_ttl <? clock s (ticks s) - c) eqn:Eold; [right; left; reflexivity|].
  destruct (subscript cache_data "metadata") as [m|e] eqn:Em; [|right; left; reflexivity].
  right; right. exists f, m, c. rewrite El, Ec, Em. auto.
Qed.

Lemma load_from_cache_miss_cases (s : State) :
  load_from_cache s = (Ok false, s) \/
  load_from_cache s = (Ok false, set_ticks (S (ticks s)) s) \/
  fst (load_from_cache s) = Ok true.
Proof.
  destruct (load_from_cache_cases s) as [E|[E|(f & m & c & _ & _ & _ & E)]];
    rewrite E; auto.
Qed.

(** C6.  [load_from_cache] never raises.  It reports a miss exactly when
    there is no cache file, or the file does not unpickle to an entry
    (a snapshot with the time it was cached), or the entry is older than
    the one-hour TTL; in every other case it reports a hit and
    [self.metadata] is the stored snapshot. *)
Theorem cache_get_outcome (s : State) :
  (fst (load_from_cache s) = Ok false <->
     cache_file s = None \/
     (exists f, cache_file s = Some f /\ cache_entry f = None) \/
     (exists f m c,
        cache_file s = Some f /\ cache_entry f = Some (m, c) /\
        cache_ttl < time_now s - c)) /\
  (fst (load_from_cache s) = Ok false \/
   exists f m c,
     cache_file s = Some f /\ cache_entry f = Some (m, c) /\
     time_now s - c <= cache_ttl /\
     fst (load_from_cache s) = Ok true /\
     metadata (snd (load_from_cache s)) = m).
Proof.
  unfold load_from_cache, cache_entry, time_now.
  destruct (cache_file s) as [f|] eqn:Ef.
  2:{ split; [split; auto | left; reflexivity]. }
  unfold try_except, bind, lift, now, ret.
  destruct (pickle_load f) as [cache_data|e] eqn:El.
  2:{ split; [|left; reflexivity]. split; [intros _|reflexivity].
      right; left. exists f. rewrite El. auto. }
  destruct (subscript cache_data "cached_at") as [cached_at|e] eqn:Ec.
  2:{ split; [|left; reflexivity]. split; [intros _|reflexivity].
      right; left. exists f. rewrite El, Ec. auto. }
  destruct cached_at as [| | | | |c| |]; simpl;
    try (split; [|left; reflexivity]; split; [intros _|reflexivity];
         right; left; exists f; rewrite El, Ec; auto).
  destruct (subscript cache_data "metadata") as [m|e] eqn:Em.
  - destruct (cache_ttl <? clock s (ticks s) - c) eqn:Eold; simpl.
    + apply Z.ltb_lt in Eold. split; [|left; reflexivity].
      split; [intros _|reflexivity].
      right; right. exists f, m, c. rewrite El, Ec, Em. auto.
    + apply Z.ltb_ge in Eold. split.
      * split; [discriminate|].
        intros [E|[(f' & E & Hnone)|(f' & m' & c' & E & Hsome & Hlt)]].
        -- discriminate.
        -- injection E as <-. rewrite El, Ec, Em in Hnone. discriminate.
        -- injection E as <-. rewrite El, Ec, Em in Hsome.
           injection Hsome as <- <-. lia.
      * right. exists f, m, c. rewrite El, Ec, Em. repeat split; auto.
  - split; [|left; destruct (cache_ttl <? clock s (ticks s) - c); reflexivity].
    split; [intros _|destruct (cache_ttl <? clock s (ticks s) - c); reflexivity].
    right; left. exists f. rewrite El, Ec, Em. auto.
Qed.

(** After [clear_cache] the next lookup is a miss. *)
Lemma clear_cache_then_miss (s : State) :
  fst (load_from_cache (snd (clear_cache s))) = Ok false.
Proof.
  unfold clear_cache, load_from_cache.
  destruct (cache_file s) as [f|] eqn:Ef; simpl; [reflexivity|].
  rewrite Ef. reflexivity.
Qed.

(** C7.  When the cache file can be written and pickle restores what it
    dumped, [save_to_cache] followed by a [load_from_cache] that reads
    the clock no later than one TTL after the write is a hit, and
    [self.metadata] is then the snapshot that was saved. *)
Theorem cache_round_trip (s s2 : State) :
  (forall v, pickle_load (pickle_dump v) = Ok v) ->
  cache_writable s = true ->
  cache_file s2 = cache_file (snd (save_to_cache s)) ->
  time_now s2 - time_now s <= cache_ttl ->
  fst (save_to_cache s) = Ok tt /\
  fst (load_from_cache s2) = Ok true /\
  metadata (snd (load_from_cache s2)) = metadata s.
Proof.
  intros Hpickle Hw Hfile Hfresh. unfold time_now in Hfresh.
  unfold save_to_cache, bind, now, try_except in *. simpl in *.
  rewrite Hw in *. simpl in *. split; [reflexivity|].
  unfold load_from_cache. rewrite Hfile.
  unfold try_except, bind, lift, now. rewrite Hpickle. simpl.
  apply Z.ltb_ge in Hfresh. rewrite Hfresh. simpl. split; reflexivity.
Qed.

(** C4.  With [use_cache] true and a cache file holding an entry no
    older than the TTL, [extract_all_metadata] returns the stored
    snapshot whatever [include_samples], [sample_rows] and
    [include_statistics] are, and asks nothing of psycopg2: no connect,
    no statement, the server and the cursor are as before. *)
Theorem cache_hit_skips_database (include_samples : bool) (sample_rows : Z)
    (include_statistics : bool) (s : State) (f : blob) (m : pyval) (c : Z) :
  cache_file s = Some f ->
  cache_entry f = Some (m, c) ->
  time_now s - c <= cache_ttl ->
  fst (extract_all_metadata include_samples sample_rows include_statistics true s) = Ok m /\
  trace (snd (extract_all_metadata include_samples sample_rows include_statistics true s)) = trace s /\
  db (snd (extract_all_metadata include_samples sample_rows include_statistics true s)) = db s /\
  cursor (snd (extract_all_metadata include_samples sample_rows include_statistics true s)) = cursor s.
Proof.
  intros Hfile Hentry Hfresh. unfold time_now in Hfresh. apply Z.ltb_ge in Hfresh.
  unfold cache_entry in Hentry.
  destruct (pickle_load f) as [cache_data|e] eqn:El; [|discriminate].
  destruct (subscript cache_data "cached_at") as [[| | | | |c'| |]|e] eqn:Ec; try discriminate.
  destruct (subscript cache_data "metadata") as [m'|e] eqn:Em; [|discriminate].
  injection Hentry as -> ->.
  unfold extract_all_metadata, bind, load_from_cache. rewrite Hfile.
  unfold try_except, bind, lift, now. rewrite El, Ec. simpl.
  rewrite Hfresh, Em. simpl. repeat split; reflexivity.
Qed.

(** *** Metadata Aggregator *)

(** The probes that recover locally return a value in every state. *)
Lemma get_primary_keys_total (table_name : pyval) (s : State) :
  exists keys s1, get_primary_keys table_name s = (Ok keys, s1).
Proof. apply try_except_default. Qed.

Lemma get_indexes_total (table_name : pyval) (s : State) :
  exists indexes s1, get_indexes table_name s = (Ok indexes, s1).
Proof. apply try_except_default. Qed.

Lemma get_sample_data_total (table_name : pyval) (limit : Z) (s : State) :
  exists rows s1, get_sample_data table_name limit s = (Ok rows, s1).
Proof. apply try_except_default. Qed.

Lemma get_row_count_total (table_name : pyval) (s : State) :
  exists n s1, get_row_count table_name s = (Ok n, s1).
Proof. apply try_except_default. Qed.

Lemma get_table_size_total (table_name : pyval) (s : State) :
  exists size s1, get_table_size table_name s = (Ok size, s1).
Proof. apply try_except_default. Qed.

(** [get_foreign_keys] has no handler: what the cursor raises, it raises. *)
Lemma get_foreign_keys_propagates (table_name : pyval) (s : State) (e : exn) (d : DB) :
  cursor s = CursorOpen ->
  pg_execute (db s) (Q_foreign_keys table_name) = (Raise e, d) ->
  fst (get_foreign_keys table_name s) = Raise e.
Proof.
  intros Hopen Hq. unfold get_foreign_keys, execute. rewrite Hopen, Hq. reflexivity.
Qed.

(** A call that does not take the cache-hit exit either returns [{}]
    or returns what its [try] block returns. *)
Lemma extract_without_hit (include_samples : bool) (sample_rows : Z)
    (include_statistics use_cache : bool) (s : State) (m : pyval) :
  cache_bypassed use_cache s ->
  fst (extract_all_metadata include_samples sample_rows include_statistics use_cache s) = Ok m ->
  m = VDict [] \/
  exists s1 s2,
    extract_body include_samples sample_rows include_statistics use_cache s1 = (Ok m, s2).
Proof.
  intros Hby Hrun.
  assert (Hconnect : exists s0,
             fst (bind connect
                    (fun connected =>
                       if negb connected then ret (VDict [])
                       else try_finally
                              (extract_body include_samples sample_rows
                                 include_statistics use_cache) close) s0) = Ok m).
  { unfold extract_all_metadata in Hrun. unfold bind at 1 in Hrun.
    destruct use_cache.
    - destruct Hby as [Hby|Hby]; [discriminate|].
      destruct (load_from_cache s) as [r s0]. simpl in Hby. subst r. eauto.
    - exists s. exact Hrun. }
  clear Hrun. destruct Hconnect as [s0 Hrun]. unfold bind in Hrun.
  unfold connect in Hrun.
  destruct (pg_connect (connection_params s0) (db s0)) as [[u|e] d]; simpl in Hrun.
  - right. unfold try_finally in Hrun.
    match type of Hrun with
    | context [extract_body ?a ?b ?c ?d ?st] =>
        destruct (extract_body a b c d st) as [r s2] eqn:Ebody
    end.
    unfold close in Hrun. destruct (cursor s2); simpl in Hrun; subst r; eauto.
  - left. injection Hrun as <-. reflexivity.
Qed.

Lemma process_table_short_circuits (include_samples : bool) (sample_rows : Z)
    (include_statistics : bool) (tables info : dict) (s s1 : State) (tables1 : dict) :
  tables_short_circuited tables ->
  process_table include_samples sample_rows include_statistics tables info s = (Ok tables1, s1) ->
  tables_short_circuited tables1.
Proof.
  intros Hinv Hrun. unfold process_table in Hrun.
  do 12 bind_inv Hrun. apply ret_ok in Hrun as [-> _].
  intros name table_meta. rewrite dict_get_set.
  destruct (String.eqb name v10); [|apply Hinv].
  intros [= <-].
  repeat match goal with
  | Hc : (if ?c then _ else _) _ = (Ok _, _) |- _ =>
      destruct c eqn:?;
      [ bind_inv Hc; apply ret_ok in Hc as [-> _] | apply ret_ok in Hc as [-> _] ]
  end;
  unfold short_circuited; cbn; intros [= ->];
  repeat match goal with
  | Hb : _ && (0 <? 0) = true |- _ => rewrite andb_false_r in Hb; discriminate
  end;
  split; reflexivity.
Qed.

(** What the [try] block stores under 'tables' and 'views'. *)
Lemma extract_body_mappings (include_samples : bool) (sample_rows : Z)
    (include_statistics use_cache : bool) (s s1 : State) (m : pyval) :
  extract_body include_samples sample_rows include_statistics use_cache s = (Ok m, s1) ->
  exists tables views s2 s3 s4 s5 tables_meta views_meta,
    for_each tables []
      (process_table include_samples sample_rows include_statistics) s2 = (Ok tables_meta, s3) /\
    for_each views [] (process_view include_samples sample_rows) s4 = (Ok views_meta, s5) /\
    subscript m "tables" = Ok (VDict tables_meta) /\
    subscript m "views" = Ok (VDict views_meta).
Proof.
  intro Hrun. unfold extract_body in Hrun.
  do 10 bind_inv Hrun. apply ret_ok in Hrun as [-> _].
  do 8 eexists. split; [eassumption|]. split; [eassumption|].
  split; reflexivity.
Qed.

(** C5.  In the snapshot of a call that did not take the cache-hit exit,
    a table entry whose [row_count] is 0 has no 'column_statistics' key
    and no 'sample_data' key, whatever the inclusion flags are. *)
Theorem empty_table_short_circuit (include_samples : bool) (sample_rows : Z)
    (include_statistics use_cache : bool) (s : State)
    (m : pyval) (tables : dict) (name : string) (table_meta : pyval) :
  cache_bypassed use_cache s ->
  fst (extract_all_metadata include_samples sample_rows include_statistics use_cache s) = Ok m ->
  subscript m "tables" = Ok (VDict tables) ->
  dict_get name tables = Some table_meta ->
  subscript table_meta "row_count" = Ok (VInt 0) ->
  contains "column_statistics" table_meta = Ok false /\
  contains "sample_data" table_meta = Ok false.
Proof.
  intros Hby Hrun Htables Hname Hzero.
  destruct (extract_without_hit _ _ _ _ _ _ Hby Hrun) as [-> | (s1 & s2 & Hbody)];
    [discriminate|].
  destruct (extract_body_mappings _ _ _ _ _ _ _ Hbody)
    as (ts & vs & s3 & s4 & s5 & s6 & tm & vm & Hts & _ & Etables & _).
  rewrite Etables in Htables. injection Htables as <-.
  assert (Hall : tables_short_circuited tm).
  { eapply (for_each_invariant tables_short_circuited); [| |exact Hts].
    - intros acc x st acc1 st1 Hacc Hstep.
      eapply process_table_short_circuits; eassumption.
    - intros n t. discriminate. }
  exact (Hall name table_meta Hname Hzero).
Qed.

(** C3 as the code has it.  When the call does not take the cache-hit
    exit and psycopg2 cannot connect, [extract_all_metadata] raises
    nothing and returns the empty dictionary; [self.metadata] and the
    cursor are left as they were. *)
Theorem connection_failure_returns_empty_dict (include_samples : bool) (sample_rows : Z)
    (include_statistics use_cache : bool) (s : State) (e : exn) :
  cache_bypassed use_cache s ->
  fst (pg_connect (connection_params s) (db s)) = Raise e ->
  fst (extract_all_metadata include_samples sample_rows include_statistics use_cache s)
  = Ok (VDict []) /\
  metadata (snd (extract_all_metadata include_samples sample_rows include_statistics use_cache s))
  = metadata s /\
  cursor (snd (extract_all_metadata include_samples sample_rows include_statistics use_cache s))
  = cursor s.
Proof.
  intros Hby Hdown.
  assert (Hrefused : forall s0 body,
             connection_params s0 = connection_params s -> db s0 = db s ->
             bind connect
               (fun connected : bool => if negb connected then ret (VDict []) else body) s0
             = (Ok (VDict []),
                db_step (cursor s0) (snd (pg_connect (connection_params s) (db s))) Connect s0)).
  { intros s0 body Hp Hd. unfold bind, connect. rewrite Hp, Hd.
    destruct (pg_connect (connection_params s) (db s)) as [[u|e'] d];
      simpl in Hdown; [discriminate|reflexivity]. }
  assert (Hrun : exists s0,
             (s0 = s \/ s0 = set_ticks (S (ticks s)) s) /\
             extract_all_metadata include_samples sample_rows include_statistics use_cache s
             = (Ok (VDict []),
                db_step (cursor s0) (snd (pg_connect (connection_params s) (db s))) Connect s0)).
  { unfold extract_all_metadata. unfold bind at 1.
    destruct use_cache.
    - destruct Hby as [Hby|Hby]; [discriminate|].
      destruct (load_from_cache_miss_cases s) as [E|[E|E]].
      + exists s. rewrite E. rewrite Hrefused by reflexivity. auto.
      + eexists. rewrite E. rewrite Hrefused by reflexivity. auto.
      + rewrite E in Hby. discriminate.
    - exists s. unfold ret at 1. rewrite Hrefused by reflexivity. auto. }
  destruct Hrun as (s0 & Hs0 & ->).
  destruct Hs0 as [-> | ->]; repeat split; reflexivity.
Qed.

(** *** AI Text Formatter *)

(** Without a snapshot the fixed notice is returned and nothing is asked. *)
Lemma format_for_ai_no_metadata (s : State) :
  truthy (metadata s) = false ->
  format_for_ai s = (Ok "No metadata available. Run extract_all_metadata() first.", s).
Proof.
  intro Hempty. unfold format_for_ai, bind. rewrite Hempty. reflexivity.
Qed.

(** With a snapshot to format and no open cursor, [format_for_ai] raises
    when it reaches the relationship diagram, whatever the snapshot is. *)
Lemma format_for_ai_without_cursor (s : State) (name at_ tables views : pyval) :
  truthy (metadata s) = true ->
  subscript (metadata s) "database_name" = Ok name ->
  subscript (metadata s) "extracted_at" = Ok at_ ->
  subscript (metadata s) "total_tables" = Ok tables ->
  subscript (metadata s) "total_views" = Ok views ->
  cursor s <> CursorOpen ->
  fst (format_for_ai s) = Raise AttributeError \/
  fst (format_for_ai s) = Raise InterfaceError.
Proof.
  intros Ht Hn Ha Htab Hv Hc.
  unfold format_for_ai, bind, lift. simpl. rewrite Ht, Hn, Ha, Htab, Hv. simpl.
  unfold generate_relationship_diagram, get_table_relationships, bind, execute.
  destruct (cursor s); [left; reflexivity | contradiction | right; reflexivity].
Qed.

End Properties.

(** ** How statements compose *)

Section Frames.
Context `{Database} `{Pickle} `{PyLib}.

Section Generic.
Variable R : State -> State -> Prop.
Hypothesis R_refl : forall s, R s s.
Hypothesis R_trans : forall s s1 s2, R s s1 -> R s1 s2 -> R s s2.

Lemma keeps_ret {A} (a : A) : keeps R (ret a).
Proof. intro s. apply R_refl. Qed.

Lemma keeps_lift {A} (r : result A) : keeps R (lift r).
Proof. intro s. apply R_refl. Qed.

Lemma keeps_bind {A B} (m : Stmt A) (k : A -> Stmt B) :
  keeps R m -> (forall a, keeps R (k a)) -> keeps R (bind m k).
Proof.
  intros Hm Hk s. unfold bind. specialize (Hm s).
  destruct (m s) as [[a|e] s1]; simpl in Hm.
  - eapply R_trans; [exact Hm | apply Hk].
  - exact Hm.
Qed.

Lemma keeps_try_except {A} (m : Stmt A) (h : exn -> Stmt A) :
  keeps R m -> (forall e, keeps R (h e)) -> keeps R (try_except m h).
Proof.
  intros Hm Hh s. unfold try_except. specialize (Hm s).
  destruct (m s) as [[a|e] s1]; simpl in Hm.
  - exact Hm.
  - eapply R_trans; [exact Hm | apply Hh].
Qed.

Lemma keeps_try_finally {A} (m : Stmt A) (f : Stmt unit) :
  keeps R m -> keeps R f -> keeps R (try_finally m f).
Proof.
  intros Hm Hf s. unfold try_finally. specialize (Hm s).
  destruct (m s) as [r s1]. simpl in Hm. specialize (Hf s1).
  destruct (f s1) as [[u|e] s2]; simpl in *; eapply R_trans; eassumption.
Qed.

Lemma keeps_for_each {A B} (body : B -> A -> Stmt B) (xs : list A) :
  (forall acc x, keeps R (body acc x)) -> forall acc, keeps R (for_each xs acc body).
Proof.
  intro Hbody. induction xs as [|x xs IH]; intro acc; simpl.
  - apply keeps_ret.
  - apply keeps_bind; [apply Hbody | intro acc1; apply IH].
Qed.

End Generic.

Lemma keeps_weaken {A} (R R1 : State -> State -> Prop) (m : Stmt A) :
  (forall s s1, R s s1 -> R1 s s1) -> keeps R m -> keeps R1 m.
Proof. intros Hsub Hm s. apply Hsub, Hm. Qed.

(** *** Steps that only ask the cursor *)

Lemma served_trans (d d1 d2 : DB) : served d d1 -> served d1 d2 -> served d d2.
Proof.
  intro H01. induction H01 as [d|d d1 q _ IH]; intro H12; [exact H12|].
  eapply served_next. apply IH. exact H12.
Qed.

Lemma probe_refl (s : State) : probe_step s s.
Proof.
  repeat split; try reflexivity; [apply served_here|].
  exists []. rewrite app_nil_r. reflexivity.
Qed.

Lemma probe_trans (s s1 s2 : State) : probe_step s s1 -> probe_step s1 s2 -> probe_step s s2.
Proof.
  intros (Hp & Hm & Hc & Hf & Hw & Hk & Ht & Hd & es & He)
         (Hp1 & Hm1 & Hc1 & Hf1 & Hw1 & Hk1 & Ht1 & Hd1 & es1 & He1).
  repeat split; try congruence.
  - eapply served_trans; eassumption.
  - exists (es ++ es1). rewrite He1, He, app_assoc. reflexivity.
Qed.

Lemma probe_execute (q : query) : keeps probe_step (execute q).
Proof.
  intro s. unfold execute. destruct (cursor s) eqn:Ec; try apply probe_refl.
  destruct (pg_execute (db s) q) as [r d] eqn:Eq. simpl.
  repeat split; simpl; try reflexivity; try (symmetry; exact Ec).
  - eapply served_next. rewrite Eq. apply served_here.
  - eexists. reflexivity.
Qed.

Lemma probe_metadata : keeps probe_step (fun s : State => (Ok (metadata s), s)).
Proof. intro s. apply probe_refl. Qed.

Lemma probe_params : keeps probe_step (fun s : State => (Ok (connection_params s), s)).
Proof. intro s. apply probe_refl. Qed.

Ltac probe :=
  repeat (cbv zeta;
    first [ apply (keeps_ret _ probe_refl)
          | apply (keeps_lift _ probe_refl)
          | apply probe_execute
          | apply probe_metadata
          | apply probe_params
          | assumption
          | apply (keeps_try_except _ probe_trans); [|intro]
          | apply (keeps_bind _ probe_trans); [|intro]
          | apply (keeps_for_each _ probe_refl probe_trans); intros
          | match goal with |- keeps _ (if ?c then _ else _) => destruct c end ]).

Lemma probe_get_tables_info : keeps probe_step get_tables_info.
Proof. unfold get_tables_info. probe. Qed.

Lemma probe_get_views_info : keeps probe_step get_views_info.
Proof. unfold get_views_info. probe. Qed.

Lemma probe_get_columns_info (t : pyval) : keeps probe_step (get_columns_info t).
Proof. unfold get_columns_info. probe. Qed.

Lemma probe_get_primary_keys (t : pyval) : keeps probe_step (get_primary_keys t).
Proof. unfold get_primary_keys. probe. Qed.

Lemma probe_get_foreign_keys (t : pyval) : keeps probe_step (get_foreign_keys t).
Proof. unfold get_foreign_keys. probe. Qed.

Lemma probe_get_indexes (t : pyval) : keeps probe_step (get_indexes t).
Proof. unfold get_indexes. probe. Qed.

Lemma probe_get_sample_data (t : pyval) (limit : Z) : keeps probe_step (get_sample_data t limit).
Proof. unfold get_sample_data. probe. Qed.

Lemma probe_get_row_count (t : pyval) : keeps probe_step (get_row_count t).
Proof. unfold get_row_count. probe. Qed.

Lemma probe_get_table_size (t : pyval) : keeps probe_step (get_table_size t).
Proof. unfold get_table_size. probe. Qed.

Lemma probe_column_statistics_step (t : pyval) (stats col : dict) :
  keeps probe_step (column_statistics_step t stats col).
Proof. unfold column_statistics_step. probe. Qed.

Lemma probe_get_column_statistics (t : pyval) : keeps probe_step (get_column_statistics t).
Proof.
  unfold get_column_statistics.
  pose proof probe_get_columns_info. pose proof probe_column_statistics_step. probe.
Qed.

Lemma probe_get_table_relationships : keeps probe_step get_table_relationships.
Proof. unfold get_table_relationships. probe. Qed.

Lemma probe_process_table (include_samples : bool) (sample_rows : Z)
    (include_statistics : bool) (tables info : dict) :
  keeps probe_step (process_table include_samples sample_rows include_statistics tables info).
Proof.
  unfold process_table.
  pose proof probe_get_columns_info. pose proof probe_get_primary_keys.
  pose proof probe_get_foreign_keys. pose proof probe_get_indexes.
  pose proof probe_get_row_count. pose proof probe_get_table_size.
  pose proof probe_get_column_statistics. pose proof probe_get_sample_data.
  probe.
Qed.

Lemma probe_process_view (include_samples : bool) (sample_rows : Z) (views info : dict) :
  keeps probe_step (process_view include_samples sample_rows views info).
Proof.
  unfold process_view.
  pose proof probe_get_columns_info. pose proof probe_get_sample_data. probe.
Qed.

Lemma probe_generate_relationship_diagram : keeps probe_step generate_relationship_diagram.
Proof.
  unfold generate_relationship_diagram. pose proof probe_get_table_relationships. probe.
Qed.

Lemma probe_format_for_ai : keeps probe_step format_for_ai.
Proof.
  unfold format_for_ai. pose proof probe_generate_relationship_diagram. probe.
Qed.

(** *** The exits of [extract_all_metadata] *)

Lemma close_result (s : State) :
  fst (close s) = Ok tt /\
  cursor (snd (close s)) <> CursorOpen /\
  quiet_step s (snd (close s)) /\
  (exists events, trace (snd (close s)) = trace s ++ events).
Proof.
  unfold close, quiet_step. destruct (cursor s) eqn:Ec; simpl;
    repeat split; try congruence; try discriminate;
    solve [exists []; rewrite app_nil_r; reflexivity | eexists; reflexivity].
Qed.

Lemma try_finally_close {A} (m : Stmt A) (s : State) :
  try_finally m close s = (fst (m s), snd (close (snd (m s)))).
Proof.
  unfold try_finally. destruct (m s) as [r s1]. simpl.
  destruct (close_result s1) as (Hok & _).
  destruct (close s1) as [[u|e] s2]; simpl in *; [reflexivity|discriminate].
Qed.

(** A call ends in one of three ways: the cached snapshot, [{}] after a
    refused connection, or the outcome of the [try] block followed by
    [close]; [s0] is the state after the cache lookup, if any. *)
Lemma extract_outcomes (include_samples : bool) (sample_rows : Z)
    (include_statistics use_cache : bool) (s : State) :
  (use_cache = true /\ fst (load_from_cache s) = Ok true /\
   exists m,
     extract_all_metadata include_samples sample_rows include_statistics use_cache s
     = (Ok m, set_metadata m (set_ticks (S (ticks s)) s))) \/
  (cache_bypassed use_cache s /\
   exists s0,
     (s0 = s \/ s0 = set_ticks (S (ticks s)) s) /\
     ((exists e d,
         pg_connect (connection_params s) (db s) = (Raise e, d) /\
         extract_all_metadata include_samples sample_rows include_statistics use_cache s
         = (Ok (VDict []), db_step (cursor s0) d Connect s0)) \/
      (exists u d,
         pg_connect (connection_params s) (db s) = (Ok u, d) /\
         extract_all_metadata include_samples sample_rows include_statistics use_cache s
         = (fst (extract_body include_samples sample_rows include_statistics use_cache
                   (db_step CursorOpen d Connect s0)),
            snd (close (snd (extract_body include_samples sample_rows include_statistics
                               use_cache (db_step CursorOpen d Connect s0)))))))).
Proof.
  assert (Hconnect : forall s0,
             connection_params s0 = connection_params s -> db s0 = db s ->
             (exists e d,
                pg_connect (connection_params s) (db s) = (Raise e, d) /\
                bind connect
                  (fun connected : bool =>
                     if negb connected then ret (VDict [])
                     else try_finally
                            (extract_body include_samples sample_rows include_statistics
                               use_cache) close) s0
                = (Ok (VDict []), db_step (cursor s0) d Connect s0)) \/
             (exists u d,
                pg_connect (connection_params s) (db s) = (Ok u, d) /\
                bind connect
                  (fun connected : bool =>
                     if negb connected then ret (VDict [])
                     else try_finally
                            (extract_body include_samples sample_rows include_statistics
                               use_cache) close) s0
                = (fst (extract_body include_samples sample_rows include_statistics use_cache
                          (db_step CursorOpen d Connect s0)),
                   snd (close (snd (extract_body include_samples sample_rows
                                      include_statistics use_cache
                                      (db_step CursorOpen d Connect s0))))))).
  { intros s0 Hp Hd. unfold bind, connect. rewrite Hp, Hd.
    destruct (pg_connect (connection_params s) (db s)) as [[u|e] d].
    - right. exists u, d. split; [reflexivity|]. simpl. apply try_finally_close.
    - left. exists e, d. split; reflexivity. }
  remember (extract_all_metadata include_samples sample_rows include_statistics use_cache s)
    as run eqn:Erun.
  unfold extract_all_metadata in Erun. unfold bind at 1 in Erun.
  destruct use_cache.
  - destruct (load_from_cache_cases s) as [E|[E|(f & m & c & _ & _ & _ & E)]];
      rewrite E in Erun.
    + right. split; [right; rewrite E; reflexivity|].
      exists s. split; [auto|].
      destruct (Hconnect s eq_refl eq_refl) as [(e & d & Hc & Hr)|(u & d & Hc & Hr)];
        rewrite Hr in Erun; [left; exists e, d | right; exists u, d]; auto.
    + right. split; [right; rewrite E; reflexivity|].
      exists (set_ticks (S (ticks s)) s). split; [auto|].
      destruct (Hconnect (set_ticks (S (ticks s)) s) eq_refl eq_refl)
        as [(e & d & Hc & Hr)|(u & d & Hc & Hr)];
        rewrite Hr in Erun; [left; exists e, d | right; exists u, d]; auto.
    + left. split; [reflexivity|]. rewrite E. split; [reflexivity|].
      exists m. exact Erun.
  - right. split; [left; reflexivity|].
    exists s. split; [auto|]. unfold ret at 1 in Erun.
    destruct (Hconnect s eq_refl eq_refl) as [(e & d & Hc & Hr)|(u & d & Hc & Hr)];
      rewrite Hr in Erun; [left; exists e, d | right; exists u, d]; auto.
Qed.

(** The connection is released on every exit.  Whatever the outcome of
    [extract_all_metadata] (a snapshot, [{}] or an exception), a call
    that starts without an open cursor ends without one. *)
Theorem extraction_releases_cursor (include_samples : bool) (sample_rows : Z)
    (include_statistics use_cache : bool) (s : State) :
  cursor s <> CursorOpen ->
  cursor (snd (extract_all_metadata include_samples sample_rows include_statistics use_cache s))
  <> CursorOpen.
Proof.
  intro Hstart.
  destruct (extract_outcomes include_samples sample_rows include_statistics use_cache s)
    as [(_ & _ & m & ->)|(_ & s0 & Hs0 & [(e & d & _ & ->)|(u & d & _ & ->)])].
  - exact Hstart.
  - destruct Hs0 as [-> | ->]; exact Hstart.
  - simpl. apply close_result.
Qed.

(** *** The formatter *)

(** Without an open cursor [format_for_ai] gives no rendering of a
    snapshot: it returns the fixed notice when [self.metadata] is empty
    and raises otherwise. *)
Theorem format_without_cursor_renders_nothing (s : State) :
  cursor s <> CursorOpen ->
  (truthy (metadata s) = false /\ fst (format_for_ai s) = Ok no_metadata_notice) \/
  (truthy (metadata s) = true /\ exists e, fst (format_for_ai s) = Raise e).
Proof.
  intro Hc. unfold format_for_ai, bind, lift. simpl.
  destruct (truthy (metadata s)) eqn:Et; simpl; [right|left; split; reflexivity].
  split; [reflexivity|].
  destruct (subscript (metadata s) "database_name") as [v1|e1]; [|simpl; eauto].
  destruct (subscript (metadata s) "extracted_at") as [v2|e2]; [|simpl; eauto].
  destruct (subscript (metadata s) "total_tables") as [v3|e3]; [|simpl; eauto].
  destruct (subscript (metadata s) "total_views") as [v4|e4]; [|simpl; eauto].
  unfold generate_relationship_diagram, get_table_relationships, bind, execute.
  destruct (cursor s); simpl; [eauto | contradiction | eauto].
Qed.


(** *** A failed extraction *)

Lemma quiet_refl (s : State) : quiet_step s s.
Proof. split; reflexivity. Qed.

Lemma quiet_trans (s s1 s2 : State) : quiet_step s s1 -> quiet_step s1 s2 -> quiet_step s s2.
Proof. intros [Hm Hf] [Hm1 Hf1]. split; congruence. Qed.

Lemma probe_quiet (s s1 : State) : probe_step s s1 -> quiet_step s s1.
Proof. intros (_ & Hm & _ & Hf & _). split; assumption. Qed.

Lemma quiet_now : keeps quiet_step now.
Proof. intro s. split; reflexivity. Qed.

Lemma raises_quietly_bind {A B} (m : Stmt A) (k : A -> Stmt B) :
  keeps quiet_step m -> (forall a, raises_quietly (k a)) -> raises_quietly (bind m k).
Proof.
  intros Hm Hk s e s2. unfold bind. specialize (Hm s).
  destruct (m s) as [[a|e1] s1]; simpl in Hm; intro Hrun.
  - eapply quiet_trans; [exact Hm | eapply Hk; exact Hrun].
  - injection Hrun as _ <-. exact Hm.
Qed.

Lemma save_to_cache_returns (s : State) : fst (save_to_cache s) = Ok tt.
Proof.
  unfold save_to_cache, bind, now, try_except. simpl.
  destruct (cache_writable s); reflexivity.
Qed.

(** The end of the [try] block, from the assignment to [self.metadata]
    on, does not raise. *)
Lemma commit_returns (use_cache : bool) (m : pyval) (s : State) :
  fst (bind (fun s0 : State => (Ok tt, set_metadata m s0))
         (fun _ => bind (if use_cache then save_to_cache else ret tt) (fun _ => ret m)) s)
  = Ok m.
Proof.
  unfold bind at 1. unfold bind.
  destruct use_cache; [|reflexivity].
  pose proof (save_to_cache_returns (set_metadata m s)) as Hsave.
  destruct (save_to_cache (set_metadata m s)) as [[u|e] s1]; simpl in *;
    [reflexivity|discriminate].
Qed.

Lemma extract_body_raises_quietly (include_samples : bool) (sample_rows : Z)
    (include_statistics use_cache : bool) :
  raises_quietly (extract_body include_samples sample_rows include_statistics use_cache).
Proof.
  unfold extract_body.
  apply raises_quietly_bind;
    [apply (keeps_weaken _ _ _ probe_quiet), probe_get_tables_info | intro tables].
  apply raises_quietly_bind;
    [apply (keeps_weaken _ _ _ probe_quiet), probe_get_views_info | intro views].
  apply raises_quietly_bind;
    [apply (keeps_weaken _ _ _ probe_quiet), probe_get_table_relationships | intro rels].
  apply raises_quietly_bind;
    [apply (keeps_weaken _ _ _ probe_quiet), probe_params | intro params].
  apply raises_quietly_bind; [apply (keeps_lift _ quiet_refl) | intro name].
  apply raises_quietly_bind; [apply quiet_now | intro at_].
  cbv zeta.
  apply raises_quietly_bind;
    [apply (keeps_weaken _ _ _ probe_quiet),
       (keeps_for_each _ probe_refl probe_trans); intros; apply probe_process_table
    | intro tables_meta].
  apply raises_quietly_bind;
    [apply (keeps_weaken _ _ _ probe_quiet),
       (keeps_for_each _ probe_refl probe_trans); intros; apply probe_process_view
    | intro views_meta].
  intros s e s1 Hrun.
  match type of Hrun with
  | ?run = _ => assert (Hok : exists m, fst run = Ok m) by (eexists; apply commit_returns)
  end.
  destruct Hok as [m Hok]. rewrite Hrun in Hok. discriminate.
Qed.

(** An extraction that raises leaves the extractor's snapshot and the
    cache file exactly as they were: [self.metadata] is assigned, and the
    cache written, only after every table and view has been probed. *)
Theorem failed_extraction_keeps_snapshot (include_samples : bool) (sample_rows : Z)
    (include_statistics use_cache : bool) (s : State) (e : exn) :
  fst (extract_all_metadata include_samples sample_rows include_statistics use_cache s)
  = Raise e ->
  metadata (snd (extract_all_metadata include_samples sample_rows include_statistics
                   use_cache s)) = metadata s /\
  cache_file (snd (extract_all_metadata include_samples sample_rows include_statistics
                     use_cache s)) = cache_file s.
Proof.
  destruct (extract_outcomes include_samples sample_rows include_statistics use_cache s)
    as [(_ & _ & m & ->)|(_ & s0 & Hs0 & [(e1 & d & _ & ->)|(u & d & _ & ->)])];
    simpl; try discriminate.
  intro Hraise.
  destruct (extract_body include_samples sample_rows include_statistics use_cache
              (db_step CursorOpen d Connect s0)) as [r s2] eqn:Ebody.
  simpl in *. subst r.
  pose proof (extract_body_raises_quietly _ _ _ _ _ _ _ Ebody) as [Hm Hf].
  destruct (close_result s2) as (_ & _ & [Hm2 Hf2] & _).
  rewrite Hm2, Hf2, Hm, Hf. destruct Hs0 as [-> | ->]; split; reflexivity.
Qed.

(** *** Index grouping *)

Lemma dict_set_keys (k : string) (v : pyval) (d : dict) :
  map fst (dict_set k v d) = if dict_has k d then map fst d else map fst d ++ [k].
Proof.
  unfold dict_has. induction d as [|[k1 v1] r IH]; simpl; [reflexivity|].
  destruct (String.eqb k k1) eqn:Ek; simpl.
  - apply String.eqb_eq in Ek. subst k1. reflexivity.
  - rewrite IH. destruct (dict_get k r); reflexivity.
Qed.

Lemma dict_get_keys (k : string) (d : dict) : dict_get k d = None -> ~ In k (map fst d).
Proof.
  induction d as [|[k1 v1] r IH]; simpl; [tauto|].
  destruct (String.eqb k k1) eqn:Ek; [discriminate|].
  intros Hr [E|Hin]; [|exact (IH Hr Hin)].
  subst k1. rewrite String.eqb_refl in Ek. discriminate.
Qed.

Lemma dict_set_nodup (k : string) (v : pyval) (d : dict) :
  NoDup (map fst d) -> NoDup (map fst (dict_set k v d)).
Proof.
  intro Hd. rewrite dict_set_keys. unfold dict_has.
  destruct (dict_get k d) eqn:Ek; [exact Hd|].
  apply NoDup_app; [exact Hd | repeat constructor; tauto |].
  intros x Hx [<-|[]]. exact (dict_get_keys _ _ Ek Hx).
Qed.

Lemma filter_snoc {A} (f : A -> bool) (l : list A) (x : A) :
  filter f (l ++ [x]) = filter f l ++ (if f x then [x] else []).
Proof. rewrite filter_app. reflexivity. Qed.

(** One more row of the listing: the mapping that groups the rows read
    so far groups them with the new one. *)
Lemma index_row_step (indexes : dict) (before : list dict) (row : dict) :
  index_row_ok row = true ->
  (forall n, dict_get n indexes = index_group n before) ->
  exists indexes1,
    index_row indexes (VDict row) = Ok indexes1 /\
    map fst indexes1 = map fst (dict_set (match field "index_name" row with
                                          | VStr n => n
                                          | _ => ""
                                          end) VNone indexes) /\
    forall n, dict_get n indexes1 = index_group n (before ++ [row]).
Proof.
  intros Hrow Hinv. unfold index_row_ok, named in Hrow.
  destruct (dict_get "index_name" row) as [[| | | |n0| | |]|] eqn:En;
    try discriminate.
  repeat (apply andb_prop in Hrow as [Hrow ?]).
  unfold dict_has in *.
  destruct (dict_get "column_name" row) as [x|] eqn:Ex; [|discriminate].
  destruct (dict_get "is_unique" row) as [iu|] eqn:Eu; [|discriminate].
  destruct (dict_get "is_primary" row) as [ip|] eqn:Ep; [|discriminate].
  destruct (dict_get "index_type" row) as [it|] eqn:Et; [|discriminate].
  assert (Hsel : forall n, index_name_is n row = String.eqb n0 n).
  { intro n. unfold index_name_is, field. rewrite En. reflexivity. }
  assert (Hfield : field "index_name" row = VStr n0) by (unfold field; rewrite En; reflexivity).
  rewrite Hfield.
  unfold index_row, subscript. rewrite En. simpl. unfold dict_has.
  destruct (dict_get n0 indexes) as [v|] eqn:Eold.
  - simpl. rewrite Eold.
    pose proof (Hinv n0) as Hv. rewrite Eold in Hv. unfold index_group in Hv.
    destruct (filter (index_name_is n0) before) as [|first group] eqn:Eg; [discriminate|].
    injection Hv as ->. simpl. rewrite Ex.
    eexists. split; [reflexivity|]. split.
    { rewrite !dict_set_keys. reflexivity. }
    intro n. rewrite dict_get_set. unfold index_group. rewrite filter_snoc, Hsel.
    rewrite (String.eqb_sym n0 n).
    destruct (String.eqb n n0) eqn:Enn.
    + apply String.eqb_eq in Enn. subst n. rewrite Eg. simpl.
      unfold index_entry. rewrite map_app. simpl.
      replace (field "column_name" row) with x by (unfold field; rewrite Ex; reflexivity).
      reflexivity.
    + rewrite app_nil_r. apply Hinv.
  - simpl. rewrite Eu, Ep, Et. simpl. rewrite dict_get_set, String.eqb_refl. simpl.
    rewrite Ex.
    pose proof (Hinv n0) as Hv. rewrite Eold in Hv. unfold index_group in Hv.
    destruct (filter (index_name_is n0) before) as [|first group] eqn:Eg; [|discriminate].
    eexists. split; [reflexivity|]. split.
    { rewrite !dict_set_keys. unfold dict_has. rewrite dict_get_set, String.eqb_refl, Eold.
      reflexivity. }
    intro n. rewrite !dict_get_set. unfold index_group. rewrite filter_snoc, Hsel.
    rewrite (String.eqb_sym n0 n).
    destruct (String.eqb n n0) eqn:Enn.
    + apply String.eqb_eq in Enn. subst n. rewrite Eg. simpl.
      unfold index_entry, field. rewrite Ex, Eu, Ep, Et. reflexivity.
    + rewrite app_nil_r. apply Hinv.
Qed.

Lemma index_rows (rows : list dict) :
  forall indexes before,
    forallb index_row_ok rows = true ->
    NoDup (map fst indexes) ->
    (forall n, dict_get n indexes = index_group n before) ->
    exists m,
      rfold (fetchall rows) indexes index_row = Ok m /\
      NoDup (map fst m) /\
      forall n, dict_get n m = index_group n (before ++ rows).
Proof.
  induction rows as [|row rows IH]; intros indexes before Hrows Hnodup Hinv.
  - exists indexes. rewrite app_nil_r. auto.
  - simpl in Hrows. apply andb_prop in Hrows as [Hrow Hrows].
    destruct (index_row_step indexes before row Hrow Hinv) as (indexes1 & Hstep & Hkeys & Hget).
    destruct (IH indexes1 (before ++ [row]) Hrows) as (m & Hm & Hnd & Hmget).
    { rewrite Hkeys. apply dict_set_nodup, Hnodup. }
    { exact Hget. }
    exists m. split; [simpl; rewrite Hstep; exact Hm|]. split; [exact Hnd|].
    intro n. rewrite Hmget, <- app_assoc. reflexivity.
Qed.

(** [get_indexes] returns one entry per index name, however many rows
    (one per participating column) the listing has for it: the entry's
    columns are the columns of those rows in the order of the listing,
    its flags and type come from the first of them. *)
Theorem indexes_grouped_by_name (s : State) (table_name : pyval) (rows : list dict) (d : DB) :
  cursor s = CursorOpen ->
  pg_execute (db s) (Q_indexes table_name) = (Ok rows, d) ->
  forallb index_row_ok rows = true ->
  exists m,
    fst (get_indexes table_name s) = Ok (dict_values m) /\
    NoDup (map fst m) /\
    forall n, dict_get n m = index_group n rows.
Proof.
  intros Hopen Hq Hrows.
  destruct (index_rows rows [] [] Hrows) as (m & Hm & Hnd & Hget).
  { constructor. }
  { intro n. reflexivity. }
  exists m. split; [|auto].
  unfold get_indexes, try_except, bind, execute, lift. rewrite Hopen, Hq. simpl.
  rewrite Hm. reflexivity.
Qed.

(** *** Column statistics *)

Lemma column_stats_entry_shape (res v : pyval) :
  column_stats_entry res = Ok v -> stats_shape v.
Proof.
  unfold column_stats_entry, rbind. intro Hv.
  repeat match type of Hv with
  | context [match ?e with Ok _ => _ | Raise _ => _ end] =>
      destruct e; try discriminate
  | context [if ?c then _ else _] => destruct c
  end.
  all: injection Hv as <-; right; eauto.
Qed.

(** One turn of the loop on an open cursor: the column's statement is
    sent, and its entry is stored whatever the statement did. *)
Lemma column_statistics_step_result (t : pyval) (stats col : dict) (c : string) (s : State) :
  cursor s = CursorOpen ->
  dict_get "column_name" col = Some (VStr c) ->
  exists v,
    column_statistics_step t stats col s
    = (Ok (dict_set c v stats),
       db_step CursorOpen (snd (pg_execute (db s) (Q_column_statistics c (py_str t))))
         (Execute (Q_column_statistics c (py_str t))) s) /\
    stats_shape v /\
    column_entry_of (db s) c (py_str t) v.
Proof.
  intros Hopen Hc.
  unfold column_statistics_step, column_entry_of, subscript. rewrite Hc.
  unfold bind, lift, try_except, execute. rewrite Hopen. cbn [py_str as_key].
  destruct (pg_execute (db s) (Q_column_statistics c (py_str t))) as [[rows|e] d1];
    cbn [fst snd].
  - destruct (column_stats_entry (fetchone rows)) as [entry|e] eqn:Eentry.
    + exists entry. split; [reflexivity|]. split; [|reflexivity].
      eapply column_stats_entry_shape, Eentry.
    + eexists. split; [reflexivity|]. split; [left; eauto | reflexivity].
  - eexists. split; [reflexivity|]. split; [left; eauto | reflexivity].
Qed.

Lemma column_statistics_loop (t : pyval) (d0 : DB) (cols : list dict) :
  forall stats s,
    cursor s = CursorOpen ->
    served d0 (db s) ->
    forallb (named "column_name") cols = true ->
    (forall c v, dict_get c stats = Some v ->
                 stats_shape v /\
                 exists d1, served d0 d1 /\ column_entry_of d1 c (py_str t) v) ->
    exists stats1 s1,
      for_each cols stats (column_statistics_step t) s = (Ok stats1, s1) /\
      (forall c, dict_has c stats1 = dict_has c stats || existsb (column_name_is c) cols) /\
      (forall c v, dict_get c stats1 = Some v ->
                   stats_shape v /\
                   exists d1, served d0 d1 /\ column_entry_of d1 c (py_str t) v).
Proof.
  induction cols as [|col cols IH]; intros stats s Hopen Hserved Hcols Hentries.
  - exists stats, s. split; [reflexivity|]. split; [|exact Hentries].
    intro c. rewrite orb_false_r. reflexivity.
  - simpl in Hcols. apply andb_prop in Hcols as [Hcol Hcols].
    unfold named in Hcol.
    destruct (dict_get "column_name" col) as [[| | | |c0| | |]|] eqn:Ec; try discriminate.
    destruct (column_statistics_step_result t stats col c0 s Hopen Ec)
      as (v & Hstep & Hv & Hentry).
    destruct (IH (dict_set c0 v stats)
                (db_step CursorOpen (snd (pg_execute (db s) (Q_column_statistics c0 (py_str t))))
                   (Execute (Q_column_statistics c0 (py_str t))) s) eq_refl)
      as (stats1 & s2 & Hloop & Hhas & Hentries1).
    { eapply served_trans; [exact Hserved|]. eapply served_next. apply served_here. }
    { exact Hcols. }
    { intros c v1. rewrite dict_get_set. destruct (String.eqb c c0) eqn:Ecc.
      - apply String.eqb_eq in Ecc. subst c. intros [= <-].
        split; [exact Hv|]. exists (db s). split; assumption.
      - apply Hentries. }
    exists stats1, s2. split; [|split; [|exact Hentries1]].
    + simpl. unfold bind. rewrite Hstep. exact Hloop.
    + intro c. rewrite Hhas, dict_has_set.
      assert (Hsel : column_name_is c col = String.eqb c0 c)
        by (unfold column_name_is, field; rewrite Ec; reflexivity).
      change (existsb (column_name_is c) (col :: cols))
        with (column_name_is c col || existsb (column_name_is c) cols).
      rewrite Hsel, (String.eqb_sym c0 c).
      destruct (String.eqb c c0), (dict_has c stats); reflexivity.
Qed.

(** Once the column listing is read, [get_column_statistics] returns a
    dictionary with an entry for exactly the listed column names.  Each
    entry is either the four statistics or the single 'error' field, and
    it is what the statement of its own column gave when the loop sent
    it on the connection: the statistics computed from its first row, or
    the text of what the statement or the computation raised.  (The
    server [d1] the statement met is the one the earlier statements of
    the loop left.) *)
Theorem column_statistics_cover_columns (s : State) (table_name : pyval)
    (cols : list dict) (d : DB) :
  cursor s = CursorOpen ->
  pg_execute (db s) (Q_columns_info table_name) = (Ok cols, d) ->
  forallb (named "column_name") cols = true ->
  exists stats,
    fst (get_column_statistics table_name s) = Ok stats /\
    (forall c, dict_has c stats = existsb (column_name_is c) cols) /\
    (forall c v, dict_get c stats = Some v -> stats_shape v) /\
    (forall c v, dict_get c stats = Some v ->
                 exists d1, served d d1 /\ column_entry_of d1 c (py_str table_name) v).
Proof.
  intros Hopen Hq Hcols.
  destruct (column_statistics_loop table_name d cols []
              (db_step CursorOpen d (Execute (Q_columns_info table_name)) s)
              eq_refl (served_here d) Hcols)
    as (stats & s1 & Hloop & Hhas & Hentries).
  { intros c v. discriminate. }
  exists stats. split; [|split; [exact Hhas | split]].
  - unfold get_column_statistics, get_columns_info, bind, execute. rewrite Hopen, Hq.
    cbv iota beta. exact (f_equal fst Hloop).
  - intros c v Hv. exact (proj1 (Hentries c v Hv)).
  - intros c v Hv. exact (proj2 (Hentries c v Hv)).
Qed.

(** *** The cache and the calls around it *)

Ltac bind_as H a s E :=
  cbv zeta in H; apply bind_ok in H; destruct H as (a & s & E & H).

Lemma later_refl (s : State) : later_step s s.
Proof. repeat split. exists []. rewrite app_nil_r. reflexivity. Qed.

Lemma later_trans (s s1 s2 : State) : later_step s s1 -> later_step s1 s2 -> later_step s s2.
Proof.
  intros (Hp & Hw & Hk & es & He) (Hp1 & Hw1 & Hk1 & es1 & He1).
  repeat split; try congruence.
  exists (es ++ es1). rewrite He1, He, app_assoc. reflexivity.
Qed.

Lemma probe_later (s s1 : State) : probe_step s s1 -> later_step s s1.
Proof. intros (Hp & _ & _ & _ & Hw & Hk & _ & _ & He). repeat split; assumption. Qed.

Lemma later_set_ticks (n : nat) (s : State) : later_step s (set_ticks n s).
Proof. repeat split. exists []. simpl. rewrite app_nil_r. reflexivity. Qed.

Lemma later_set_metadata (m : pyval) (s : State) : later_step s (set_metadata m s).
Proof. repeat split. exists []. simpl. rewrite app_nil_r. reflexivity. Qed.

Lemma later_set_cache_file (f : option blob) (s : State) : later_step s (set_cache_file f s).
Proof. repeat split. exists []. simpl. rewrite app_nil_r. reflexivity. Qed.

Lemma later_db_step (c : cursor_state) (d : DB) (e : event) (s : State) :
  later_step s (db_step c d e s).
Proof. repeat split. exists [e]. reflexivity. Qed.

Lemma later_close (s : State) : later_step s (snd (close s)).
Proof.
  unfold close. destruct (cursor s); simpl;
    solve [apply later_refl | apply later_db_step].
Qed.

(** What [save_to_cache] leaves: the entry with the snapshot held and
    the reading of the clock, when the file can be written. *)
Lemma save_to_cache_state (s : State) :
  snd (save_to_cache s)
  = if cache_writable s
    then set_cache_file
           (Some (pickle_dump (VDict [("metadata", metadata s);
                                      ("cached_at", VDatetime (clock s (ticks s)))])))
           (set_ticks (S (ticks s)) s)
    else set_ticks (S (ticks s)) s.
Proof.
  unfold save_to_cache, bind, now, try_except. simpl.
  destruct (cache_writable s); reflexivity.
Qed.

Lemma later_save_to_cache : keeps later_step save_to_cache.
Proof.
  intro s. rewrite save_to_cache_state. destruct (cache_writable s).
  - eapply later_trans; [apply later_set_ticks | apply later_set_cache_file].
  - apply later_set_ticks.
Qed.

Lemma later_extract_body (include_samples : bool) (sample_rows : Z)
    (include_statistics use_cache : bool) :
  keeps later_step (extract_body include_samples sample_rows include_statistics use_cache).
Proof.
  unfold extract_body.
  repeat (cbv zeta;
    first [ apply (keeps_ret _ later_refl)
          | apply later_save_to_cache
          | apply (keeps_weaken _ _ _ probe_later), probe_get_tables_info
          | apply (keeps_weaken _ _ _ probe_later), probe_get_views_info
          | apply (keeps_weaken _ _ _ probe_later), probe_get_table_relationships
          | apply (keeps_weaken _ _ _ probe_later), probe_params
          | apply (keeps_lift _ later_refl)
          | apply (keeps_weaken _ _ _ probe_later),
              (keeps_for_each _ probe_refl probe_trans); intros; apply probe_process_table
          | apply (keeps_weaken _ _ _ probe_later),
              (keeps_for_each _ probe_refl probe_trans); intros; apply probe_process_view
          | apply (keeps_bind _ later_trans); [|intro]
          | match goal with |- keeps _ (if ?c then _ else _) => destruct c end
          | intro s; first [apply later_set_ticks | apply later_set_metadata] ]).
Qed.

(** What a [try] block that returns leaves behind: the snapshot returned
    is the one held, and with [use_cache] and a writable file the cache
    holds it with a reading of the clock. *)
Lemma extract_body_commit (include_samples : bool) (sample_rows : Z)
    (include_statistics : bool) (s s2 : State) (m : pyval) :
  extract_body include_samples sample_rows include_statistics true s = (Ok m, s2) ->
  cache_writable s = true ->
  metadata s2 = m /\
  subscript m "database_name"
  = dict_get_method (VDict (connection_params s)) (VStr "database") VNone /\
  exists i,
    cache_file s2
    = Some (pickle_dump (VDict [("metadata", m); ("cached_at", VDatetime (clock s i))])).
Proof.
  intros Hrun Hw.
  assert (Hprefix : forall (A : Type) (prefix : Stmt A) (a : A) (sa sb : State),
             keeps later_step prefix -> later_step s sa -> prefix sa = (Ok a, sb) ->
             later_step s sb).
  { intros A prefix a sa sb Hk Hsa Hp. eapply later_trans; [exact Hsa|].
    specialize (Hk sa). rewrite Hp in Hk. exact Hk. }
  unfold extract_body in Hrun.
  bind_as Hrun tables s_tables E_tables.
  pose proof (Hprefix _ _ _ _ _ (keeps_weaken _ _ _ probe_later probe_get_tables_info)
                (later_refl s) E_tables) as L1.
  bind_as Hrun views s_views E_views.
  pose proof (Hprefix _ _ _ _ _ (keeps_weaken _ _ _ probe_later probe_get_views_info)
                L1 E_views) as L2.
  bind_as Hrun rels s_rels E_rels.
  pose proof (Hprefix _ _ _ _ _
                (keeps_weaken _ _ _ probe_later probe_get_table_relationships) L2 E_rels)
    as L3.
  bind_as Hrun params s_params E_params. injection E_params as <- <-.
  bind_as Hrun name s_name E_name. unfold lift in E_name. injection E_name as Hname <-.
  bind_as Hrun at_ s_at E_at. unfold now in E_at. injection E_at as _ <-.
  assert (L4 : later_step s (set_ticks (S (ticks s_rels)) s_rels))
    by (eapply later_trans; [exact L3 | apply later_set_ticks]).
  bind_as Hrun tables_meta s_tm E_tm.
  pose proof (Hprefix _ _ _ _ _
                (keeps_weaken _ _ _ probe_later
                   (keeps_for_each _ probe_refl probe_trans _ _
                      (fun acc x => probe_process_table include_samples sample_rows
                                      include_statistics acc x) []))
                L4 E_tm) as L5.
  bind_as Hrun views_meta s_vm E_vm.
  pose proof (Hprefix _ _ _ _ _
                (keeps_weaken _ _ _ probe_later
                   (keeps_for_each _ probe_refl probe_trans _ _
                      (fun acc x => probe_process_view include_samples sample_rows acc x) []))
                L5 E_vm) as L6.
  bind_as Hrun unit1 s_set E_set. injection E_set as _ <-.
  bind_as Hrun unit2 s_save E_save. apply ret_ok in Hrun as [-> ->].
  match type of E_save with
  | save_to_cache ?st = _ => pose proof (save_to_cache_state st) as Hsave
  end.
  rewrite E_save in Hsave. simpl in Hsave.
  destruct L6 as (_ & Hw6 & Hk6 & _). rewrite Hw6, Hw in Hsave. subst s_save. simpl.
  split; [reflexivity|]. split.
  - destruct L3 as (Hp3 & _). rewrite <- Hp3, Hname. reflexivity.
  - exists (ticks s_vm). rewrite Hk6. reflexivity.
Qed.

Lemma cache_hit_run (include_samples : bool) (sample_rows : Z) (include_statistics : bool)
    (s : State) (f : blob) (m : pyval) (c : Z) :
  cache_file s = Some f ->
  pickle_load f = Ok (VDict [("metadata", m); ("cached_at", VDatetime c)]) ->
  clock s (ticks s) - c <= cache_ttl ->
  extract_all_metadata include_samples sample_rows include_statistics true s
  = (Ok m, set_metadata m (set_ticks (S (ticks s)) s)).
Proof.
  intros Hfile Hload Hfresh. apply Z.ltb_ge in Hfresh.
  unfold extract_all_metadata, bind, load_from_cache. rewrite Hfile.
  unfold try_except, bind, lift, now. rewrite Hload. simpl. rewrite Hfresh. reflexivity.
Qed.

(** The cache file is shared by every extractor.  After a call with
    [use_cache] that went to the database and returned snapshot [m]
    (the file writable, pickle restoring what it dumped), a new
    extractor built with any connection parameters and called with
    [use_cache] within the TTL returns the same [m], which names the
    first extractor's database, for any inclusion flags, and asks
    nothing of psycopg2. *)
Theorem cached_snapshot_served_to_new_extractor (include_samples : bool) (sample_rows : Z)
    (include_statistics include_samples2 : bool) (sample_rows2 : Z)
    (include_statistics2 : bool) (params2 : dict) (s : State) (m : pyval)
    (u : unit) (d : DB) :
  (forall v, pickle_load (pickle_dump v) = Ok v) ->
  (forall i j, clock s i - clock s j <= cache_ttl) ->
  cache_writable s = true ->
  cache_bypassed true s ->
  pg_connect (connection_params s) (db s) = (Ok u, d) ->
  fst (extract_all_metadata include_samples sample_rows include_statistics true s) = Ok m ->
  fst (extract_all_metadata include_samples2 sample_rows2 include_statistics2 true
         (new_extractor params2
            (snd (extract_all_metadata include_samples sample_rows include_statistics
                    true s))))
  = Ok m /\
  trace (snd (extract_all_metadata include_samples2 sample_rows2 include_statistics2 true
                (new_extractor params2
                   (snd (extract_all_metadata include_samples sample_rows
                           include_statistics true s)))))
  = trace (snd (extract_all_metadata include_samples sample_rows include_statistics true s)) /\
  subscript m "database_name"
  = dict_get_method (VDict (connection_params s)) (VStr "database") VNone.
Proof.
  intros Hpickle Hclock Hw Hby Hconnect.
  destruct (extract_outcomes include_samples sample_rows include_statistics true s)
    as [(_ & Hhit & _)|(_ & s0 & Hs0 & [(e1 & d1 & Hc & _)|(u1 & d1 & Hc & ->)])].
  - destruct Hby as [Hby|Hby]; [discriminate|]. rewrite Hhit in Hby. discriminate.
  - rewrite Hconnect in Hc. discriminate.
  - rewrite Hconnect in Hc. injection Hc as <- <-. simpl.
    destruct (extract_body include_samples sample_rows include_statistics true
                (db_step CursorOpen d Connect s0)) as [r s2] eqn:Ebody.
    simpl. intros ->.
    assert (Hs0w : cache_writable s0 = true /\ clock s0 = clock s /\
                   connection_params s0 = connection_params s)
      by (destruct Hs0 as [-> | ->]; repeat split; assumption || reflexivity).
    destruct Hs0w as (Hw0 & Hk0 & Hp0).
    destruct (extract_body_commit _ _ _ _ _ _ Ebody Hw0) as (_ & Hname & i & Hfile).
    pose proof (later_extract_body include_samples sample_rows include_statistics true
                  (db_step CursorOpen d Connect s0)) as (_ & _ & Hk2 & _).
    rewrite Ebody in Hk2. simpl in Hk2, Hfile, Hname. rewrite Hk0 in Hk2, Hfile.
    rewrite Hp0 in Hname.
    destruct (close_result s2) as (_ & _ & [_ Hf3] & _).
    destruct (later_close s2) as (_ & _ & Hk3 & _).
    rewrite (cache_hit_run include_samples2 sample_rows2 include_statistics2
               (new_extractor params2 (snd (close s2)))
               (pickle_dump (VDict [("metadata", m); ("cached_at", VDatetime (clock s i))]))
               m (clock s i)).
    + split; [reflexivity|]. split; [reflexivity | exact Hname].
    + simpl. rewrite Hf3. exact Hfile.
    + apply Hpickle.
    + simpl. rewrite Hk3, Hk2. apply Hclock.
Qed.

Lemma clear_cache_state (s : State) :
  cache_file (snd (clear_cache s)) = None /\ later_step s (snd (clear_cache s)) /\
  trace (snd (clear_cache s)) = trace s.
Proof.
  unfold clear_cache. destruct (cache_file s) eqn:Ef; simpl.
  - split; [reflexivity|]. split; [apply later_set_cache_file | reflexivity].
  - split; [exact Ef|]. split; [apply later_refl | reflexivity].
Qed.

(** After [clear_cache], [extract_all_metadata] cannot answer from the
    cache, whatever [use_cache] is: the first thing it asks of psycopg2
    is a connection. *)
Theorem cleared_cache_forces_connection (include_samples : bool) (sample_rows : Z)
    (include_statistics use_cache : bool) (s : State) :
  exists events,
    trace (snd (extract_all_metadata include_samples sample_rows include_statistics
                  use_cache (snd (clear_cache s))))
    = trace s ++ Connect :: events.
Proof.
  destruct (clear_cache_state s) as (Hnone & _ & Htrace).
  remember (snd (clear_cache s)) as sc eqn:Esc. clear Esc.
  destruct (extract_outcomes include_samples sample_rows include_statistics use_cache sc)
    as [(_ & Hhit & _)|(_ & s0 & Hs0 & [(e1 & d1 & _ & ->)|(u1 & d1 & _ & ->)])].
  - unfold load_from_cache in Hhit. rewrite Hnone in Hhit. discriminate.
  - exists []. destruct Hs0 as [-> | ->]; simpl; rewrite Htrace; reflexivity.
  - simpl.
    pose proof (later_extract_body include_samples sample_rows include_statistics use_cache
                  (db_step CursorOpen d1 Connect s0)) as (_ & _ & _ & es & Hes).
    destruct (later_close
                (snd (extract_body include_samples sample_rows include_statistics use_cache
                        (db_step CursorOpen d1 Connect s0)))) as (_ & _ & _ & es1 & Hes1).
    exists (es ++ es1). rewrite Hes1, Hes. simpl.
    destruct Hs0 as [-> | ->]; simpl; rewrite Htrace, <- !app_assoc; reflexivity.
Qed.

(** *** What the formatter asks *)

Lemma unchanged_refl (s : State) : unchanged s s.
Proof. reflexivity. Qed.

Lemma unchanged_trans (s s1 s2 : State) : unchanged s s1 -> unchanged s1 s2 -> unchanged s s2.
Proof. unfold unchanged. congruence. Qed.

Ltac still :=
  repeat (cbv zeta;
    first [ apply (keeps_ret _ unchanged_refl)
          | apply (keeps_lift _ unchanged_refl)
          | apply (keeps_bind _ unchanged_trans); [|intro]
          | match goal with |- keeps _ (if ?c then _ else _) => destruct c end ]).

(** [generate_relationship_diagram] leaves the state its one statement leaves. *)
Lemma diagram_state (s : State) :
  snd (generate_relationship_diagram s) = snd (execute Q_table_relationships s).
Proof.
  unfold generate_relationship_diagram, get_table_relationships.
  unfold bind at 1. unfold bind at 1.
  destruct (execute Q_table_relationships s) as [[rows|e] s1]; [|reflexivity].
  unfold lift at 1. simpl.
  destruct (rfold (fetchall rows) [] relationship_row) as [rels|e]; [|reflexivity].
  match goal with
  | |- snd (?rest s1) = s1 => assert (Hrest : keeps unchanged rest) by still; apply Hrest
  end.
Qed.

Lemma format_for_ai_state (s : State) :
  snd (format_for_ai s) = s \/
  snd (format_for_ai s) = snd (execute Q_table_relationships s).
Proof.
  remember (format_for_ai s) as run eqn:Erun.
  unfold format_for_ai in Erun. unfold bind at 1 in Erun.
  destruct (negb (truthy (metadata s))); [left; subst run; reflexivity|].
  unfold bind at 1 in Erun. unfold lift at 1 in Erun.
  destruct (subscript (metadata s) "database_name"); [|left; subst run; reflexivity].
  unfold bind at 1 in Erun. unfold lift at 1 in Erun.
  destruct (subscript (metadata s) "extracted_at"); [|left; subst run; reflexivity].
  unfold bind at 1 in Erun. unfold lift at 1 in Erun.
  destruct (subscript (metadata s) "total_tables"); [|left; subst run; reflexivity].
  unfold bind at 1 in Erun. unfold lift at 1 in Erun.
  destruct (subscript (metadata s) "total_views"); [|left; subst run; reflexivity].
  cbv zeta in Erun. unfold bind at 1 in Erun. right. rewrite <- diagram_state.
  destruct (generate_relationship_diagram s) as [[diagram|e] s1];
    [|subst run; reflexivity].
  match type of Erun with
  | run = ?rest s1 => assert (Hrest : keeps unchanged rest) by still
  end.
  subst run. apply Hrest.
Qed.

(** [format_for_ai] sends at most one statement, the relationship
    listing, and changes nothing else: the snapshot, the cursor, the
    cache file and the clock are as before. *)
Theorem format_for_ai_asks_one_listing (s : State) :
  snd (format_for_ai s) = s \/
  (cursor s = CursorOpen /\
   snd (format_for_ai s)
   = db_step CursorOpen (snd (pg_execute (db s) Q_table_relationships))
       (Execute Q_table_relationships) s).
Proof.
  destruct (format_for_ai_state s) as [E|E]; [left; exact E|].
  rewrite E. unfold execute. destruct (cursor s); auto.
  right. split; [reflexivity|].
  destruct (pg_execute (db s) Q_table_relationships). reflexivity.
Qed.

(** *** Saving the description *)

Lemma extract_body_metadata (include_samples : bool) (sample_rows : Z)
    (include_statistics use_cache : bool) (s s2 : State) (m : pyval) :
  extract_body include_samples sample_rows include_statistics use_cache s = (Ok m, s2) ->
  metadata s2 = m.
Proof.
  intro Hrun. unfold extract_body in Hrun.
  bind_as Hrun tables s_tables E_tables. bind_as Hrun views s_views E_views.
  bind_as Hrun rels s_rels E_rels. bind_as Hrun params s_params E_params.
  bind_as Hrun name s_name E_name. bind_as Hrun at_ s_at E_at.
  bind_as Hrun tables_meta s_tm E_tm. bind_as Hrun views_meta s_vm E_vm.
  bind_as Hrun unit1 s_set E_set. injection E_set as _ <-.
  bind_as Hrun unit2 s_save E_save. apply ret_ok in Hrun as [-> ->].
  destruct use_cache.
  - match type of E_save with
    | save_to_cache ?st = _ => pose proof (save_to_cache_state st) as Hsave
    end.
    rewrite E_save in Hsave. simpl in Hsave. subst s_save.
    match goal with |- context [if ?c then _ else _] => destruct c end; reflexivity.
  - apply ret_ok in E_save as [_ ->]. reflexivity.
Qed.

(** A snapshot that [extract_all_metadata] returns and that is not empty
    is the one the extractor holds afterwards. *)
Lemma returned_snapshot_is_held (include_samples : bool) (sample_rows : Z)
    (include_statistics use_cache : bool) (s : State) (m : pyval) :
  fst (extract_all_metadata include_samples sample_rows include_statistics use_cache s) = Ok m ->
  truthy m = true ->
  metadata (snd (extract_all_metadata include_samples sample_rows include_statistics
                   use_cache s)) = m.
Proof.
  destruct (extract_outcomes include_samples sample_rows include_statistics use_cache s)
    as [(_ & _ & m1 & ->)|(_ & s0 & Hs0 & [(e1 & d1 & _ & ->)|(u1 & d1 & _ & ->)])]; simpl.
  - intros [= ->] _. reflexivity.
  - intros [= <-]. discriminate.
  - destruct (extract_body include_samples sample_rows include_statistics use_cache
                (db_step CursorOpen d1 Connect s0)) as [r s2] eqn:Ebody.
    simpl. intros -> _.
    destruct (close_result s2) as (_ & _ & [Hm2 _] & _). rewrite Hm2.
    eapply extract_body_metadata, Ebody.
Qed.

Lemma formatting_raises_without_cursor (s : State) :
  cursor s <> CursorOpen -> truthy (metadata s) = true ->
  exists e s1, format_for_ai s = (Raise e, s1).
Proof.
  intros Hc Ht. unfold format_for_ai, bind, lift. simpl. rewrite Ht. simpl.
  destruct (subscript (metadata s) "database_name"); [|eauto].
  destruct (subscript (metadata s) "extracted_at"); [|eauto].
  destruct (subscript (metadata s) "total_tables"); [|eauto].
  destruct (subscript (metadata s) "total_views"); [|eauto].
  unfold generate_relationship_diagram, get_table_relationships, bind, execute.
  destruct (cursor s); [eauto | contradiction | eauto].
Qed.

(** The module's own sequence: after [extract_all_metadata] has returned
    a snapshot, [save_to_text] raises and leaves its file empty, whatever
    the file held before, because the file is opened for writing before
    the text is formatted. *)
Theorem save_to_text_after_extraction_empties_file (include_samples : bool)
    (sample_rows : Z) (include_statistics use_cache : bool) (s : State) (m : pyval)
    (filename : string) (fs : Files) :
  cursor s <> CursorOpen ->
  fst (extract_all_metadata include_samples sample_rows include_statistics use_cache s) = Ok m ->
  truthy m = true ->
  file_openable fs filename = true ->
  (exists e,
     fst (save_to_text filename
            (snd (extract_all_metadata include_samples sample_rows include_statistics
                    use_cache s), fs)) = Raise e) /\
  file_text
    (snd (snd (save_to_text filename
                 (snd (extract_all_metadata include_samples sample_rows include_statistics
                         use_cache s), fs)))) filename = Some "".
Proof.
  intros Hstart Hrun Hm Hopen.
  pose proof (returned_snapshot_is_held _ _ _ _ _ _ Hrun Hm) as Hheld.
  assert (Hclosed : cursor (snd (extract_all_metadata include_samples sample_rows
                                   include_statistics use_cache s)) <> CursorOpen).
  { destruct (extract_outcomes include_samples sample_rows include_statistics use_cache s)
      as [(_ & _ & m1 & ->)|(_ & s0 & Hs0 & [(e1 & d1 & _ & ->)|(u1 & d1 & _ & ->)])];
      simpl; [exact Hstart | destruct Hs0 as [-> | ->]; exact Hstart | apply close_result]. }
  remember (snd (extract_all_metadata include_samples sample_rows include_statistics
                   use_cache s)) as s1 eqn:Es1. clear Es1.
  subst m.
  destruct (formatting_raises_without_cursor s1 Hclosed Hm) as (e & s2 & Hfmt).
  unfold save_to_text. rewrite Hopen, Hfmt. simpl. split; [eauto|].
  rewrite String.eqb_refl. reflexivity.
Qed.

(** *** Without the cache *)

Lemma file_refl (s : State) : same_cache_file s s.
Proof. reflexivity. Qed.

Lemma file_trans (s s1 s2 : State) :
  same_cache_file s s1 -> same_cache_file s1 s2 -> same_cache_file s s2.
Proof. unfold same_cache_file. congruence. Qed.

Lemma probe_file (s s1 : State) : probe_step s s1 -> same_cache_file s s1.
Proof. intros (_ & _ & _ & Hf & _). exact Hf. Qed.

Lemma uncached_extract_body (include_samples : bool) (sample_rows : Z)
    (include_statistics : bool) :
  keeps same_cache_file
    (extract_body include_samples sample_rows include_statistics false).
Proof.
  unfold extract_body.
  repeat (cbv beta iota zeta;
    first [ apply (keeps_ret _ file_refl)
          | apply (keeps_weaken _ _ _ probe_file), probe_get_tables_info
          | apply (keeps_weaken _ _ _ probe_file), probe_get_views_info
          | apply (keeps_weaken _ _ _ probe_file), probe_get_table_relationships
          | apply (keeps_weaken _ _ _ probe_file), probe_params
          | apply (keeps_lift _ file_refl)
          | apply (keeps_weaken _ _ _ probe_file),
              (keeps_for_each _ probe_refl probe_trans); intros; apply probe_process_table
          | apply (keeps_weaken _ _ _ probe_file),
              (keeps_for_each _ probe_refl probe_trans); intros; apply probe_process_view
          | apply (keeps_bind _ file_trans); [|intro]
          | intro s; reflexivity ]).
Qed.

(** With [use_cache] false the cache file is neither read nor written:
    it is left as it was, whatever the call does. *)
Lemma uncached_extraction (include_samples : bool) (sample_rows : Z)
    (include_statistics : bool) :
  keeps same_cache_file
    (extract_all_metadata include_samples sample_rows include_statistics false).
Proof.
  unfold extract_all_metadata.
  apply (keeps_bind _ file_trans); [apply (keeps_ret _ file_refl)|]. intros [|].
  - intro s. reflexivity.
  - apply (keeps_bind _ file_trans).
    + intro s. unfold connect. destruct (pg_connect _ _) as [[u|e] d]; reflexivity.
    + intros [|]; cbn [negb]; [|apply (keeps_ret _ file_refl)].
      apply (keeps_try_finally _ file_trans); [apply uncached_extract_body|].
      intro s. unfold close. destruct (cursor s); reflexivity.
Qed.

(** *** The samples of the views *)






Lemma forward_close : keeps forward_step (fun s => (Ok tt, snd (close s))) ->
  forall s, exists events, trace (snd (close s)) = trace s ++ events.
Proof. intros Hk s. destruct (Hk s) as (_ & _ & He). exact He. Qed.

(** What a step that returns tells: the state it leaves. *)
Lemma kept_step {A} (R : State -> State -> Prop) (m : Stmt A) (s s1 : State) (a : A) :
  keeps R m -> m s = (Ok a, s1) -> R s s1.
Proof. intros Hk Hm. specialize (Hk s). rewrite Hm in Hk. exact Hk. Qed.


(** A statement that returns was run on an open cursor. *)
Lemma execute_returns (q : query) (s s1 : State) (rows : list dict) :
  execute q s = (Ok rows, s1) ->
  cursor s = CursorOpen /\
  fst (pg_execute (db s) q) = Ok rows /\
  s1 = db_step CursorOpen (snd (pg_execute (db s) q)) (Execute q) s.
Proof.
  unfold execute. destruct (cursor s); try discriminate.
  destruct (pg_execute (db s) q) as [r d]. simpl. intros [= -> <-]. auto.
Qed.






(** *** A caught failure inside the transaction *)

Lemma raises_bind {A B} (m : Stmt A) (k : A -> Stmt B) (s : State) :
  (forall a s1, m s = (Ok a, s1) -> exists e, fst (k a s1) = Raise e) ->
  exists e, fst (bind m k s) = Raise e.
Proof.
  intro Hk. unfold bind. destruct (m s) as [[a|e] s1] eqn:Em.
  - apply Hk. reflexivity.
  - exists e. reflexivity.
Qed.

(** A loop one of whose turns raises whenever it is reached raises. *)
Lemma for_each_raises {A B} (Inv : State -> Prop) (body : B -> A -> Stmt B) (x : A) :
  (forall acc y s acc1 s1, Inv s -> body acc y s = (Ok acc1, s1) -> Inv s1) ->
  (forall acc s, Inv s -> exists e, fst (body acc x s) = Raise e) ->
  forall xs, In x xs ->
  forall acc s, Inv s -> exists e, fst (for_each xs acc body s) = Raise e.
Proof.
  intros Hkeep Hx xs. induction xs as [|y xs IH]; intros Hin acc s Hs; [destruct Hin|].
  simpl. apply raises_bind. intros acc1 s1 Hy.
  destruct Hin as [-> | Hin].
  - destruct (Hx acc s Hs) as [e He]. rewrite Hy in He. discriminate.
  - apply IH; [exact Hin|]. eapply Hkeep; eassumption.
Qed.

(** The handler of [get_primary_keys] returns [], and the foreign-key
    statement that follows meets the aborted transaction. *)
Lemma process_table_raises (Failed : DB -> Prop) (d0 : DB)
    (include_samples : bool) (sample_rows : Z) (include_statistics : bool)
    (tables info : dict) (table_name : pyval) (s : State) :
  aborts_transaction Failed ->
  subscript (VDict info) "table_name" = Ok table_name ->
  (forall d, served d0 d -> exists e, fst (pg_execute d (Q_primary_keys table_name)) = Raise e) ->
  cursor s = CursorOpen ->
  served d0 (db s) ->
  exists e,
    fst (process_table include_samples sample_rows include_statistics tables info s) = Raise e.
Proof.
  intros [Hfails Hstays] Hname Hpk Hopen Hserved. unfold process_table.
  apply raises_bind. intros v s1 Hv. unfold lift in Hv. rewrite Hname in Hv.
  injection Hv as <- <-.
  apply raises_bind. intros columns s1 Hcolumns.
  unfold get_columns_info in Hcolumns. apply execute_returns in Hcolumns as (_ & _ & ->).
  apply raises_bind. intros primary_keys s2 Hkeys.
  unfold get_primary_keys, try_except, bind, execute in Hkeys. cbn [cursor db_step db] in Hkeys.
  destruct (Hpk (snd (pg_execute (db s) (Q_columns_info table_name)))) as [e He].
  { eapply served_trans; [exact Hserved|]. eapply served_next. apply served_here. }
  pose proof (Hfails _ _ _ He) as Hfailed.
  destruct (pg_execute (snd (pg_execute (db s) (Q_columns_info table_name)))
              (Q_primary_keys table_name)) as [r d2].
  cbn [fst snd] in He, Hfailed, Hkeys. subst r. injection Hkeys as _ <-.
  destruct (Hstays d2 (Q_foreign_keys table_name) Hfailed) as [e1 He1].
  exists e1. unfold bind, get_foreign_keys, execute. cbn [cursor db_step db].
  destruct (pg_execute d2 (Q_foreign_keys table_name)) as [r d3].
  cbn [fst] in He1. subst r. reflexivity.
Qed.

Lemma extract_body_raises (Failed : DB -> Prop)
    (include_samples : bool) (sample_rows : Z) (include_statistics use_cache : bool)
    (s : State) (tables : list dict) (info : dict) (table_name : pyval) :
  aborts_transaction Failed ->
  cursor s = CursorOpen ->
  fst (pg_execute (db s) Q_tables_info) = Ok tables ->
  In info tables ->
  subscript (VDict info) "table_name" = Ok table_name ->
  (forall d, served (db s) d ->
             exists e, fst (pg_execute d (Q_primary_keys table_name)) = Raise e) ->
  exists e,
    fst (extract_body include_samples sample_rows include_statistics use_cache s) = Raise e.
Proof.
  intros Haborts Hopen Htables Hin Hname Hpk. unfold extract_body.
  apply raises_bind. intros tables1 s1 Hrun1.
  pose proof (kept_step _ _ _ _ _ probe_get_tables_info Hrun1) as R1.
  unfold get_tables_info in Hrun1. apply execute_returns in Hrun1 as (_ & Hrows & _).
  rewrite Hrows in Htables. injection Htables as ->.
  apply raises_bind. intros views s2 Hrun2.
  pose proof (kept_step _ _ _ _ _ probe_get_views_info Hrun2) as R2.
  apply raises_bind. intros relationships s3 Hrun3.
  pose proof (kept_step _ _ _ _ _ probe_get_table_relationships Hrun3) as R3.
  apply raises_bind. intros params s4 Hrun4. injection Hrun4 as _ <-.
  apply raises_bind. intros database_name s5 Hrun5. apply lift_state in Hrun5. subst s5.
  apply raises_bind. intros extracted_at s6 Hrun6. unfold now in Hrun6. injection Hrun6 as _ <-.
  cbv zeta. apply raises_bind. intros tables_meta s7 Hrun7. exfalso.
  pose proof (probe_trans _ _ _ R1 (probe_trans _ _ _ R2 R3))
    as (_ & _ & Hc & _ & _ & _ & _ & Hd & _).
  destruct (for_each_raises
              (fun st => cursor st = CursorOpen /\ served (db s) (db st))
              (process_table include_samples sample_rows include_statistics) info)
    with (xs := tables) (acc := @nil (string * pyval)) (s := set_ticks (S (ticks s3)) s3)
    as [e He].
  - intros acc y st acc1 st1 [Hopen1 Hserved1] Hstep.
    pose proof (kept_step _ _ _ _ _ (probe_process_table _ _ _ _ _) Hstep)
      as (_ & _ & Hc1 & _ & _ & _ & _ & Hd1 & _).
    split; [congruence | eapply served_trans; eassumption].
  - intros acc st [Hopen1 Hserved1].
    eapply process_table_raises; eassumption.
  - exact Hin.
  - split; [simpl; congruence | exact Hd].
  - pose proof (eq_trans (eq_sym (f_equal fst Hrun7)) He) as Hboth. discriminate Hboth.
Qed.

(** Graceful degradation, as the code has it.  psycopg2 runs the
    statements of a connection in one transaction, and the extractor
    neither sets autocommit nor rolls back, so a statement that fails
    leaves every later statement raising.  The handler in
    [get_primary_keys] therefore does not save the extraction: when the
    snapshot is not served from the cache, the connection opens, and
    the primary-key statement fails for some table of the listing,
    [extract_all_metadata] raises, because [get_foreign_keys] runs
    right after it without a handler. *)
Theorem caught_failure_aborts_extraction (Failed : DB -> Prop)
    (include_samples : bool) (sample_rows : Z) (include_statistics use_cache : bool)
    (s : State) (u : unit) (d0 : DB) (tables : list dict) (info : dict)
    (table_name : pyval) :
  aborts_transaction Failed ->
  cache_bypassed use_cache s ->
  pg_connect (connection_params s) (db s) = (Ok u, d0) ->
  fst (pg_execute d0 Q_tables_info) = Ok tables ->
  In info tables ->
  subscript (VDict info) "table_name" = Ok table_name ->
  (forall d, served d0 d ->
             exists e, fst (pg_execute d (Q_primary_keys table_name)) = Raise e) ->
  exists e,
    fst (extract_all_metadata include_samples sample_rows include_statistics use_cache s)
    = Raise e.
Proof.
  intros Haborts Hby Hconnect Htables Hin Hname Hpk.
  destruct (extract_outcomes include_samples sample_rows include_statistics use_cache s)
    as [(Hcache & Hhit & _)|(_ & s0 & Hs0 & [(e1 & d1 & Hc & _)|(u1 & d1 & Hc & ->)])].
  - destruct Hby as [Hby|Hby]; [|rewrite Hhit in Hby; discriminate].
    rewrite Hby in Hcache. discriminate Hcache.
  - rewrite Hconnect in Hc. discriminate Hc.
  - rewrite Hconnect in Hc. injection Hc as <- <-. cbn [fst].
    eapply extract_body_raises; try eassumption; reflexivity.
Qed.

End Frames.

(** ** The connection manager: properties *)

Module ConnectionManagerFacts.
Import ConnectionManager.

Lemma dict_get_remove_same (k : string) (d : dict) : dict_get k (dict_remove k d) = None.
Proof.
  unfold dict_remove. induction d as [|[k1 v1] r IH]; simpl; [reflexivity|].
  destruct (String.eqb k k1) eqn:Ek; simpl; [exact IH|].
  rewrite Ek. exact IH.
Qed.

Lemma dict_get_remove_other (n k : string) (d : dict) :
  String.eqb n k = false -> dict_get n (dict_remove k d) = dict_get n d.
Proof.
  intro Hnk. unfold dict_remove. induction d as [|[k1 v1] r IH]; simpl; [reflexivity|].
  destruct (String.eqb k k1) eqn:Ek; simpl.
  - apply String.eqb_eq in Ek. subst k1. rewrite Hnk. exact IH.
  - rewrite IH. reflexivity.
Qed.

Lemma dict_set_truthy (k : string) (v : pyval) (d : dict) :
  truthy (VDict (dict_set k v d)) = true.
Proof.
  destruct d as [|[k1 v1] r]; simpl; [reflexivity|].
  destruct (String.eqb k k1); reflexivity.
Qed.

Section Facts.
Context `{Vault} `{PyLib}.

Lemma json_dict_get (k : string) (d : dict) (v : pyval) :
  json_value (VDict d) = true -> dict_get k d = Some v -> json_value v = true.
Proof.
  induction d as [|[k1 v1] r IH]; simpl; [discriminate|].
  intros Hj Hget. apply andb_true_iff in Hj. destruct Hj as [Hv Hr].
  destruct (String.eqb k k1).
  - injection Hget as <-. exact Hv.
  - exact (IH Hr Hget).
Qed.

Lemma json_dict_set (k : string) (v : pyval) (d : dict) :
  json_value (VDict d) = true -> json_value v = true ->
  json_value (VDict (dict_set k v d)) = true.
Proof.
  intros Hj Hv. induction d as [|[k1 v1] r IH]; simpl.
  - rewrite Hv. reflexivity.
  - simpl in Hj. apply andb_true_iff in Hj. destruct Hj as [Hv1 Hr].
    destruct (String.eqb k k1); simpl.
    + rewrite Hv. exact Hr.
    + rewrite Hv1. exact (IH Hr).
Qed.

Lemma json_dict_remove (k : string) (d : dict) :
  json_value (VDict d) = true -> json_value (VDict (dict_remove k d)) = true.
Proof.
  unfold dict_remove. induction d as [|[k1 v1] r IH]; simpl; [reflexivity|].
  intro Hj. apply andb_true_iff in Hj. destruct Hj as [Hv1 Hr].
  destruct (String.eqb k k1); simpl.
  - exact (IH Hr).
  - rewrite Hv1. exact (IH Hr).
Qed.

Lemma save_result (g : Manager) :
  can_save g ->
  json_value (connections g) = true ->
  exists data,
    seal (connections g) (nonce g) = Ok data /\
    _save_connections g
    = (Ok tt, mkManager (connections g) (Some data) (storage_writable g) (clock g)
                        (ticks g) (S (nonce g))).
Proof.
  intros [Hw Hseal] Hj. destruct (Hseal (connections g) (nonce g) Hj) as [data Hdata].
  exists data. split; [exact Hdata|].
  unfold _save_connections. rewrite Hdata, Hw. reflexivity.
Qed.

(** *** Listing *)

Lemma safe_info_of_entry (name : string) (e : dict) :
  _safe_connection_info name (VDict e) = Ok (shown name e).
Proof. reflexivity. Qed.

Lemma shown_has_no_password (name : string) (e : dict) :
  contains "password" (shown name e) = Ok false.
Proof.
  unfold shown, contains, dict_has. rewrite dict_get_set. simpl.
  rewrite dict_get_remove_same. reflexivity.
Qed.

(** [list_connections] shows every stored connection, in order, under
    its name and without its password; the other fields are shown as
    stored; nothing is changed or saved. *)
Theorem list_connections_hides_passwords (g : Manager) (d : dict) :
  connections g = VDict d ->
  well_stored d ->
  exists infos,
    list_connections g = (Ok infos, g) /\
    Forall2 (fun (item : string * pyval) (info : pyval) =>
               contains "password" info = Ok false /\
               subscript info "name" = Ok (VStr (fst item)) /\
               forall k, String.eqb k "password" = false -> String.eqb k "name" = false ->
                         subscript info k = subscript (snd item) k)
            d infos.
Proof.
  intros Hd Hwell. unfold list_connections, get_connections, bind, lift. rewrite Hd. simpl.
  assert (Hmap : exists infos,
             rmap (fun entry : string * pyval =>
                     _safe_connection_info (fst entry) (snd entry)) d = Ok infos /\
             Forall2 (fun (item : string * pyval) (info : pyval) =>
                        contains "password" info = Ok false /\
                        subscript info "name" = Ok (VStr (fst item)) /\
                        forall k, String.eqb k "password" = false ->
                                  String.eqb k "name" = false ->
                                  subscript info k = subscript (snd item) k)
                     d infos).
  { clear Hd. induction d as [|[name v] r IH].
    - exists []. split; [reflexivity | constructor].
    - destruct (Hwell name v (or_introl eq_refl)) as [e ->].
      destruct IH as (infos & Hr & Hall).
      { intros n v Hin. apply (Hwell n v). right. exact Hin. }
      exists (shown name e :: infos). split.
      + cbn [rmap fst snd]. rewrite safe_info_of_entry. cbn [rbind]. rewrite Hr.
        reflexivity.
      + constructor; [|exact Hall]. split; [apply shown_has_no_password|]. split.
        * unfold shown, subscript. rewrite dict_get_set. reflexivity.
        * intros k Hkp Hkn. unfold shown, subscript. simpl.
          rewrite dict_get_set, Hkn, (dict_get_remove_other k "password" e Hkp).
          reflexivity. }
  destruct Hmap as (infos & -> & Hall). exists infos. split; [reflexivity | exact Hall].
Qed.

(** *** Looking a connection up *)

Lemma get_connection_unknown (g : Manager) (d : dict) (name : string) :
  connections g = VDict d -> dict_has name d = false ->
  get_connection name g = (Ok VNone, g).
Proof.
  intros Hd Hno. unfold get_connection, get_connections, bind, lift. rewrite Hd. simpl.
  rewrite Hno. reflexivity.
Qed.

Lemma get_connection_known (g : Manager) (d e : dict) (name : string) :
  connections g = VDict d -> dict_get name d = Some (VDict e) -> can_save g ->
  json_value (VDict d) = true ->
  exists g1,
    get_connection name g
    = (Ok (VDict (dict_set "last_used" (VStr (isoformat (clock g (ticks g)))) e)), g1) /\
    connections g1
    = VDict (dict_set name
               (VDict (dict_set "last_used" (VStr (isoformat (clock g (ticks g)))) e)) d) /\
    storage_writable g1 = storage_writable g.
Proof.
  intros Hd He Hsave Hj.
  unfold get_connection, bind, get_connections, lift, now, put_connections.
  rewrite Hd. unfold contains, dict_has. rewrite He. cbn [negb]. cbv beta iota.
  unfold subscript at 1. rewrite He. unfold setitem. cbv beta iota.
  match goal with
  | |- context [_save_connections ?g0] =>
      destruct (save_result g0) as (data & _ & Hs);
      [destruct Hsave as [Hw Hseal]; split; [exact Hw | exact Hseal]
      |cbn [set_connections connections];
       apply json_dict_set; [exact Hj|];
       apply json_dict_set; [exact (json_dict_get name d _ Hj He) | reflexivity]
      |]
  end.
  rewrite Hs. unfold subscript. rewrite dict_get_set, String.eqb_refl.
  eexists. split; [reflexivity|]. split; reflexivity.
Qed.

(** [get_connection_config] for a stored connection returns exactly its
    host, database, user, password and port; the entry's [last_used] is
    set and the mapping saved on the way. *)
Lemma get_connection_config_run (g : Manager) (d e : dict) (name : string)
    (host database user password port : pyval) :
  connections g = VDict d ->
  dict_get name d = Some (VDict e) ->
  dict_get "host" e = Some host ->
  dict_get "database" e = Some database ->
  dict_get "user" e = Some user ->
  dict_get "password" e = Some password ->
  dict_get "port" e = Some port ->
  can_save g ->
  json_value (VDict d) = true ->
  exists g1,
    get_connection_config name g
    = (Ok (config_of host database user password port), g1).
Proof.
  intros Hd He Hh Hdb Hu Hp Hport Hsave Hj.
  destruct (get_connection_known g d e name Hd He Hsave Hj) as (g1 & Hget & _).
  exists g1.
  unfold get_connection_config, bind. rewrite Hget. rewrite dict_set_truthy. simpl.
  unfold subscript. rewrite !dict_get_set. simpl. rewrite Hh, Hdb, Hu, Hp, Hport.
  reflexivity.
Qed.

(** *** Adding, replacing, deleting *)

(** What [add_connection] does up to the save: the clock is read and the
    entry stored under [name]. *)
Lemma add_connection_run (g : Manager) (d : dict) (name : string)
    (host database user password port description created : pyval) :
  connections g = VDict d ->
  created_of d name g = Ok created ->
  add_connection name host database user password port description g
  = bind _save_connections
      (fun _ => lift (_safe_connection_info name
                        (stored_entry host database user password port description created)))
      (mkManager
         (VDict (dict_set name
                   (stored_entry host database user password port description created) d))
         (storage g) (storage_writable g) (clock g) (S (ticks g)) (nonce g)).
Proof.
  intros Hd Hcreated. unfold created_of in Hcreated.
  unfold add_connection. unfold bind at 1. unfold now at 1. cbv zeta.
  unfold bind at 1. unfold get_connections at 1. simpl connections. rewrite Hd.
  unfold bind at 1. unfold lift at 1. unfold contains, dict_has.
  destruct (dict_get name d) as [old|] eqn:Eold.
  - unfold bind at 1. unfold lift at 1. unfold subscript at 1. rewrite Eold.
    cbn [rbind]. simpl ticks in *. simpl clock in *. rewrite Hcreated. cbn [rbind].
    unfold bind at 1. unfold lift at 1. unfold setitem.
    unfold bind at 1. unfold put_connections, set_connections. simpl. reflexivity.
  - injection Hcreated as <-.
    unfold bind at 1. unfold ret at 1.
    unfold bind at 1. unfold lift at 1. unfold setitem.
    unfold bind at 1. unfold put_connections, set_connections. simpl. reflexivity.
Qed.

Lemma created_json (g : Manager) (d : dict) (name : string) (created : pyval) :
  json_value (VDict d) = true -> created_of d name g = Ok created ->
  json_value created = true.
Proof.
  unfold created_of. intros Hj Hcreated.
  destruct (dict_get name d) as [old|] eqn:Eold.
  - assert (Hold := json_dict_get name d old Hj Eold).
    destruct old; try discriminate Hcreated. unfold subscript in Hcreated.
    destruct (dict_get "created_at" d0) as [c|] eqn:Ec; [|discriminate Hcreated].
    injection Hcreated as <-. exact (json_dict_get "created_at" d0 c Hold Ec).
  - injection Hcreated as <-. reflexivity.
Qed.

Lemma stored_entry_json (host database user password port description created : pyval) :
  forallb json_value [host; database; user; password; port; description] = true ->
  json_value created = true ->
  json_value (stored_entry host database user password port description created) = true.
Proof.
  unfold stored_entry. cbn [forallb json_value snd]. intros Hall Hc.
  repeat (apply andb_true_iff in Hall; destruct Hall as [? Hall]).
  repeat (apply andb_true_iff; split; [assumption|]). reflexivity.
Qed.

Lemma add_connection_saved (g : Manager) (d : dict) (name : string)
    (host database user password port description created : pyval) :
  connections g = VDict d ->
  created_of d name g = Ok created ->
  can_save g ->
  json_value (VDict d) = true ->
  forallb json_value [host; database; user; password; port; description] = true ->
  exists data,
    seal (VDict (dict_set name
                   (stored_entry host database user password port description created) d))
         (nonce g) = Ok data /\
    add_connection name host database user password port description g
    = (Ok (shown name [("host", host); ("database", database); ("user", user);
                       ("password", password); ("port", port);
                       ("description", description); ("created_at", created);
                       ("last_used", VNone)]),
       mkManager
         (VDict (dict_set name
                   (stored_entry host database user password port description created) d))
         (Some data) (storage_writable g) (clock g) (S (ticks g)) (S (nonce g))).
Proof.
  intros Hd Hcreated [Hw Hseal] Hj Hargs.
  rewrite (add_connection_run g d name _ _ _ _ _ _ created Hd Hcreated).
  match goal with
  | |- context [bind _save_connections _ ?g0] =>
      destruct (save_result g0) as (data & Hdata & Hs);
      [split; [exact Hw | exact Hseal]
      |cbn [connections]; apply json_dict_set; [exact Hj|];
       apply stored_entry_json; [exact Hargs | exact (created_json g d name created Hj Hcreated)]
      |]
  end.
  exists data. split; [exact Hdata|].
  unfold bind. rewrite Hs. reflexivity.
Qed.

(** Insert, then look up.  After [add_connection] has stored a
    connection, [get_connection_config] for its name returns exactly the
    host, database, user, password and port that were given. *)
Theorem added_connection_config (g : Manager) (d : dict) (name : string)
    (host database user password port description created : pyval) :
  connections g = VDict d ->
  created_of d name g = Ok created ->
  can_save g ->
  json_value (VDict d) = true ->
  forallb json_value [host; database; user; password; port; description] = true ->
  fst (get_connection_config name
         (snd (add_connection name host database user password port description g)))
  = Ok (config_of host database user password port).
Proof.
  intros Hd Hcreated Hsave Hj Hargs.
  destruct (add_connection_saved g d name host database user password port description
              created Hd Hcreated Hsave Hj Hargs) as (data & _ & ->).
  cbn [snd].
  match goal with
  | |- context [get_connection_config name ?g1] =>
      destruct (get_connection_known g1
                  (dict_set name
                     (stored_entry host database user password port description created) d)
                  [("host", host); ("database", database); ("user", user);
                   ("password", password); ("port", port); ("description", description);
                   ("created_at", created); ("last_used", VNone)] name)
        as (g2 & Hget & _)
  end.
  - reflexivity.
  - rewrite dict_get_set, String.eqb_refl. reflexivity.
  - destruct Hsave as [Hw Hseal]. split; [exact Hw | exact Hseal].
  - apply json_dict_set; [exact Hj|].
    apply stored_entry_json; [exact Hargs | exact (created_json g d name created Hj Hcreated)].
  - unfold get_connection_config, bind. rewrite Hget. reflexivity.
Qed.

(** Replacing a connection keeps the [created_at] it had; the other
    fields are the new ones, [last_used] is reset, the password is not
    in the value returned, and the connection keeps its place in the
    mapping. *)
Theorem replaced_connection_keeps_created_at (g : Manager) (d old : dict) (name : string)
    (host database user password port description created : pyval) :
  connections g = VDict d ->
  dict_get name d = Some (VDict old) ->
  dict_get "created_at" old = Some created ->
  can_save g ->
  json_value (VDict d) = true ->
  forallb json_value [host; database; user; password; port; description] = true ->
  exists info,
    fst (add_connection name host database user password port description g) = Ok info /\
    subscript info "created_at" = Ok created /\
    contains "password" info = Ok false /\
    subscript (connections
                 (snd (add_connection name host database user password port description g)))
              name
    = Ok (stored_entry host database user password port description created) /\
    exists d1,
      connections (snd (add_connection name host database user password port description g))
      = VDict d1 /\ map fst d1 = map fst d.
Proof.
  intros Hd Hold Hc Hsave Hj Hargs.
  assert (Hcreated : created_of d name g = Ok created).
  { unfold created_of, subscript. rewrite Hold, Hc. reflexivity. }
  destruct (add_connection_saved g d name host database user password port description
              created Hd Hcreated Hsave Hj Hargs) as (data & _ & ->).
  eexists. split; [reflexivity|]. split; [reflexivity|]. split; [reflexivity|]. split.
  - cbn [snd connections]. unfold subscript. rewrite dict_get_set, String.eqb_refl.
    reflexivity.
  - eexists. split; [reflexivity|].
    rewrite dict_set_keys. unfold dict_has. rewrite Hold. reflexivity.
Qed.

(** A save that fails leaves memory and file apart: when the storage
    file cannot be written [add_connection] raises, yet
    [self.connections] already holds the new connection while the
    storage file is the old one. *)
Theorem failed_save_keeps_memory_change (g : Manager) (d : dict) (name : string)
    (host database user password port description created : pyval) :
  connections g = VDict d ->
  created_of d name g = Ok created ->
  storage_writable g = false ->
  (exists e,
     fst (add_connection name host database user password port description g) = Raise e) /\
  subscript (connections
               (snd (add_connection name host database user password port description g)))
            name
  = Ok (stored_entry host database user password port description created) /\
  storage (snd (add_connection name host database user password port description g))
  = storage g.
Proof.
  intros Hd Hcreated Hw.
  rewrite (add_connection_run g d name _ _ _ _ _ _ created Hd Hcreated).
  unfold bind, _save_connections. cbn [connections nonce storage_writable].
  match goal with
  | |- context [seal ?v ?n] => destruct (seal v n) as [data|e]
  end.
  - rewrite Hw. cbn [fst snd connections storage].
    split; [eexists; reflexivity|]. split; [|reflexivity].
    unfold subscript. rewrite dict_get_set, String.eqb_refl. reflexivity.
  - cbn [fst snd connections storage].
    split; [eexists; reflexivity|]. split; [|reflexivity].
    unfold subscript. rewrite dict_get_set, String.eqb_refl. reflexivity.
Qed.

Lemma dict_has_remove (k : string) (d : dict) : dict_has k (dict_remove k d) = false.
Proof. unfold dict_has. rewrite dict_get_remove_same. reflexivity. Qed.

(** [delete_connection] of a stored name returns True, after which the
    name is unknown ([get_connection] returns None) and every other
    connection is as it was; of an unknown name it returns False and
    changes nothing. *)
Theorem deleted_connection_is_gone (g : Manager) (d : dict) (name : string) :
  connections g = VDict d ->
  can_save g ->
  json_value (VDict d) = true ->
  if dict_has name d
  then
    fst (delete_connection name g) = Ok true /\
    fst (get_connection name (snd (delete_connection name g))) = Ok VNone /\
    forall other,
      String.eqb other name = false ->
      subscript (connections (snd (delete_connection name g))) other
      = subscript (connections g) other
  else delete_connection name g = (Ok false, g).
Proof.
  intros Hd Hsave Hj.
  remember (delete_connection name g) as run eqn:Erun.
  unfold delete_connection, bind, get_connections, lift, put_connections in Erun.
  rewrite Hd in Erun. unfold contains, delitem in Erun.
  destruct (dict_has name d) eqn:Eknown; [|exact Erun].
  cbv beta iota in Erun.
  match type of Erun with
  | context [_save_connections ?g0] =>
      destruct (save_result g0) as (data & _ & Hs);
      [destruct Hsave as [Hw Hseal]; split; [exact Hw | exact Hseal]
      |cbn [set_connections connections]; apply json_dict_remove; exact Hj
      |]
  end.
  rewrite Hs in Erun. cbn [set_connections connections] in Erun. subst run.
  cbn [fst snd]. split; [reflexivity|]. split.
  - erewrite get_connection_unknown; [reflexivity | reflexivity | apply dict_has_remove].
  - intros other Hother. rewrite Hd. simpl. unfold subscript.
    rewrite (dict_get_remove_other other name d Hother). reflexivity.
Qed.

(** What is saved is what a new manager reads.  After [add_connection]
    has returned, [_load_connections], which the constructor of the next
    [ConnectionManager] runs on the storage file, gives the very mapping
    held in memory. *)
Theorem saved_connections_are_reloaded (g : Manager) (d : dict) (name : string)
    (host database user password port description created : pyval) :
  vault_round_trip ->
  connections g = VDict d ->
  created_of d name g = Ok created ->
  can_save g ->
  json_value (VDict d) = true ->
  forallb json_value [host; database; user; password; port; description] = true ->
  _load_connections
    (snd (add_connection name host database user password port description g))
  = connections
      (snd (add_connection name host database user password port description g)).
Proof.
  intros Hround Hd Hcreated Hsave Hj Hargs.
  destruct (add_connection_saved g d name host database user password port description
              created Hd Hcreated Hsave Hj Hargs) as (data & Hdata & ->).
  unfold _load_connections. cbn [snd storage connections].
  rewrite (Hround _ _ _ Hdata). reflexivity.
Qed.

(** *** Exporting and importing *)

Lemma entry_field_json (d e : dict) (name k : string) (v : pyval) :
  json_value (VDict d) = true -> dict_get name d = Some (VDict e) ->
  dict_get k e = Some v -> json_value v = true.
Proof.
  intros Hj He Hk. exact (json_dict_get k e v (json_dict_get name d _ Hj He) Hk).
Qed.

(** Export, then import into the same manager.  The import goes through
    [add_connection] under the exported name: the connection is stored
    again with its host, database, user, port, description and
    [created_at], [last_used] reset to None.  Its password is kept only
    when the export included it: an export without the password, once
    imported, overwrites the stored password with the empty string. *)
Theorem export_then_import (g : Manager) (d e : dict) (name : string)
    (host database user password port description created : pyval)
    (include_password : bool) :
  connections g = VDict d ->
  dict_get name d = Some (VDict e) ->
  dict_get "host" e = Some host ->
  dict_get "database" e = Some database ->
  dict_get "user" e = Some user ->
  dict_get "password" e = Some password ->
  dict_get "port" e = Some port ->
  dict_get "description" e = Some description ->
  dict_get "created_at" e = Some created ->
  can_save g ->
  json_value (VDict d) = true ->
  exists exported g1,
    export_connection name include_password g = (Ok exported, g1) /\
    contains "password" exported = Ok include_password /\
    fst (import_connection exported g1) = Ok name /\
    subscript (connections (snd (import_connection exported g1))) name
    = Ok (stored_entry host database user
            (if include_password then password else VStr "") port description created).
Proof.
  intros Hd He Hh Hdb Hu Hp Hport Hdesc Hc Hsave Hj.
  destruct (get_connection_known g d e name Hd He Hsave Hj) as (g1 & Hget & Hconn1 & Hw1).
  assert (Hexport : export_connection name include_password g
                    = (Ok (VDict (if include_password
                                  then [("name", VStr name); ("host", host);
                                        ("database", database); ("user", user);
                                        ("port", port); ("description", description);
                                        ("password", password)]
                                  else [("name", VStr name); ("host", host);
                                        ("database", database); ("user", user);
                                        ("port", port); ("description", description)])),
                       g1)).
  { unfold export_connection, bind. rewrite Hget. rewrite dict_set_truthy. cbn [negb].
    unfold lift, subscript. rewrite !dict_get_set. simpl.
    rewrite Hh, Hdb, Hu, Hport, Hdesc, Hp. destruct include_password; reflexivity. }
  do 2 eexists. split; [exact Hexport|]. split; [destruct include_password; reflexivity|].
  assert (Hsave1 : can_save
                     (mkManager (connections g1) (storage g1) (storage_writable g1) (clock g1)
                                (S (ticks g1)) (nonce g1))).
  { destruct Hsave as [Hw Hseal]. split; [cbn [storage_writable]; congruence | exact Hseal]. }
  assert (Hj1 : json_value
                  (VDict (dict_set name
                            (VDict (dict_set "last_used"
                                      (VStr (isoformat (clock g (ticks g)))) e)) d)) = true).
  { apply json_dict_set; [exact Hj|].
    apply json_dict_set; [exact (json_dict_get name d _ Hj He) | reflexivity]. }
  assert (Hargs : forallb json_value [host; database; user; password; port; description]
                  = true).
  { cbn [forallb].
    rewrite (entry_field_json d e name _ _ Hj He Hh), (entry_field_json d e name _ _ Hj He Hdb),
      (entry_field_json d e name _ _ Hj He Hu), (entry_field_json d e name _ _ Hj He Hp),
      (entry_field_json d e name _ _ Hj He Hport),
      (entry_field_json d e name _ _ Hj He Hdesc). reflexivity. }
  assert (Hargs0 : forallb json_value [host; database; user; VStr ""; port; description]
                   = true).
  { cbn [forallb] in *. repeat (apply andb_true_iff in Hargs; destruct Hargs as [? Hargs]).
    repeat (apply andb_true_iff; split; [assumption || reflexivity|]). reflexivity. }
  assert (Hcreated : created_of
                       (dict_set name
                          (VDict (dict_set "last_used"
                                    (VStr (isoformat (clock g (ticks g)))) e)) d)
                       name
                       (mkManager (connections g1) (storage g1) (storage_writable g1)
                                  (clock g1) (S (ticks g1)) (nonce g1))
                     = Ok created).
  { unfold created_of. rewrite dict_get_set, String.eqb_refl. unfold subscript.
    rewrite dict_get_set. simpl. rewrite Hc. reflexivity. }
  destruct include_password.
  - destruct (add_connection_saved
                (mkManager (connections g1) (storage g1) (storage_writable g1) (clock g1)
                           (S (ticks g1)) (nonce g1))
                _ name host database user password port description
                created Hconn1 Hcreated Hsave1 Hj1 Hargs) as (data & _ & Hadd).
    unfold import_connection, bind, lift, now. simpl. rewrite Hadd. simpl.
    split; [reflexivity|]. unfold subscript. rewrite dict_get_set, String.eqb_refl.
    reflexivity.
  - destruct (add_connection_saved
                (mkManager (connections g1) (storage g1) (storage_writable g1) (clock g1)
                           (S (ticks g1)) (nonce g1))
                _ name host database user (VStr "") port description
                created Hconn1 Hcreated Hsave1 Hj1 Hargs0) as (data & _ & Hadd).
    unfold import_connection, bind, lift, now. simpl. rewrite Hadd. simpl.
    split; [reflexivity|]. unfold subscript. rewrite dict_get_set, String.eqb_refl.
    reflexivity.
Qed.

(** *** What every method keeps *)

Lemma grows_refl (g : Manager) : grows g g.
Proof. intros d Hd Hj Hsave. split; [exact Hsave|]. exists d. auto. Qed.

Lemma grows_trans (g g1 g2 : Manager) : grows g g1 -> grows g1 g2 -> grows g g2.
Proof.
  intros H01 H12 d Hd Hj Hsave.
  destruct (H01 d Hd Hj Hsave) as (Hsave1 & d1 & Hd1 & Hj1 & Hnames1).
  destruct (H12 d1 Hd1 Hj1 Hsave1) as (Hsave2 & d2 & Hd2 & Hj2 & Hnames2).
  split; [exact Hsave2|]. exists d2. auto.
Qed.

Lemma grows_same_mapping (g g1 : Manager) :
  connections g1 = connections g -> storage_writable g1 = storage_writable g -> grows g g1.
Proof.
  intros Hc Hw d Hd Hj [Hwritable Hseal]. split.
  - split; [congruence | exact Hseal].
  - exists d. split; [congruence|]. auto.
Qed.

Lemma get_connection_grows (name : string) (g : Manager) :
  grows g (snd (ConnectionManager.get_connection name g)).
Proof.
  intros d Hd Hj Hsave.
  destruct (dict_get name d) as [v|] eqn:Ev.
  - assert (Hother : (forall e, v <> VDict e) ->
                     exists r,
                       ConnectionManager.get_connection name g
                       = (r, mkManager (connections g) (storage g) (storage_writable g)
                                       (clock g) (S (ticks g)) (nonce g))).
    { intro Hv. unfold ConnectionManager.get_connection, bind, get_connections, lift, now.
      rewrite Hd. unfold contains, dict_has. rewrite Ev. cbn [negb]. cbv beta iota.
      unfold subscript at 1. rewrite Ev. cbv beta iota.
      destruct v; try (eexists; cbn [setitem]; rewrite <- ?Hd; reflexivity).
      exfalso. exact (Hv _ eq_refl). }
    destruct v as [| | | | | | |e];
      try (destruct Hother as [r ->]; [discriminate|];
           apply (grows_same_mapping g); [reflexivity | reflexivity | exact Hd | exact Hj
                                          | exact Hsave]).
    destruct (get_connection_known g d e name Hd Ev Hsave Hj) as (g1 & -> & Hconn & Hw).
    cbn [snd]. split.
    + destruct Hsave as [Hwritable Hseal]. split; [congruence | exact Hseal].
    + eexists. split; [exact Hconn|]. split.
      * apply json_dict_set; [exact Hj|].
        apply json_dict_set; [exact (json_dict_get name d _ Hj Ev) | reflexivity].
      * intros n Hn. rewrite dict_has_set, Hn. apply orb_true_r.
  - rewrite (get_connection_unknown g d name Hd); [|unfold dict_has; rewrite Ev; reflexivity].
    apply (grows_refl g d Hd Hj Hsave).
Qed.

Lemma get_connection_config_state (name : string) (g : Manager) :
  snd (get_connection_config name g) = snd (ConnectionManager.get_connection name g).
Proof.
  unfold get_connection_config, bind.
  destruct (ConnectionManager.get_connection name g) as [[conn|e] g1]; [|reflexivity].
  destruct (negb (truthy conn)); reflexivity.
Qed.

Lemma get_connection_truthy (name : string) (g : Manager) (d : dict) (conn : pyval) :
  connections g = VDict d ->
  fst (ConnectionManager.get_connection name g) = Ok conn -> truthy conn = true ->
  dict_has name d = true.
Proof.
  intros Hd Hget Htruthy. destruct (dict_has name d) eqn:Ehas; [reflexivity|].
  rewrite (get_connection_unknown g d name Hd Ehas) in Hget. injection Hget as <-.
  discriminate.
Qed.

Lemma list_connections_state (g : Manager) :
  snd (ConnectionManager.list_connections g) = g.
Proof.
  unfold ConnectionManager.list_connections, bind, get_connections, lift. cbn beta iota.
  reflexivity.
Qed.

Lemma add_connection_grows (name : string) (host database user password port description
    : pyval) (g : Manager) :
  forallb json_value [host; database; user; password; port; description] = true ->
  grows g (snd (add_connection name host database user password port description g)).
Proof.
  intros Hargs d Hd Hj Hsave.
  destruct (created_of d name g) as [created|e] eqn:Ecreated.
  - destruct (add_connection_saved g d name host database user password port description
                created Hd Ecreated Hsave Hj Hargs) as (data & _ & ->).
    cbn [snd]. split.
    + destruct Hsave as [Hwritable Hseal]. split; [exact Hwritable | exact Hseal].
    + eexists. split; [reflexivity|]. split.
      * apply json_dict_set; [exact Hj|].
        apply stored_entry_json;
          [exact Hargs | exact (created_json g d name created Hj Ecreated)].
      * intros n Hn. rewrite dict_has_set, Hn. apply orb_true_r.
  - assert (Hrun : add_connection name host database user password port description g
                   = (Raise e, mkManager (connections g) (storage g) (storage_writable g)
                                         (clock g) (S (ticks g)) (nonce g))).
    { unfold created_of in Ecreated.
      unfold add_connection, bind, now, get_connections, lift. cbn [connections].
      rewrite Hd. unfold contains, dict_has.
      destruct (dict_get name d) as [old|] eqn:Eold; [|discriminate].
      cbv beta iota. unfold subscript at 1. rewrite Eold. cbn [rbind].
      rewrite Ecreated. reflexivity. }
    rewrite Hrun.
    apply (grows_same_mapping g); [reflexivity | reflexivity | exact Hd | exact Hj
                                   | exact Hsave].
Qed.

Lemma delete_connection_cases (name : string) (g : Manager) (d : dict) :
  connections g = VDict d -> json_value (VDict d) = true -> can_save g ->
  ConnectionManager.delete_connection name g = (Ok false, g) \/
  exists g1,
    ConnectionManager.delete_connection name g = (Ok true, g1) /\
    can_save g1 /\ connections g1 = VDict (dict_remove name d).
Proof.
  intros Hd Hj Hsave.
  unfold ConnectionManager.delete_connection, bind, get_connections, lift, put_connections.
  rewrite Hd. unfold contains, delitem.
  destruct (dict_has name d) eqn:Eknown; [|left; reflexivity].
  right. cbv beta iota.
  match goal with
  | |- context [_save_connections ?g0] =>
      destruct (save_result g0) as (data & _ & Hs);
      [destruct Hsave as [Hw Hseal]; split; [exact Hw | exact Hseal]
      |cbn [set_connections connections]; apply json_dict_remove; exact Hj
      |]
  end.
  rewrite Hs. eexists. split; [reflexivity|]. split; [|reflexivity].
  destruct Hsave as [Hw Hseal]. split; [exact Hw | exact Hseal].
Qed.

(** *** Looking up without a writable file *)

(** A lookup writes.  [get_connection] stamps [last_used] and saves the
    mapping before it returns, so that with a storage file that cannot
    be written the lookup of a stored connection raises, and with it
    [get_connection_config], although the connection is in memory; the
    stamp stays in memory.  A name that is not stored is still answered
    with None. *)
Theorem lookup_needs_writable_storage (g : Manager) (d e : dict) (name : string) :
  connections g = VDict d ->
  dict_get name d = Some (VDict e) ->
  storage_writable g = false ->
  (exists err, fst (get_connection name g) = Raise err) /\
  (exists err, fst (get_connection_config name g) = Raise err) /\
  subscript (connections (snd (get_connection name g))) name
  = Ok (VDict (dict_set "last_used" (VStr (isoformat (clock g (ticks g)))) e)) /\
  forall other, dict_has other d = false -> get_connection other g = (Ok VNone, g).
Proof.
  intros Hd He Hw.
  assert (Hrun : exists err g1,
             get_connection name g = (Raise err, g1) /\
             connections g1
             = VDict (dict_set name
                        (VDict (dict_set "last_used"
                                  (VStr (isoformat (clock g (ticks g)))) e)) d)).
  { unfold get_connection, bind, get_connections, lift, now, put_connections.
    rewrite Hd. unfold contains, dict_has. rewrite He. cbn [negb]. cbv beta iota.
    unfold subscript at 1. rewrite He. unfold setitem. cbv beta iota.
    unfold _save_connections, set_connections. cbn [connections nonce storage_writable].
    match goal with
    | |- context [seal ?v ?n] => destruct (seal v n) as [data|err]
    end.
    - rewrite Hw. do 2 eexists. split; reflexivity.
    - do 2 eexists. split; reflexivity. }
  destruct Hrun as (err & g1 & Hrun & Hd1).
  split; [exists err; rewrite Hrun; reflexivity|]. split.
  - exists err. unfold get_connection_config, bind. rewrite Hrun. reflexivity.
  - split.
    + rewrite Hrun. cbn [snd]. rewrite Hd1. unfold subscript.
      rewrite dict_get_set, String.eqb_refl. reflexivity.
    + intros other Hother. exact (get_connection_unknown g d other Hd Hother).
Qed.

End Facts.

End ConnectionManagerFacts.

(** ** The web application: properties *)

Module MainFacts.
Import ConnectionManager ConnectionManagerFacts Main.

Section Facts.
Context `{Database} `{Pickle} `{PyLib} `{Vault} `{WebLib} `{!SqlRunner}.

Lemma cursor_after_extraction (include_samples : bool) (sample_rows : Z)
    (include_statistics use_cache : bool) (s : State) :
  cursor s <> CursorOpen ->
  cursor (snd (extract_all_metadata include_samples sample_rows include_statistics
                 use_cache s)) <> CursorOpen.
Proof.
  intro Hstart.
  destruct (extract_outcomes include_samples sample_rows include_statistics use_cache s)
    as [(_ & _ & m & ->)|(_ & s0 & Hs0 & [(e & d & _ & ->)|(u & d & _ & ->)])]; simpl.
  - exact Hstart.
  - destruct Hs0 as [-> | ->]; exact Hstart.
  - apply close_result.
Qed.

(** What [get_metadata_extractor] leaves when it returns: a new
    extractor, which has no cursor. *)
Lemma get_metadata_extractor_returns (app app1 : App) :
  get_metadata_extractor app = (Returns tt, app1) ->
  exists params s, extractor app1 = new_extractor params s.
Proof.
  unfold get_metadata_extractor.
  destruct (active_connection app) as [name|]; [|discriminate].
  destruct (String.eqb name ""); [discriminate|].
  unfold and_then, on_manager.
  destruct (get_connection_config name (connection_manager app)) as [[conn_config|e] g];
    [|discriminate].
  destruct (truthy conn_config); cbn [negb]; unfold fail; [|discriminate].
  destruct conn_config; try discriminate.
  intros [= <-]. do 2 eexists. reflexivity.
Qed.

(** GET /schema never answers with a rendered schema.  Whatever the
    globals, the connections, the server and the cache file are, it
    either fails with status 500 or answers the fixed notice that no
    metadata is available. *)
Theorem schema_endpoint_never_renders (app : App) :
  (exists detail, fst (get_schema app) = Fails (HTTPException 500 detail)) \/
  fst (get_schema app) = Returns (VDict [("schema", VStr no_metadata_notice)]).
Proof.
  unfold get_schema, try_except_Exception, and_then.
  destruct (get_metadata_extractor app) as [[[]|r] app1] eqn:Eget;
    [|left; eexists; reflexivity].
  destruct (get_metadata_extractor_returns app app1 Eget) as (params & s0 & Hnew).
  pose proof (cursor_after_extraction false 3 false true (extractor app1)) as Hcursor.
  rewrite Hnew in Hcursor. specialize (Hcursor ltac:(discriminate)). rewrite <- Hnew in Hcursor.
  unfold on_extractor.
  destruct (extract_all_metadata false 3 false true (extractor app1)) as [[m|e] s1];
    [|left; eexists; reflexivity].
  cbn [snd] in Hcursor. cbn [extractor].
  destruct (truthy (metadata s1)) eqn:Etruthy.
  - destruct (formatting_raises_without_cursor s1 Hcursor Etruthy) as (e & s2 & ->).
    left. eexists. reflexivity.
  - rewrite (format_for_ai_no_metadata s1 Etruthy). right. reflexivity.
Qed.

(** The statuses of [get_metadata_extractor] do not reach the client.
    Without an active connection the three metadata endpoints fail with
    status 500, the 400 being the text of the detail, and change nothing. *)
Theorem no_active_connection_is_a_500 (app : App) :
  active_connection app = None ->
  get_schema app
  = (Fails (HTTPException 500 (str_of_http 400 "No active database connection")), app) /\
  get_full_metadata app
  = (Fails (HTTPException 500 (str_of_http 400 "No active database connection")), app) /\
  refresh_metadata app
  = (Fails (HTTPException 500 (str_of_http 400 "No active database connection")), app).
Proof.
  intro Hnone.
  unfold get_schema, get_full_metadata, refresh_metadata, try_except_Exception, and_then,
    get_metadata_extractor.
  rewrite Hnone. repeat split; reflexivity.
Qed.

(** POST /metadata/refresh with the database out of reach.  The active
    connection is stored and its configuration is read, but the server
    refuses the connection: the endpoint still answers success, the
    cache file is gone and the extractor holds no snapshot. *)
Theorem refresh_reports_success_when_unreachable (app : App) (d e : dict) (name : string)
    (host database user password port : pyval) (err : exn) :
  active_connection app = Some name ->
  name <> "" ->
  connections (connection_manager app) = VDict d ->
  dict_get name d = Some (VDict e) ->
  dict_get "host" e = Some host ->
  dict_get "database" e = Some database ->
  dict_get "user" e = Some user ->
  dict_get "password" e = Some password ->
  dict_get "port" e = Some port ->
  can_save (connection_manager app) ->
  json_value (VDict d) = true ->
  fst (pg_connect [("host", host); ("database", database); ("user", user);
                   ("password", password); ("port", port)] (db (extractor app)))
  = Raise err ->
  fst (refresh_metadata app)
  = Returns (VDict [("status", VStr "success"); ("message", VStr "Metadata refreshed")]) /\
  cache_file (extractor (snd (refresh_metadata app))) = None /\
  metadata (extractor (snd (refresh_metadata app))) = VDict [].
Proof.
  intros Hactive Hname Hd He Hh Hdb Hu Hp Hport Hsave Hj Hrefused.
  destruct (get_connection_config_run (connection_manager app) d e name host database user
              password port Hd He Hh Hdb Hu Hp Hport Hsave Hj) as (g1 & Hconfig).
  apply String.eqb_neq in Hname.
  assert (Hrun : exists s2,
             refresh_metadata app
             = (Returns (VDict [("status", VStr "success");
                                ("message", VStr "Metadata refreshed")]),
                mkApp g1 (active_connection app) s2) /\
             cache_file s2 = None /\ metadata s2 = VDict []).
  { unfold refresh_metadata, try_except_Exception, and_then, get_metadata_extractor.
    rewrite Hactive, Hname. unfold and_then, on_manager. rewrite Hconfig.
    unfold config_of. cbn [truthy negb]. cbv beta iota.
    unfold on_extractor. cbn [extractor connection_manager active_connection].
    unfold clear_cache, new_extractor. cbn [cache_file].
    destruct (cache_file (extractor app));
      cbn [extractor connection_manager active_connection];
      unfold extract_all_metadata, bind, ret, connect, set_cache_file;
      cbn [connection_params db cursor metadata cache_file];
      destruct (pg_connect [("host", host); ("database", database); ("user", user);
                            ("password", password); ("port", port)] (db (extractor app)))
        as [r d1];
      cbn [fst] in Hrefused; subst r; cbn [negb]; unfold answer; rewrite ?Hactive;
      eexists; (split; [reflexivity|]); split; reflexivity. }
  destruct Hrun as (s2 & -> & Hfile & Hmeta).
  split; [reflexivity|]. split; [exact Hfile | exact Hmeta].
Qed.

(** *** From the reply of the model to the statement *)

Lemma append_assoc (a b c : string) : ((a ++ b) ++ c)%string = (a ++ (b ++ c))%string.
Proof. induction a as [|x a IH]; simpl; [reflexivity | rewrite IH; reflexivity]. Qed.

Lemma length_of_append (a b : string) :
  String.length (a ++ b) = (String.length a + String.length b)%nat.
Proof. induction a as [|x a IH]; simpl; [reflexivity | rewrite IH; reflexivity]. Qed.

Lemma drop_append (a b : string) : drop (String.length a) (a ++ b) = b.
Proof. induction a as [|x a IH]; simpl; [destruct b; reflexivity | exact IH]. Qed.

Lemma substring_append (a b : string) : String.substring 0 (String.length a) (a ++ b) = a.
Proof.
  induction a as [|x a IH]; simpl; [destruct b; reflexivity | rewrite IH; reflexivity].
Qed.

Lemma endswith_append (a p : string) : endswith p (a ++ p) = true.
Proof.
  unfold endswith. rewrite length_of_append. apply andb_true_iff. split.
  - apply Nat.leb_le. lia.
  - replace (String.length a + String.length p - String.length p)%nat
      with (String.length a) by lia.
    rewrite drop_append. apply String.eqb_refl.
Qed.

Lemma drop_last_append (a p : string) : drop_last (String.length p) (a ++ p) = a.
Proof.
  unfold drop_last. rewrite length_of_append.
  replace (String.length a + String.length p - String.length p)%nat
    with (String.length a) by lia.
  apply substring_append.
Qed.

Lemma clean_markdown_fenced (body : string) :
  (forall s, str_strip ("`" ++ s ++ "`") = ("`" ++ s ++ "`")%string) ->
  (forall s, str_strip (nl ++ s ++ nl) = str_strip s) ->
  clean_markdown ("```sql" ++ nl ++ body ++ nl ++ "```") = str_strip body /\
  clean_markdown ("```" ++ nl ++ body ++ nl ++ "```") = str_strip body.
Proof.
  intros Hkeeps Hlines.
  assert (Hshape : (nl ++ body ++ nl ++ "```")%string
                   = ((nl ++ body ++ nl) ++ "```")%string)
    by (rewrite !append_assoc; reflexivity).
  assert (Hend : endswith "```" (nl ++ body ++ nl ++ "```") = true).
  { rewrite Hshape. apply endswith_append. }
  assert (Hcut : drop_last 3 (nl ++ body ++ nl ++ "```") = (nl ++ body ++ nl)%string).
  { rewrite Hshape. exact (drop_last_append (nl ++ body ++ nl) "```"). }
  split; unfold clean_markdown.
  - assert (Hsame : str_strip ("```sql" ++ nl ++ body ++ nl ++ "```")
                    = ("```sql" ++ nl ++ body ++ nl ++ "```")%string).
    { replace ("```sql" ++ nl ++ body ++ nl ++ "```")%string
        with ("`" ++ ("``sql" ++ nl ++ body ++ nl ++ "``") ++ "`")%string
        by (rewrite !append_assoc; reflexivity).
      apply Hkeeps. }
    rewrite Hsame.
    change (startswith "```sql" ("```sql" ++ nl ++ body ++ nl ++ "```")) with true.
    cbv iota.
    change (drop 6 ("```sql" ++ nl ++ body ++ nl ++ "```"))
      with (nl ++ body ++ nl ++ "```")%string.
    change (startswith "```" (nl ++ body ++ nl ++ "```")) with false. cbv iota.
    rewrite Hend, Hcut. apply Hlines.
  - assert (Hsame : str_strip ("```" ++ nl ++ body ++ nl ++ "```")
                    = ("```" ++ nl ++ body ++ nl ++ "```")%string).
    { replace ("```" ++ nl ++ body ++ nl ++ "```")%string
        with ("`" ++ ("``" ++ nl ++ body ++ nl ++ "``") ++ "`")%string
        by (rewrite !append_assoc; reflexivity).
      apply Hkeeps. }
    rewrite Hsame.
    change (startswith "```sql" ("```" ++ nl ++ body ++ nl ++ "```")) with false.
    cbv iota.
    change (startswith "```" ("```" ++ nl ++ body ++ nl ++ "```")) with true. cbv iota.
    change (drop 3 ("```" ++ nl ++ body ++ nl ++ "```"))
      with (nl ++ body ++ nl ++ "```")%string.
    rewrite Hend, Hcut. apply Hlines.
Qed.

(** A fenced reply is unwrapped.  When the model answers with a
    Markdown block, opened by three backticks with or without [sql] and
    closed by three backticks, each on a line of its own,
    [convert_nl_to_sql] returns the body of the block, stripped,
    provided no forbidden word occurs in it. *)
Theorem fenced_reply_is_unwrapped (key : string) (create : string -> result string)
    (question schema body : string) :
  (forall s, str_strip ("`" ++ s ++ "`") = ("`" ++ s ++ "`")%string) ->
  (forall s, str_strip (nl ++ s ++ nl) = str_strip s) ->
  key <> "" ->
  create (prompt_of question schema) = Ok ("```sql" ++ nl ++ body ++ nl ++ "```")%string \/
  create (prompt_of question schema) = Ok ("```" ++ nl ++ body ++ nl ++ "```")%string ->
  existsb (fun word => occurs word (str_upper (str_strip body))) forbidden = false ->
  convert_nl_to_sql (Some key) create question schema = Returns (str_strip body).
Proof.
  intros Hkeeps Hlines Hkey Hreply Hsafe.
  destruct (clean_markdown_fenced body Hkeeps Hlines) as [Hsql Hplain].
  apply String.eqb_neq in Hkey.
  unfold convert_nl_to_sql. rewrite Hkey. cbn [negb].
  destruct Hreply as [-> | ->]; [rewrite Hsql | rewrite Hplain]; rewrite Hsafe; reflexivity.
Qed.

(** The rejection of a forbidden operation does not reach the client
    as such.  When one of the forbidden words occurs anywhere in the
    cleaned reply in upper case, the [HTTPException] with status 400 is
    caught by the handler around it, and [convert_nl_to_sql] fails with
    status 500, the 400 being part of the detail. *)
Theorem forbidden_operation_is_a_500 (key : string) (create : string -> result string)
    (question schema text word : string) :
  key <> "" ->
  create (prompt_of question schema) = Ok text ->
  In word forbidden ->
  occurs word (str_upper (clean_markdown text)) = true ->
  convert_nl_to_sql (Some key) create question schema
  = Fails (HTTPException 500
             (fstr ["Failed to generate SQL: ";
                    str_of_http 400 "Query contains forbidden operations"])).
Proof.
  intros Hkey Hreply Hword Hoccurs.
  apply String.eqb_neq in Hkey.
  unfold convert_nl_to_sql. rewrite Hkey, Hreply. cbn [negb].
  assert (Hany : existsb (fun w => occurs w (str_upper (clean_markdown text))) forbidden
                 = true).
  { apply existsb_exists. exists word. split; [exact Hword | exact Hoccurs]. }
  rewrite Hany. reflexivity.
Qed.

(** *** The active connection *)

Lemma steady_refl (app : App) : steady app app.
Proof. split; [reflexivity | apply grows_refl]. Qed.

Lemma steady_trans (app app1 app2 : App) :
  steady app app1 -> steady app1 app2 -> steady app app2.
Proof.
  intros [Ha1 Hg1] [Ha2 Hg2]. split; [congruence | exact (grows_trans _ _ _ Hg1 Hg2)].
Qed.

Lemma steady_keeps (app app1 : App) :
  steady app app1 -> consistent app -> consistent app1.
Proof.
  intros [Hactive Hgrows] [(Hsave & d & Hd & Hj) Hstored].
  destruct (Hgrows d Hd Hj Hsave) as (Hsave1 & d1 & Hd1 & Hj1 & Hnames).
  split; [split; [exact Hsave1 | exists d1; auto]|].
  unfold active_is_stored in *. rewrite Hactive.
  destruct (active_connection app) as [name|]; [|exact I].
  rewrite Hd in Hstored. rewrite Hd1. simpl in *.
  injection Hstored as Hstored. rewrite (Hnames name Hstored). reflexivity.
Qed.

Lemma always_answer {A} (a : A) : always steady (answer a).
Proof. intro app. apply steady_refl. Qed.

Lemma always_fail {A} (r : raised) : always steady (fail r : Web A).
Proof. intro app. apply steady_refl. Qed.

Lemma always_of_result {A} (r : result A) : always steady (of_result r).
Proof. intro app. unfold of_result. destruct r; apply steady_refl. Qed.

Lemma always_and_then {A B} (m : Web A) (k : A -> Web B) :
  always steady m -> (forall a, always steady (k a)) -> always steady (and_then m k).
Proof.
  intros Hm Hk app. unfold and_then. specialize (Hm app).
  destruct (m app) as [[a|r] app1]; cbn [snd] in *; [|exact Hm].
  exact (steady_trans _ _ _ Hm (Hk a app1)).
Qed.

Lemma always_try {A} (body : Web A) (handler : raised -> Web A) :
  always steady body -> (forall r, always steady (handler r)) ->
  always steady (try_except_Exception body handler).
Proof.
  intros Hm Hh app. unfold try_except_Exception. specialize (Hm app).
  destruct (body app) as [[a|r] app1]; cbn [snd] in *; [exact Hm|].
  exact (steady_trans _ _ _ Hm (Hh r app1)).
Qed.

Lemma always_on_extractor {A} (m : Stmt A) : always steady (on_extractor m).
Proof.
  intro app. unfold on_extractor.
  destruct (m (extractor app)) as [[a|e] s]; split; try reflexivity; apply grows_refl.
Qed.

Lemma always_on_manager {A} (m : Act A) :
  (forall g, grows g (snd (m g))) -> always steady (on_manager m).
Proof.
  intros Hm app. unfold on_manager. specialize (Hm (connection_manager app)).
  destruct (m (connection_manager app)) as [[a|e] g]; split; try reflexivity; exact Hm.
Qed.

Lemma always_test_connect (conn_config : pyval) : always steady (test_connect conn_config).
Proof.
  intro app. unfold test_connect. destruct conn_config; try apply steady_refl.
  destruct (pg_connect _ _) as [[u|e] d1]; split; try reflexivity; apply grows_refl.
Qed.

Lemma get_connection_config_grows (name : string) (g : Manager) :
  grows g (snd (get_connection_config name g)).
Proof. rewrite get_connection_config_state. apply get_connection_grows. Qed.

Lemma always_get_metadata_extractor : always steady get_metadata_extractor.
Proof.
  intro app. unfold get_metadata_extractor.
  destruct (active_connection app) as [name|] eqn:Eactive; [|apply steady_refl].
  destruct (String.eqb name ""); [apply steady_refl|].
  apply always_and_then.
  - apply always_on_manager. apply get_connection_config_grows.
  - intros conn_config app1. destruct (negb (truthy conn_config)); [apply steady_refl|].
    destruct conn_config; try apply steady_refl.
    split; [reflexivity | apply grows_refl].
Qed.

Lemma always_get_schema : always steady get_schema.
Proof.
  unfold get_schema. apply always_try; [|intro r; apply always_fail].
  apply always_and_then; [apply always_get_metadata_extractor|]. intros _.
  apply always_and_then; [apply always_on_extractor|]. intros _.
  apply always_and_then; [apply always_on_extractor|]. intro text. apply always_answer.
Qed.

Lemma always_get_full_metadata : always steady get_full_metadata.
Proof.
  unfold get_full_metadata. apply always_try; [|intro r; apply always_fail].
  apply always_and_then; [apply always_get_metadata_extractor|]. intros _.
  apply always_and_then; [apply always_on_extractor|]. intro m. apply always_answer.
Qed.

Lemma always_refresh_metadata : always steady refresh_metadata.
Proof.
  unfold refresh_metadata. apply always_try; [|intro r; apply always_fail].
  apply always_and_then; [apply always_get_metadata_extractor|]. intros _.
  apply always_and_then; [apply always_on_extractor|]. intros _.
  apply always_and_then; [apply always_on_extractor|]. intros _. apply always_answer.
Qed.

Lemma always_list_connections : always steady list_connections.
Proof.
  unfold list_connections. apply always_and_then; [|intro l; apply always_answer].
  apply always_on_manager. intro g. rewrite list_connections_state. apply grows_refl.
Qed.

Lemma always_get_connection (name : string) : always steady (get_connection name).
Proof.
  unfold get_connection. apply always_and_then.
  - apply always_on_manager. intro g. apply get_connection_grows.
  - intro conn. destruct (negb (truthy conn)); [apply always_fail | apply always_of_result].
Qed.

Lemma always_create_connection (name host database user password : string) (port : Z)
    (description : string) :
  always steady (create_connection name host database user password port description).
Proof.
  unfold create_connection. apply always_try; [|intro r; apply always_fail].
  apply always_on_manager. intro g. apply add_connection_grows. reflexivity.
Qed.

Lemma delete_connection_keeps (name : string) (app : App) :
  consistent app -> consistent (snd (delete_connection name app)).
Proof.
  intros [(Hsave & d & Hd & Hj) Hstored].
  unfold delete_connection, and_then, on_manager.
  destruct (delete_connection_cases name (connection_manager app) d Hd Hj Hsave)
    as [-> | (g1 & -> & Hsave1 & Hd1)].
  - cbn [snd fail]. unfold consistent, saving, active_is_stored.
    cbn [connection_manager active_connection].
    split; [split; [exact Hsave | exists d; auto] | exact Hstored].
  - cbv iota beta. cbn [active_connection].
    assert (Hj1 : json_value (VDict (dict_remove name d)) = true)
      by (apply json_dict_remove; exact Hj).
    unfold active_is_stored in Hstored.
    destruct (active_connection app) as [active|] eqn:Eactive.
    + destruct (String.eqb active name) eqn:Esame; unfold set_active, answer;
        cbn [snd connection_manager active_connection extractor];
        unfold consistent, saving, active_is_stored;
        cbn [connection_manager active_connection].
      * split; [split; [exact Hsave1 | eexists; eauto] | exact I].
      * split; [split; [exact Hsave1 | eexists; eauto]|].
        rewrite ?Eactive, Hd1. rewrite Hd in Hstored. simpl in *.
        unfold dict_has in *. rewrite (dict_get_remove_other active name d Esame).
        exact Hstored.
    + unfold answer. cbn [snd]. unfold consistent, saving, active_is_stored.
      cbn [connection_manager active_connection].
      split; [split; [exact Hsave1 | eexists; eauto]|]. rewrite ?Eactive. exact I.
Qed.

Lemma activate_connection_keeps (name : string) (app : App) :
  consistent app -> consistent (snd (activate_connection name app)).
Proof.
  intros Hconsistent.
  pose proof Hconsistent as [(Hsave & d & Hd & Hj) Hstored].
  unfold activate_connection, and_then at 1.
  pose proof (always_on_manager (ConnectionManager.get_connection name)
                (fun g => get_connection_grows name g) app) as Hfirst.
  assert (Hknown : forall conn,
             fst (ConnectionManager.get_connection name (connection_manager app)) = Ok conn ->
             truthy conn = true -> dict_has name d = true)
    by (intros conn; apply get_connection_truthy; exact Hd).
  pose proof (get_connection_grows name (connection_manager app) d Hd Hj Hsave)
    as (Hsave1 & d1 & Hd1 & Hj1 & Hnames1).
  unfold on_manager at 1 in Hfirst. unfold on_manager at 1.
  destruct (ConnectionManager.get_connection name (connection_manager app))
    as [[conn|e] g1]; cbn [snd fst] in *;
    [|exact (steady_keeps _ _ Hfirst Hconsistent)].
  destruct (truthy conn) eqn:Etruthy; cbn [negb];
    [|exact (steady_keeps _ _ Hfirst Hconsistent)].
  specialize (Hknown conn eq_refl Etruthy).
  remember (mkApp g1 (active_connection app) (extractor app)) as app1 eqn:Eapp1.
  assert (Hconsistent1 : consistent app1) by exact (steady_keeps _ _ Hfirst Hconsistent).
  assert (Hd1' : connections (connection_manager app1) = VDict d1) by (subst app1; exact Hd1).
  assert (Hsave1' : can_save (connection_manager app1)) by (subst app1; exact Hsave1).
  clear Eapp1.
  unfold try_except_Exception, and_then.
  pose proof (always_on_manager (get_connection_config name)
                (fun g => get_connection_config_grows name g) app1) as Hsecond.
  destruct (on_manager (get_connection_config name) app1) as [[conn_config|r] app2];
    cbn [snd] in Hsecond; [|exact (steady_keeps _ _ Hsecond Hconsistent1)].
  pose proof (always_test_connect conn_config app2) as Hthird.
  destruct (test_connect conn_config app2) as [[[]|r] app3]; cbn [snd] in Hthird;
    [|exact (steady_keeps _ _ (steady_trans _ _ _ Hsecond Hthird) Hconsistent1)].
  unfold set_active, answer. cbn [snd].
  destruct (steady_trans _ _ _ Hsecond Hthird) as [_ Hgrows].
  destruct (Hgrows d1 Hd1' Hj1 Hsave1') as (Hsave3 & d3 & Hd3 & Hj3 & Hnames3).
  unfold consistent, saving, active_is_stored. cbn [connection_manager active_connection].
  split; [split; [exact Hsave3 | exists d3; auto]|].
  rewrite Hd3. simpl. rewrite (Hnames3 name (Hnames1 name Hknown)). reflexivity.
Qed.

Lemma always_psycopg2_connect (conn_config : pyval) :
  always steady (psycopg2_connect conn_config).
Proof.
  intro app. unfold psycopg2_connect. destruct conn_config; try apply steady_refl.
  destruct (pg_connect _ _) as [r d1]. split; [reflexivity | apply grows_refl].
Qed.

Lemma always_get_db_connection : always steady get_db_connection.
Proof.
  intro app. unfold get_db_connection.
  destruct (active_connection app) as [name|] eqn:Eactive; [|apply steady_refl].
  destruct (String.eqb name ""); [apply steady_refl|].
  apply always_and_then.
  - apply always_on_manager. apply get_connection_config_grows.
  - intros conn_config. destruct (negb (truthy conn_config)); [apply always_fail|].
    apply always_try; [apply always_psycopg2_connect | intro r; apply always_fail].
Qed.

Lemma always_execute_query (sql : string) : always steady (execute_query sql).
Proof.
  unfold execute_query. apply always_and_then; [apply always_get_db_connection|].
  intros _ app. destruct (pg_run _ _) as [r d1]. split; [reflexivity | apply grows_refl].
Qed.

Lemma always_natural_language_query (api_key : option string)
    (create : string -> result string) (question : string) :
  always steady (natural_language_query api_key create question).
Proof.
  unfold natural_language_query. apply always_try.
  - apply always_and_then; [apply always_get_metadata_extractor|]. intros _.
    apply always_and_then; [apply always_on_extractor|]. intros _.
    apply always_and_then; [apply always_on_extractor|]. intro schema.
    apply always_and_then; [intro app; apply steady_refl|]. intro sql.
    apply always_and_then; [apply always_execute_query|]. intro results.
    apply always_answer.
  - intros [e|status_code detail]; apply always_fail.
Qed.

Lemma route_keeps (api_key : option string) (create : string -> result string)
    (r : request) (app : App) :
  consistent app -> consistent (snd (route api_key create r app)).
Proof.
  intros Hconsistent. destruct r; cbn [route].
  - exact (steady_keeps _ _ (always_list_connections app) Hconsistent).
  - exact (steady_keeps _ _ (always_get_connection name app) Hconsistent).
  - exact (steady_keeps _ _
             (always_create_connection name host database user password port description
                app) Hconsistent).
  - exact (delete_connection_keeps name app Hconsistent).
  - exact (activate_connection_keeps name app Hconsistent).
  - exact (steady_keeps _ _ (always_get_schema app) Hconsistent).
  - exact (steady_keeps _ _ (always_get_full_metadata app) Hconsistent).
  - exact (steady_keeps _ _ (always_refresh_metadata app) Hconsistent).
  - exact (steady_keeps _ _ (always_natural_language_query api_key create question app)
             Hconsistent).
Qed.

(** The active connection is never a deleted one.  As long as the
    manager can save, after any sequence of requests to the connection,
    the metadata and the query endpoints, served one after the other and
    whatever each of them answered, the active connection, if there is
    one, names a stored connection. *)
Theorem active_connection_stays_stored (api_key : option string)
    (create : string -> result string) (requests : list request) (app : App) :
  consistent app -> consistent (serve api_key create requests app).
Proof.
  revert app. induction requests as [|r rest IH]; intros app Hconsistent; cbn [serve].
  - exact Hconsistent.
  - exact (IH _ (route_keeps api_key create r app Hconsistent)).
Qed.

(** Without a writable storage file the same is not true.  DELETE of the
    active connection then fails, the save raising after the connection
    was removed from the mapping and before the active connection is
    reset: the active connection is left naming a connection that the
    manager no longer holds. *)
Theorem failed_delete_leaves_active_dangling (name : string) (app : App) (d : dict) :
  active_connection app = Some name ->
  connections (connection_manager app) = VDict d ->
  dict_has name d = true ->
  storage_writable (connection_manager app) = false ->
  (exists e, fst (delete_connection name app) = Fails (PyError e)) /\
  active_connection (snd (delete_connection name app)) = Some name /\
  contains name (connections (connection_manager (snd (delete_connection name app))))
  = Ok false.
Proof.
  intros Hactive Hd Hknown Hw.
  assert (Hrun : exists e g1,
             ConnectionManager.delete_connection name (connection_manager app)
             = (Raise e, g1) /\ connections g1 = VDict (dict_remove name d)).
  { unfold ConnectionManager.delete_connection, bind, get_connections, lift,
      put_connections.
    rewrite Hd. unfold contains, delitem. rewrite Hknown. cbv beta iota.
    unfold _save_connections, set_connections. cbn [connections nonce storage_writable].
    destruct (seal (VDict (dict_remove name d)) (nonce (connection_manager app)))
      as [data|e].
    - rewrite Hw. do 2 eexists. split; reflexivity.
    - do 2 eexists. split; reflexivity. }
  destruct Hrun as (e & g1 & Hrun & Hd1).
  unfold delete_connection, and_then, on_manager. rewrite Hrun.
  cbn [fst snd active_connection connection_manager].
  split; [eexists; reflexivity|]. split; [exact Hactive|].
  rewrite Hd1. simpl. unfold dict_has. rewrite dict_get_remove_same. reflexivity.
Qed.

(** *** What the connection endpoints show *)

Lemma safe_copy_has_no_password (name : string) (conn v : pyval) :
  (let? safe_conn := copy conn in
   let? safe_conn1 := pop_default safe_conn "password" in
   setitem safe_conn1 "name" (VStr name)) = Ok v ->
  contains "password" v = Ok false.
Proof.
  destruct conn; try discriminate. simpl. intros [= <-].
  apply (shown_has_no_password name d).
Qed.

Lemma rmap_all {A B} (f : A -> result B) (P : B -> Prop) (l : list A) (ys : list B) :
  (forall x y, f x = Ok y -> P y) -> rmap f l = Ok ys -> Forall P ys.
Proof.
  intro Hf. revert ys. induction l as [|x l IH]; simpl; intros ys Hmap.
  - injection Hmap as <-. constructor.
  - destruct (f x) as [y|e] eqn:Efx; [|discriminate]. simpl in Hmap.
    destruct (rmap f l) as [ys1|e]; [|discriminate]. simpl in Hmap.
    injection Hmap as <-. constructor; [exact (Hf x y Efx) | exact (IH ys1 eq_refl)].
Qed.

(** No answer of a connection endpoint holds a password.  Whatever the
    manager holds, a dictionary returned by GET /connections/{name} or
    by POST /connections, and every dictionary of the list returned by
    GET /connections, has no [password] key. *)
Theorem connection_endpoints_hide_passwords (app : App) :
  (forall name v,
     fst (get_connection name app) = Returns v -> contains "password" v = Ok false) /\
  (forall name host database user password port description v,
     fst (create_connection name host database user password port description app)
     = Returns v ->
     contains "password" v = Ok false) /\
  (forall v,
     fst (list_connections app) = Returns v ->
     exists infos,
       v = VList infos /\ Forall (fun info => contains "password" info = Ok false) infos).
Proof.
  split; [|split].
  - intros name v. unfold get_connection, and_then, on_manager.
    destruct (ConnectionManager.get_connection name (connection_manager app))
      as [[conn|e] g1]; [|discriminate].
    destruct (negb (truthy conn)); [discriminate|].
    unfold of_result.
    destruct (let? safe_conn := copy conn in
              let? safe_conn1 := pop_default safe_conn "password" in
              setitem safe_conn1 "name" (VStr name)) as [safe|e] eqn:Esafe;
      [|discriminate].
    intros [= <-]. exact (safe_copy_has_no_password name conn safe Esafe).
  - intros name host database user password port description v.
    unfold create_connection, try_except_Exception, on_manager.
    destruct (add_connection name (VStr host) (VStr database) (VStr user) (VStr password)
                (VInt port) (VStr description) (connection_manager app))
      as [[info|e] g1] eqn:Eadd; [|discriminate].
    intros [= <-].
    unfold add_connection in Eadd. do 7 (bind_inv Eadd).
    unfold lift in Eadd. injection Eadd as Einfo _.
    subst info. match goal with
                | |- contains _ (VDict (dict_set _ _ (dict_remove _ ?c))) = _ =>
                    exact (shown_has_no_password name c)
                end.
  - intros v. unfold list_connections, and_then, on_manager.
    unfold ConnectionManager.list_connections, bind, get_connections, lift.
    cbv beta iota.
    destruct (items (connections (connection_manager app))) as [entries|e];
      [|discriminate]. cbn [rbind].
    destruct (rmap (fun entry : string * pyval =>
                      _safe_connection_info (fst entry) (snd entry)) entries)
      as [infos|e] eqn:Emap; [|discriminate].
    unfold answer. intros [= <-]. exists infos. split; [reflexivity|].
    apply (rmap_all (fun entry : string * pyval =>
                       _safe_connection_info (fst entry) (snd entry))
             (fun info => contains "password" info = Ok false) entries infos);
      [|exact Emap].
    intros [name conn] info Hinfo. exact (safe_copy_has_no_password name conn info Hinfo).
Qed.

(** *** The query endpoint *)

Lemma and_then_returns {A B} (m : Web A) (k : A -> Web B) (app app2 : App) (b : B) :
  and_then m k app = (Returns b, app2) ->
  exists a app1, m app = (Returns a, app1) /\ k a app1 = (Returns b, app2).
Proof.
  unfold and_then. destruct (m app) as [[a|r] app1]; intro E; [|discriminate].
  exists a, app1. split; [reflexivity | exact E].
Qed.

Lemma on_extractor_returns {A} (m : Stmt A) (app app1 : App) (a : A) :
  on_extractor m app = (Returns a, app1) -> m (extractor app) = (Ok a, extractor app1).
Proof.
  unfold on_extractor. destruct (m (extractor app)) as [[a1|e] s]; [|discriminate].
  intros [= <- <-]. reflexivity.
Qed.

Lemma convert_nl_to_sql_returns (api_key : option string)
    (create : string -> result string) (question schema sql : string) :
  convert_nl_to_sql api_key create question schema = Returns sql ->
  exists text, create (prompt_of question schema) = Ok text /\ sql = clean_markdown text.
Proof.
  unfold convert_nl_to_sql.
  destruct (negb _); [discriminate|].
  destruct (create (prompt_of question schema)) as [text|e]; [|discriminate].
  destruct (existsb _ forbidden); [discriminate|].
  intros [= <-]. exists text. split; reflexivity.
Qed.

(** POST /query never runs SQL that was made with the schema in view.
    Whenever the endpoint answers, the statement it ran and returns is
    the cleaned reply of the model to the prompt built with the notice
    that no metadata is available in the place of the schema: with a
    snapshot in hand the endpoint fails before it asks the model. *)
Theorem query_runs_sql_made_without_schema (api_key : option string)
    (create : string -> result string) (question : string) (app : App)
    (response : pyval) :
  fst (natural_language_query api_key create question app) = Returns response ->
  exists text results,
    create (prompt_of question no_metadata_notice) = Ok text /\
    response = VDict [("sql", VStr (clean_markdown text)); ("results", VList results);
                      ("row_count", VInt (Z.of_nat (List.length results)))].
Proof.
  unfold natural_language_query, try_except_Exception.
  match goal with
  | |- fst (match ?body app with _ => _ end) = _ -> _ =>
      destruct (body app) as [[answered|r] app5] eqn:Ebody
  end; [|destruct r; discriminate].
  cbn [fst]. intros [= ->].
  apply and_then_returns in Ebody. destruct Ebody as ([] & app1 & Hget & Ebody).
  apply and_then_returns in Ebody. destruct Ebody as (m & app2 & Hextract & Ebody).
  apply and_then_returns in Ebody. destruct Ebody as (schema & app3 & Hformat & Ebody).
  apply and_then_returns in Ebody. destruct Ebody as (sql & app4 & Hconvert & Ebody).
  apply and_then_returns in Ebody. destruct Ebody as (results & app6 & _ & Ebody).
  unfold answer in Ebody. injection Ebody as <- _.
  injection Hconvert as Hconvert _.
  destruct (get_metadata_extractor_returns app app1 Hget) as (params & s0 & Hnew).
  apply on_extractor_returns in Hextract. apply on_extractor_returns in Hformat.
  pose proof (cursor_after_extraction false 3 false true (extractor app1)) as Hcursor.
  rewrite Hnew in Hcursor. specialize (Hcursor ltac:(discriminate)). rewrite <- Hnew in Hcursor.
  rewrite Hextract in Hcursor. cbn [snd] in Hcursor.
  assert (Hschema : schema = no_metadata_notice).
  { destruct (truthy (metadata (extractor app2))) eqn:Etruthy.
    - destruct (formatting_raises_without_cursor (extractor app2) Hcursor Etruthy)
        as (e & s2 & Hraises).
      rewrite Hraises in Hformat. discriminate.
    - rewrite (format_for_ai_no_metadata (extractor app2) Etruthy) in Hformat.
      injection Hformat as <- _. reflexivity. }
  subst schema.
  destruct (convert_nl_to_sql_returns api_key create question no_metadata_notice sql Hconvert)
    as (text & Hreply & ->).
  exists text, results. split; [exact Hreply | reflexivity].
Qed.

(** *** Refreshing *)

(** A refresh never fills the cache.  Whenever POST /metadata/refresh
    answers, the cache file does not exist afterwards: it was removed,
    and the extraction that follows runs with [use_cache=False], which
    does not write it. *)
Theorem refresh_leaves_no_cache (app : App) (v : pyval) :
  fst (refresh_metadata app) = Returns v ->
  cache_file (extractor (snd (refresh_metadata app))) = None.
Proof.
  unfold refresh_metadata, try_except_Exception.
  match goal with
  | |- fst (match ?body app with _ => _ end) = _ -> _ =>
      destruct (body app) as [[answered|r] app4] eqn:Ebody
  end; [|discriminate].
  intros _. cbn [snd].
  apply and_then_returns in Ebody. destruct Ebody as ([] & app1 & _ & Ebody).
  apply and_then_returns in Ebody. destruct Ebody as ([] & app2 & Hclear & Ebody).
  apply and_then_returns in Ebody. destruct Ebody as (m & app3 & Hextract & Ebody).
  unfold answer in Ebody. injection Ebody as _ <-.
  apply on_extractor_returns in Hclear. apply on_extractor_returns in Hextract.
  pose proof (uncached_extraction true 3 true (extractor app2)) as Hsame.
  rewrite Hextract in Hsame. unfold same_cache_file in Hsame. cbn [snd] in Hsame.
  rewrite Hsame.
  destruct (clear_cache_state (extractor app1)) as (Hnone & _).
  rewrite Hclear in Hnone. exact Hnone.
Qed.

End Facts.

End MainFacts.

(** ** Runs in the concrete setting *)

Import Demo.

Lemma relationships_mapping_witness :
  exists m,
    fst (get_table_relationships (connected (answering is_table_relationships listing))) = Ok m /\
    forall t,
      dict_get t m =
      match edges_from t listing with
      | [] => None
      | es => Some (VList es)
      end.
Proof.
  apply (relationships_mapping
           (connected (answering is_table_relationships listing)) listing
           (mkServer true (answering is_table_relationships listing)));
    reflexivity.
Defined.

(** C1 (the code departs from it).  [format_for_ai] asks the cursor for
    the relationships instead of reading them from the snapshot.  Called
    after [extract_all_metadata], which closed the cursor, it raises
    [InterfaceError] and returns no text; and with the cursor open, the
    same snapshot is rendered differently on two servers. *)
Theorem format_for_ai_asks_the_cursor :
  fst (format_for_ai extracted) = Raise InterfaceError /\
  metadata (reopened healthy) = metadata (reopened relinked) /\
  fst (format_for_ai (reopened healthy)) <> fst (format_for_ai (reopened relinked)).
Proof.
  split; [vm_compute; reflexivity|]. split; [reflexivity|].
  intro E.
  apply (f_equal (fun r => match r with Ok text => String.length text | Raise _ => O end)) in E.
  vm_compute in E. discriminate.
Qed.

(** C2 (the code departs from it).  The foreign-key lookup has no
    handler: when its statement fails for the first table, the whole
    extraction raises and no snapshot is returned. *)
Theorem foreign_key_failure_aborts_extraction :
  fst (extract_all_metadata true 3 true false
         (fresh (mkServer true (failing is_foreign_keys)) None true seconds))
  = Raise (DatabaseError "statement failed").
Proof. vm_compute. reflexivity. Qed.

(** The sibling lookup has a handler: when its statement fails,
    [get_primary_keys] returns the empty list. *)
Example primary_key_failure_is_caught :
  fst (get_primary_keys (VStr "orders") (connected (failing is_primary_keys))) = Ok [].
Proof. reflexivity. Qed.

(** C3 as stated fails: after a failed connection the value returned has
    no 'total_tables' (nor any other) key, so it is not a snapshot whose
    counts are zero and whose mappings are empty. *)
Lemma connection_failure_has_no_counts :
  ~ (exists m,
       fst (extract_all_metadata true 3 true false (fresh unreachable None true seconds)) = Ok m /\
       subscript m "total_tables" = Ok (VInt 0) /\
       subscript m "total_views" = Ok (VInt 0) /\
       subscript m "tables" = Ok (VDict []) /\
       subscript m "views" = Ok (VDict []) /\
       subscript m "relationships" = Ok (VDict [])).
Proof.
  intros (m & Hm & Htotal & _). vm_compute in Hm. injection Hm as <-. discriminate.
Qed.

Lemma connection_failure_returns_empty_dict_witness :
  fst (extract_all_metadata true 3 true true
         (fresh unreachable (Some (entry empty_snapshot 0)) true two_hours_later))
  = Ok (VDict []) /\
  metadata (snd (extract_all_metadata true 3 true true
                   (fresh unreachable (Some (entry empty_snapshot 0)) true two_hours_later)))
  = metadata (fresh unreachable (Some (entry empty_snapshot 0)) true two_hours_later) /\
  cursor (snd (extract_all_metadata true 3 true true
                 (fresh unreachable (Some (entry empty_snapshot 0)) true two_hours_later)))
  = cursor (fresh unreachable (Some (entry empty_snapshot 0)) true two_hours_later).
Proof.
  apply (connection_failure_returns_empty_dict true 3 true true
           (fresh unreachable (Some (entry empty_snapshot 0)) true two_hours_later)
           OperationalError).
  - right. reflexivity.
  - reflexivity.
Defined.

Lemma cache_hit_skips_database_witness :
  fst (extract_all_metadata true 3 true true
         (fresh unreachable (Some (entry empty_snapshot 0)) true seconds)) = Ok empty_snapshot /\
  trace (snd (extract_all_metadata true 3 true true
                (fresh unreachable (Some (entry empty_snapshot 0)) true seconds)))
  = trace (fresh unreachable (Some (entry empty_snapshot 0)) true seconds) /\
  db (snd (extract_all_metadata true 3 true true
             (fresh unreachable (Some (entry empty_snapshot 0)) true seconds)))
  = db (fresh unreachable (Some (entry empty_snapshot 0)) true seconds) /\
  cursor (snd (extract_all_metadata true 3 true true
                 (fresh unreachable (Some (entry empty_snapshot 0)) true seconds)))
  = cursor (fresh unreachable (Some (entry empty_snapshot 0)) true seconds).
Proof.
  apply (cache_hit_skips_database true 3 true
           (fresh unreachable (Some (entry empty_snapshot 0)) true seconds)
           (entry empty_snapshot 0) empty_snapshot 0).
  - reflexivity.
  - reflexivity.
  - unfold time_now, cache_ttl. simpl. lia.
Defined.

Lemma empty_table_short_circuit_witness :
  exists m tables table_meta,
    fst (extract_all_metadata true 3 true false (fresh healthy None true seconds)) = Ok m /\
    subscript m "tables" = Ok (VDict tables) /\
    dict_get "orders" tables = Some table_meta /\
    subscript table_meta "row_count" = Ok (VInt 0) /\
    contains "column_statistics" table_meta = Ok false /\
    contains "sample_data" table_meta = Ok false.
Proof.
  eexists _, _, _.
  split; [vm_compute; reflexivity|].
  split; [reflexivity|]. split; [reflexivity|]. split; [reflexivity|].
  eapply (empty_table_short_circuit true 3 true false (fresh healthy None true seconds)
            _ _ "orders" _).
  - left. reflexivity.
  - vm_compute. reflexivity.
  - reflexivity.
  - reflexivity.
  - reflexivity.
Defined.

(** A table with rows gets both fields in the same run. *)
Example populated_table_has_both_fields :
  exists m tables users,
    fst (extract_all_metadata true 3 true false (fresh healthy None true seconds)) = Ok m /\
    subscript m "tables" = Ok tables /\
    subscript tables "users" = Ok users /\
    contains "column_statistics" users = Ok true /\
    contains "sample_data" users = Ok true.
Proof.
  eexists _, _, _. split; [vm_compute; reflexivity|]. repeat split; reflexivity.
Qed.



Lemma cache_round_trip_witness :
  fst (save_to_cache (holding empty_snapshot)) = Ok tt /\
  fst (load_from_cache (snd (save_to_cache (holding empty_snapshot)))) = Ok true /\
  metadata (snd (load_from_cache (snd (save_to_cache (holding empty_snapshot)))))
  = metadata (holding empty_snapshot).
Proof.
  apply (cache_round_trip (holding empty_snapshot) (snd (save_to_cache (holding empty_snapshot)))).
  - intro v. reflexivity.
  - reflexivity.
  - reflexivity.
  - vm_compute. intro E. discriminate E.
Defined.

(** A write that fails is dropped without an error: the file is as
    before, here absent, and the next lookup is a miss. *)
Example unwritable_cache_put_is_dropped :
  fst (save_to_cache (holding_read_only empty_snapshot)) = Ok tt /\
  cache_file (snd (save_to_cache (holding_read_only empty_snapshot))) = None /\
  fst (load_from_cache (snd (save_to_cache (holding_read_only empty_snapshot)))) = Ok false.
Proof. repeat split; reflexivity. Qed.

(** The three kinds of miss, and a hit that ignores an unreachable server. *)
Example cache_misses :
  fst (load_from_cache (fresh healthy None true seconds)) = Ok false /\
  fst (load_from_cache (fresh healthy (Some None) true seconds)) = Ok false /\
  fst (load_from_cache (fresh healthy (Some (Some (VInt 5))) true seconds)) = Ok false /\
  fst (load_from_cache
         (fresh healthy (Some (entry empty_snapshot 0)) true two_hours_later)) = Ok false /\
  fst (load_from_cache
         (fresh healthy (Some (entry empty_snapshot 0)) true (fun _ => cache_ttl))) = Ok true.
Proof. repeat split; reflexivity. Qed.

Lemma zero_total_percentages_witness :
  fst (column_statistics_step (VStr "orders") [] (column "id" "integer" 1)
         (connected (answering is_column_statistics [zero_counts])))
  = Ok (dict_set "id" (zero_total_stats 0 (VInt 0)) []).
Proof.
  apply (zero_total_percentages
           (connected (answering is_column_statistics [zero_counts]))
           (VStr "orders") [] (column "id" "integer" 1) zero_counts []
           (mkServer true (answering is_column_statistics [zero_counts])));
    reflexivity.
Defined.

(** ** Further runs in the concrete setting *)

Import DemoMore.

Lemma extraction_releases_cursor_witness :
  cursor (snd (extract_all_metadata true 3 true false
                 (fresh (mkServer true (failing is_foreign_keys)) None true seconds)))
  <> CursorOpen.
Proof.
  apply (extraction_releases_cursor true 3 true false
           (fresh (mkServer true (failing is_foreign_keys)) None true seconds)).
  discriminate.
Defined.

Lemma failed_extraction_keeps_snapshot_witness :
  metadata (snd (extract_all_metadata true 3 true true
                   (holding_on (mkServer true (failing is_foreign_keys)) empty_snapshot)))
  = metadata (holding_on (mkServer true (failing is_foreign_keys)) empty_snapshot) /\
  cache_file (snd (extract_all_metadata true 3 true true
                     (holding_on (mkServer true (failing is_foreign_keys)) empty_snapshot)))
  = cache_file (holding_on (mkServer true (failing is_foreign_keys)) empty_snapshot).
Proof.
  apply (failed_extraction_keeps_snapshot true 3 true true
           (holding_on (mkServer true (failing is_foreign_keys)) empty_snapshot)
           (DatabaseError "statement failed")).
  vm_compute. reflexivity.
Defined.

Lemma session_aborts_transaction :
  @aborts_transaction session_database (fun d : server => aborted d = true).
Proof.
  split.
  - intros d q e. simpl. destruct (aborted d) eqn:Ed; simpl; [intros _; exact Ed|].
    destruct (answer d q); simpl; [discriminate | reflexivity].
  - intros d q Hd. simpl. rewrite Hd. eexists. reflexivity.
Qed.

(** The statements of a session do not change what the server answers. *)
Lemma served_answers (d0 d : server) :
  @served session_database d0 d -> answer d = answer d0.
Proof.
  intro Hs. induction Hs as [d|d d1 q _ IH]; [reflexivity|].
  rewrite IH. simpl. destruct (aborted d); [reflexivity|].
  destruct (answer d q); reflexivity.
Qed.

Lemma caught_failure_aborts_extraction_witness :
  exists e,
    fst (extract_all_metadata true 3 true false
           (fresh (mkServer true (failing is_primary_keys)) None true seconds))
    = Raise e.
Proof.
  apply (@caught_failure_aborts_extraction session_database option_pickle plain_lib
           (fun d : server => aborted d = true) true 3 true false
           (fresh (mkServer true (failing is_primary_keys)) None true seconds) tt
           (mkServer true (failing is_primary_keys))
           [[("table_name", VStr "orders"); ("table_type", VStr "BASE TABLE");
             ("table_comment", VNone); ("column_count", VInt 2)];
            [("table_name", VStr "users"); ("table_type", VStr "BASE TABLE");
             ("table_comment", VStr "registered users"); ("column_count", VInt 2)]]
           [("table_name", VStr "users"); ("table_type", VStr "BASE TABLE");
            ("table_comment", VStr "registered users"); ("column_count", VInt 2)]
           (VStr "users")).
  - exact session_aborts_transaction.
  - left. reflexivity.
  - reflexivity.
  - reflexivity.
  - right. left. reflexivity.
  - reflexivity.
  - intros d Hd. apply served_answers in Hd. simpl. rewrite Hd.
    destruct (aborted d); eexists; reflexivity.
Defined.

(** What the caller sees is the error of the aborted transaction, raised
    by the foreign-key statement of the first table, and not the failure
    of the primary-key statement that the handler has swallowed. *)
Example caught_failure_surfaces_as_aborted_transaction :
  fst (extract_all_metadata true 3 true false
         (fresh (mkServer true (failing is_primary_keys)) None true seconds))
  = Raise in_failed_transaction /\
  trace (snd (extract_all_metadata true 3 true false
                (fresh (mkServer true (failing is_primary_keys)) None true seconds)))
  = [Connect; Execute Q_tables_info; Execute Q_views_info; Execute Q_table_relationships;
     Execute (Q_columns_info (VStr "orders")); Execute (Q_primary_keys (VStr "orders"));
     Execute (Q_foreign_keys (VStr "orders")); Close].
Proof. split; vm_compute; reflexivity. Qed.

Lemma format_without_cursor_renders_nothing_witness :
  (truthy (metadata extracted) = false /\
   fst (format_for_ai extracted) = Ok no_metadata_notice) \/
  (truthy (metadata extracted) = true /\ exists e, fst (format_for_ai extracted) = Raise e).
Proof.
  apply (format_without_cursor_renders_nothing extracted). vm_compute. discriminate.
Defined.

Lemma indexes_grouped_by_name_witness :
  exists m,
    fst (get_indexes (VStr "orders") (connected (answering is_indexes index_listing)))
    = Ok (dict_values m) /\
    NoDup (map fst m) /\
    forall n, dict_get n m = index_group n index_listing.
Proof.
  apply (indexes_grouped_by_name (connected (answering is_indexes index_listing))
           (VStr "orders") index_listing
           (mkServer true (answering is_indexes index_listing)));
    reflexivity.
Defined.

(** The two-column index is one entry with both columns. *)
Example two_column_index_is_one_entry :
  fst (get_indexes (VStr "orders") (connected (answering is_indexes index_listing)))
  = Ok [VDict [("index_name", VStr "orders_pkey"); ("columns", VList [VStr "id"]);
               ("is_unique", VBool true); ("is_primary", VBool true);
               ("index_type", VStr "btree")];
        VDict [("index_name", VStr "orders_user_day");
               ("columns", VList [VStr "user_id"; VStr "day"]);
               ("is_unique", VBool true); ("is_primary", VBool false);
               ("index_type", VStr "btree")]].
Proof. reflexivity. Qed.

Lemma column_statistics_cover_columns_witness :
  exists stats,
    fst (get_column_statistics (VStr "users") (connected catalog)) = Ok stats /\
    (forall c, dict_has c stats
               = existsb (column_name_is c) (columns_of (VStr "users"))) /\
    (forall c v, dict_get c stats = Some v -> stats_shape v) /\
    (forall c v, dict_get c stats = Some v ->
                 exists d1, served healthy d1 /\ column_entry_of d1 c "users" v).
Proof.
  apply (column_statistics_cover_columns (connected catalog)
           (VStr "users") (columns_of (VStr "users")) healthy);
    reflexivity.
Defined.

(** The percentages are rounded to two places. *)
Example thirds_are_rounded :
  column_stats_entry (VDict third_counts)
  = Ok (VDict [("null_count", VInt 1); ("null_percentage", VFloat 0x1.0aa3d70a3d70ap+5%float (* 33.33 *));
               ("distinct_count", VInt 2); ("distinct_percentage", VFloat 0x1.0aae147ae147bp+6%float (* 66.67 *))]).
Proof. vm_compute. reflexivity. Qed.

(** When the statement of column id fails, the statement of column name
    meets the aborted transaction, and both entries are errors. *)
Example failed_column_spoils_the_next :
  fst (get_column_statistics (VStr "users") (connected (failing (is_statistics_of "id"))))
  = Ok [("id", VDict [("error", VStr "statement failed")]);
        ("name",
         VDict [("error",
                 VStr "current transaction is aborted, commands ignored until end of transaction block")])].
Proof. vm_compute. reflexivity. Qed.

Lemma cached_snapshot_served_to_new_extractor_witness :
  exists m,
    fst (extract_all_metadata true 3 true true (fresh healthy None true two_hours_later))
    = Ok m /\
    fst (extract_all_metadata false 0 false true
           (new_extractor [("database", VStr "warehouse")]
              (snd (extract_all_metadata true 3 true true
                      (fresh healthy None true two_hours_later)))))
    = Ok m /\
    trace (snd (extract_all_metadata false 0 false true
                  (new_extractor [("database", VStr "warehouse")]
                     (snd (extract_all_metadata true 3 true true
                             (fresh healthy None true two_hours_later))))))
    = trace (snd (extract_all_metadata true 3 true true
                    (fresh healthy None true two_hours_later))) /\
    subscript m "database_name" = Ok (VStr "shop").
Proof.
  eexists. split; [vm_compute; reflexivity|].
  eapply (cached_snapshot_served_to_new_extractor true 3 true false 0 false
            [("database", VStr "warehouse")]
            (fresh healthy None true two_hours_later) _ tt healthy).
  - intro v. reflexivity.
  - intros i j. unfold two_hours_later, cache_ttl. simpl. lia.
  - reflexivity.
  - right. reflexivity.
  - reflexivity.
  - vm_compute. reflexivity.
Defined.

Lemma save_to_text_after_extraction_empties_file_witness :
  (exists e,
     fst (save_to_text "database_schema.txt"
            (snd (extract_all_metadata true 3 true false (fresh healthy None true seconds)),
             on_disk)) = Raise e) /\
  file_text
    (snd (snd (save_to_text "database_schema.txt"
                 (snd (extract_all_metadata true 3 true false
                         (fresh healthy None true seconds)),
                  on_disk)))) "database_schema.txt" = Some "".
Proof.
  eapply (save_to_text_after_extraction_empties_file true 3 true false
            (fresh healthy None true seconds) _ "database_schema.txt" on_disk).
  - vm_compute. discriminate.
  - vm_compute. reflexivity.
  - reflexivity.
  - reflexivity.
Defined.

(** ** Runs of the connection manager *)

Module ConnectionManagerRuns.
Import ConnectionManager ConnectionManagerFacts.

Lemma office_can_save : can_save (office true).
Proof.
  split; [reflexivity|]. intros v n Hv. exists (v, n). simpl. rewrite Hv. reflexivity.
Qed.

Lemma plain_vault_round_trip : vault_round_trip.
Proof.
  intros v n data. simpl. destruct (json_value v); [|discriminate].
  intro E. injection E as <-. reflexivity.
Qed.

Lemma list_connections_hides_passwords_witness :
  exists infos,
    list_connections (office true) = (Ok infos, office true) /\
    Forall2 (fun (item : string * pyval) (info : pyval) =>
               contains "password" info = Ok false /\
               subscript info "name" = Ok (VStr (fst item)) /\
               forall k, String.eqb k "password" = false -> String.eqb k "name" = false ->
                         subscript info k = subscript (snd item) k)
            saved infos.
Proof.
  apply (list_connections_hides_passwords (office true) saved); [reflexivity|].
  intros name v Hin. simpl in Hin.
  destruct Hin as [E|[E|[]]]; injection E as <- <-; eexists; reflexivity.
Defined.

Lemma added_connection_config_witness :
  fst (get_connection_config "lab"
         (snd (add_connection "lab" (VStr "lab.local") (VStr "assays") (VStr "ann")
                 (VStr "pipette") (VInt 5433) (VStr "") (office true))))
  = Ok (config_of (VStr "lab.local") (VStr "assays") (VStr "ann") (VStr "pipette")
          (VInt 5433)).
Proof.
  apply (added_connection_config (office true) saved "lab" (VStr "lab.local") (VStr "assays")
           (VStr "ann") (VStr "pipette") (VInt 5433) (VStr "")
           (VStr (isoformat (seconds 0)))).
  - reflexivity.
  - reflexivity.
  - exact office_can_save.
  - reflexivity.
  - reflexivity.
Defined.

Lemma replaced_connection_keeps_created_at_witness :
  exists info,
    fst (add_connection "shop" (VStr "db2.local") (VStr "shop") (VStr "app") (VStr "n3w")
           (VInt 5432) (VStr "moved") (office true)) = Ok info /\
    subscript info "created_at" = Ok (VStr "2024-01-01T00:00:00") /\
    contains "password" info = Ok false /\
    subscript (connections
                 (snd (add_connection "shop" (VStr "db2.local") (VStr "shop") (VStr "app")
                         (VStr "n3w") (VInt 5432) (VStr "moved") (office true))))
              "shop"
    = Ok (stored_entry (VStr "db2.local") (VStr "shop") (VStr "app") (VStr "n3w") (VInt 5432)
            (VStr "moved") (VStr "2024-01-01T00:00:00")) /\
    exists d1,
      connections (snd (add_connection "shop" (VStr "db2.local") (VStr "shop") (VStr "app")
                          (VStr "n3w") (VInt 5432) (VStr "moved") (office true)))
      = VDict d1 /\ map fst d1 = map fst saved.
Proof.
  eapply (replaced_connection_keeps_created_at (office true) saved _ "shop").
  - reflexivity.
  - reflexivity.
  - reflexivity.
  - exact office_can_save.
  - reflexivity.
  - reflexivity.
Defined.

Lemma failed_save_keeps_memory_change_witness :
  (exists e,
     fst (add_connection "lab" (VStr "lab.local") (VStr "assays") (VStr "ann")
            (VStr "pipette") (VInt 5433) (VStr "") (office false)) = Raise e) /\
  subscript (connections
               (snd (add_connection "lab" (VStr "lab.local") (VStr "assays") (VStr "ann")
                       (VStr "pipette") (VInt 5433) (VStr "") (office false))))
            "lab"
  = Ok (stored_entry (VStr "lab.local") (VStr "assays") (VStr "ann") (VStr "pipette")
          (VInt 5433) (VStr "") (VStr (isoformat (seconds 0)))) /\
  storage (snd (add_connection "lab" (VStr "lab.local") (VStr "assays") (VStr "ann")
                  (VStr "pipette") (VInt 5433) (VStr "") (office false)))
  = storage (office false).
Proof.
  apply (failed_save_keeps_memory_change (office false) saved "lab"); reflexivity.
Defined.

Lemma deleted_connection_is_gone_witness :
  fst (delete_connection "shop" (office true)) = Ok true /\
  fst (get_connection "shop" (snd (delete_connection "shop" (office true)))) = Ok VNone /\
  forall other,
    String.eqb other "shop" = false ->
    subscript (connections (snd (delete_connection "shop" (office true)))) other
    = subscript (connections (office true)) other.
Proof.
  exact (deleted_connection_is_gone (office true) saved "shop" eq_refl office_can_save
           eq_refl).
Defined.

Lemma saved_connections_are_reloaded_witness :
  _load_connections
    (snd (add_connection "lab" (VStr "lab.local") (VStr "assays") (VStr "ann")
            (VStr "pipette") (VInt 5433) (VStr "") (office true)))
  = connections
      (snd (add_connection "lab" (VStr "lab.local") (VStr "assays") (VStr "ann")
              (VStr "pipette") (VInt 5433) (VStr "") (office true))).
Proof.
  apply (saved_connections_are_reloaded (office true) saved "lab" (VStr "lab.local")
           (VStr "assays") (VStr "ann") (VStr "pipette") (VInt 5433) (VStr "")
           (VStr (isoformat (seconds 0)))).
  - exact plain_vault_round_trip.
  - reflexivity.
  - reflexivity.
  - exact office_can_save.
  - reflexivity.
  - reflexivity.
Defined.

Lemma export_then_import_witness :
  exists exported g1,
    export_connection "shop" false (office true) = (Ok exported, g1) /\
    contains "password" exported = Ok false /\
    fst (import_connection exported g1) = Ok "shop" /\
    subscript (connections (snd (import_connection exported g1))) "shop"
    = Ok (stored_entry (VStr "db.local") (VStr "shop") (VStr "app") (VStr "") (VInt 5432)
            (VStr "nightly copy") (VStr "2024-01-01T00:00:00")).
Proof.
  eapply (export_then_import (office true) saved _ "shop" _ _ _ (VStr "s3cret") _ _ _ false).
  - reflexivity.
  - reflexivity.
  - reflexivity.
  - reflexivity.
  - reflexivity.
  - reflexivity.
  - reflexivity.
  - reflexivity.
  - reflexivity.
  - exact office_can_save.
  - reflexivity.
Defined.

Lemma lookup_needs_writable_storage_witness :
  (exists err, fst (get_connection "shop" (office false)) = Raise err) /\
  (exists err, fst (get_connection_config "shop" (office false)) = Raise err) /\
  subscript (connections (snd (get_connection "shop" (office false)))) "shop"
  = Ok (VDict (dict_set "last_used" (VStr (isoformat (clock (office false)
                                                         (ticks (office false)))))
                 [("host", VStr "db.local"); ("database", VStr "shop"); ("user", VStr "app");
                  ("password", VStr "s3cret"); ("port", VInt 5432);
                  ("description", VStr "nightly copy");
                  ("created_at", VStr "2024-01-01T00:00:00"); ("last_used", VNone)])) /\
  forall other, dict_has other saved = false ->
                get_connection other (office false) = (Ok VNone, office false).
Proof.
  apply (lookup_needs_writable_storage (office false) saved _ "shop"); reflexivity.
Defined.

End ConnectionManagerRuns.

(** ** Runs of the web application *)

Module MainRuns.
Import ConnectionManager Main MainFacts.

Lemma no_active_connection_is_a_500_witness :
  get_schema (desk None healthy None)
  = (Fails (HTTPException 500 (str_of_http 400 "No active database connection")),
     desk None healthy None) /\
  get_full_metadata (desk None healthy None)
  = (Fails (HTTPException 500 (str_of_http 400 "No active database connection")),
     desk None healthy None) /\
  refresh_metadata (desk None healthy None)
  = (Fails (HTTPException 500 (str_of_http 400 "No active database connection")),
     desk None healthy None).
Proof.
  apply (no_active_connection_is_a_500 (desk None healthy None)). reflexivity.
Defined.

Lemma refresh_reports_success_when_unreachable_witness :
  fst (refresh_metadata (desk (Some "shop") unreachable (Some (entry empty_snapshot 0))))
  = Returns (VDict [("status", VStr "success"); ("message", VStr "Metadata refreshed")]) /\
  cache_file
    (extractor
       (snd (refresh_metadata (desk (Some "shop") unreachable
                                 (Some (entry empty_snapshot 0))))))
  = None /\
  metadata
    (extractor
       (snd (refresh_metadata (desk (Some "shop") unreachable
                                 (Some (entry empty_snapshot 0))))))
  = VDict [].
Proof.
  eapply (refresh_reports_success_when_unreachable
            (desk (Some "shop") unreachable (Some (entry empty_snapshot 0)))
            saved _ "shop" _ _ _ _ _ OperationalError).
  - reflexivity.
  - discriminate.
  - reflexivity.
  - reflexivity.
  - reflexivity.
  - reflexivity.
  - reflexivity.
  - reflexivity.
  - reflexivity.
  - exact ConnectionManagerRuns.office_can_save.
  - reflexivity.
  - reflexivity.
Defined.

(** On the healthy server the schema endpoint answers 500: the snapshot
    is extracted, and formatting it asks the closed cursor. *)
Example schema_of_healthy_server_is_a_500 :
  fst (get_schema (desk (Some "shop") healthy None))
  = Fails (HTTPException 500 (str_of_exn InterfaceError)) /\
  exists m,
    metadata (extractor (snd (get_schema (desk (Some "shop") healthy None)))) = m /\
    subscript m "total_tables" = Ok (VInt 2).
Proof.
  split; [vm_compute; reflexivity|]. eexists. split; [reflexivity|]. vm_compute. reflexivity.
Qed.

Lemma rstrip_append_kept (s t : string) :
  rstrip t <> "" -> rstrip (s ++ t) = (s ++ rstrip t)%string.
Proof.
  intro Hkept. induction s as [|c s IH]; simpl; [reflexivity|].
  rewrite IH. destruct (s ++ rstrip t)%string eqn:E; [|reflexivity].
  destruct s; simpl in E; [contradiction | discriminate].
Qed.

Lemma rstrip_append_blank (s t : string) : rstrip t = "" -> rstrip (s ++ t) = rstrip s.
Proof.
  intro Hblank. induction s as [|c s IH]; simpl; [exact Hblank|].
  rewrite IH. reflexivity.
Qed.

Lemma strip_keeps_backticks (s : string) :
  str_strip ("`" ++ s ++ "`") = ("`" ++ s ++ "`")%string.
Proof.
  unfold str_strip, plain_web.
  change ("`" ++ s ++ "`")%string with (String "`" s ++ "`")%string.
  rewrite rstrip_append_kept; [reflexivity | discriminate].
Qed.

Lemma strip_drops_newlines (s : string) : str_strip (nl ++ s ++ nl) = str_strip s.
Proof.
  unfold str_strip, plain_web.
  change (nl ++ s ++ nl)%string with (String (ascii_of_nat 10) s ++ nl)%string.
  rewrite rstrip_append_blank; [|reflexivity].
  simpl. destruct (rstrip s); reflexivity.
Qed.

Lemma fenced_reply_is_unwrapped_witness :
  convert_nl_to_sql (Some "sk-test")
    (fun _ => Ok ("```sql" ++ nl ++ "SELECT name FROM users LIMIT 10;" ++ nl ++ "```")%string)
    "Who are the users?" no_metadata_notice
  = Returns (str_strip "SELECT name FROM users LIMIT 10;").
Proof.
  apply (fenced_reply_is_unwrapped "sk-test"
           (fun _ => Ok ("```sql" ++ nl ++ "SELECT name FROM users LIMIT 10;" ++ nl
                         ++ "```")%string)
           "Who are the users?" no_metadata_notice "SELECT name FROM users LIMIT 10;").
  - exact strip_keeps_backticks.
  - exact strip_drops_newlines.
  - discriminate.
  - left. reflexivity.
  - vm_compute. reflexivity.
Defined.

Lemma forbidden_operation_is_a_500_witness :
  convert_nl_to_sql (Some "sk-test") (fun _ => Ok "SELECT 1; DROP TABLE users;")
    "Remove the users" no_metadata_notice
  = Fails (HTTPException 500
             (fstr ["Failed to generate SQL: ";
                    str_of_http 400 "Query contains forbidden operations"])).
Proof.
  apply (forbidden_operation_is_a_500 "sk-test" (fun _ => Ok "SELECT 1; DROP TABLE users;")
           "Remove the users" no_metadata_notice "SELECT 1; DROP TABLE users;" "DROP").
  - discriminate.
  - reflexivity.
  - left. reflexivity.
  - vm_compute. reflexivity.
Defined.

(** The filter looks for the words anywhere in the upper-cased text: a
    column named created_at is enough for a SELECT to be refused. *)
Example select_of_created_at_is_refused :
  convert_nl_to_sql (Some "sk-test") (fun _ => Ok "SELECT created_at FROM users LIMIT 5;")
    "When were the users created?" no_metadata_notice
  = Fails (HTTPException 500
             "Failed to generate SQL: 400: Query contains forbidden operations").
Proof. vm_compute. reflexivity. Qed.

Lemma desk_consistent : consistent (desk (Some "shop") healthy None).
Proof.
  split; [|reflexivity].
  split; [exact ConnectionManagerRuns.office_can_save|]. exists saved. split; reflexivity.
Qed.

Lemma active_connection_stays_stored_witness :
  consistent
    (serve (Some "sk-test") (fun _ => Ok "SELECT count(id) FROM users;")
       [CreateConnection "lab" "lab.local" "assays" "ann" "pipette" 5433 "";
        ActivateConnection "lab"; DeleteConnection "shop"; GetSchema;
        NaturalLanguageQuery "How many users?";
        GetConnection "lab"; DeleteConnection "lab"; ListConnections]
       (desk (Some "shop") healthy None)).
Proof.
  apply (active_connection_stays_stored (Some "sk-test")
           (fun _ => Ok "SELECT count(id) FROM users;")
           [CreateConnection "lab" "lab.local" "assays" "ann" "pipette" 5433 "";
            ActivateConnection "lab"; DeleteConnection "shop"; GetSchema;
            NaturalLanguageQuery "How many users?";
            GetConnection "lab"; DeleteConnection "lab"; ListConnections]
           (desk (Some "shop") healthy None)).
  exact desk_consistent.
Defined.

(** In that run [lab] becomes the active connection, stays so when
    [shop] is deleted, and no connection is active once [lab] is
    deleted. *)
Example active_connection_follows_the_requests :
  active_connection
    (serve (Some "sk-test") (fun _ => Ok "SELECT count(id) FROM users;")
       [CreateConnection "lab" "lab.local" "assays" "ann" "pipette" 5433 "";
        ActivateConnection "lab"; DeleteConnection "shop"; GetSchema]
       (desk (Some "shop") healthy None)) = Some "lab" /\
  active_connection
    (serve (Some "sk-test") (fun _ => Ok "SELECT count(id) FROM users;")
       [CreateConnection "lab" "lab.local" "assays" "ann" "pipette" 5433 "";
        ActivateConnection "lab"; DeleteConnection "shop"; GetSchema;
        NaturalLanguageQuery "How many users?";
        GetConnection "lab"; DeleteConnection "lab"; ListConnections]
       (desk (Some "shop") healthy None)) = None.
Proof. split; vm_compute; reflexivity. Qed.

Lemma failed_delete_leaves_active_dangling_witness :
  (exists e, fst (delete_connection "shop" stuck_desk) = Fails (PyError e)) /\
  active_connection (snd (delete_connection "shop" stuck_desk)) = Some "shop" /\
  contains "shop" (connections (connection_manager (snd (delete_connection "shop" stuck_desk))))
  = Ok false.
Proof.
  apply (failed_delete_leaves_active_dangling "shop" stuck_desk saved); reflexivity.
Defined.

Lemma connection_endpoints_hide_passwords_witness :
  exists v,
    fst (get_connection "shop" (desk None healthy None)) = Returns v /\
    contains "password" v = Ok false.
Proof.
  eexists. split; [vm_compute; reflexivity|].
  apply (proj1 (connection_endpoints_hide_passwords (desk None healthy None)) "shop").
  vm_compute. reflexivity.
Defined.

(** A cache file that holds an empty snapshot lets the query endpoint
    answer: the model is asked without a schema, and its statement run. *)
Lemma query_runs_sql_made_without_schema_witness :
  exists text results,
    (fun _ : string => Ok "SELECT count(id) FROM users;")
      (prompt_of "How many users?" no_metadata_notice) = Ok text /\
    VDict [("sql", VStr "SELECT count(id) FROM users;");
           ("results", VList [VDict [("count", VInt 2)]]); ("row_count", VInt 1)]
    = VDict [("sql", VStr (clean_markdown text)); ("results", VList results);
             ("row_count", VInt (Z.of_nat (List.length results)))].
Proof.
  apply (query_runs_sql_made_without_schema (Some "sk-test")
           (fun _ => Ok "SELECT count(id) FROM users;") "How many users?"
           (desk (Some "shop") healthy (Some (entry (VDict []) 0)))).
  vm_compute. reflexivity.
Defined.

(** On the healthy server without a cache file the query endpoint fails
    before the model is asked. *)
Example query_of_healthy_server_is_a_500 :
  fst (natural_language_query (Some "sk-test") (fun _ => Ok "SELECT count(id) FROM users;")
         "How many users?" (desk (Some "shop") healthy None))
  = Fails (HTTPException 500 (fstr ["Unexpected error: "; str_of_exn InterfaceError])).
Proof. vm_compute. reflexivity. Qed.

Lemma refresh_leaves_no_cache_witness :
  cache_file
    (extractor
       (snd (refresh_metadata (desk (Some "shop") healthy (Some (entry empty_snapshot 0))))))
  = None.
Proof.
  apply (refresh_leaves_no_cache (desk (Some "shop") healthy (Some (entry empty_snapshot 0)))
           (VDict [("status", VStr "success"); ("message", VStr "Metadata refreshed")])).
  vm_compute. reflexivity.
Defined.

End MainRuns.
